(** * vscode-copilot-bridge: the HTTP dialect adapters

    A shallow embedding of the bridge's HTTP layer:
    - [src/http/auth.ts]            ([isAuthorized])
    - [src/http/formatter.ts]       ([fixBoltArtifactFormat])
    - [src/http/routes/responses.ts] (the AI-SDK [/v1/responses] adapter)
    - [src/http/routes/anthropic.ts] (the Anthropic [/v1/messages] adapter)
    - [src/http/routes/gemini.ts]    (the Gemini [generateContent] adapter)
    - [src/http/server.ts]          (the authentication middleware)

    JavaScript strings are modelled as [string] (code units below 256),
    module-level mutable variables as explicit state, thrown exceptions as
    sums, and the effects a handler has on the outside world (response
    writes, counter updates, disposals) as an ordered effect log. *)

From Stdlib Require Import ZArith QArith Qround Ascii String List Lia Bool.
From stdpp Require Import gmap strings list pretty.
From Equations Require Import Equations.
From Equations.Prop Require Import Logic.

Local Open Scope Z_scope.
Local Open Scope stdpp_scope.

(** ** JavaScript string primitives *)

Module JS.

(** [WhiteSpace] and [LineTerminator] code units, as [String.prototype.trim]
    strips them (tab, LF, VT, FF, CR, space, NBSP). *)
Definition isWhiteSpace (c : ascii) : bool :=
  match c with
  | "009" | "010" | "011" | "012" | "013" | " " | "160" => true
  | _ => false
  end%char.

(** The one-character string [\n]. *)
Definition newline : string := String "010"%char EmptyString.

(** [!s] for a string: the empty string is the only falsy one. *)
Definition isEmpty (s : string) : bool :=
  match s with EmptyString => true | String _ _ => false end.

(** [s.startsWith(p)] *)
Definition startsWith (s p : string) : bool := String.prefix p s.

(** [s.slice(n)] for [0 <= n] *)
Fixpoint sliceFrom (n : nat) (s : string) : string :=
  match n, s with
  | O, _ => s
  | S n', String _ s' => sliceFrom n' s'
  | S _, EmptyString => EmptyString
  end.

(** [s.slice(0, n)] for [0 <= n] *)
Fixpoint sliceTo (n : nat) (s : string) : string :=
  match n, s with
  | O, _ => EmptyString
  | S n', String c s' => String c (sliceTo n' s')
  | S _, EmptyString => EmptyString
  end.

(** [s.indexOf(c)] for a one-character needle; [None] stands for [-1]. *)
Fixpoint indexOf (c : ascii) (s : string) : option nat :=
  match s with
  | EmptyString => None
  | String d s' => if Ascii.eqb d c then Some O else option_map S (indexOf c s')
  end.

Fixpoint trimStart (s : string) : string :=
  match s with
  | EmptyString => EmptyString
  | String c s' => if isWhiteSpace c then trimStart s' else s
  end.

Fixpoint trimEnd (s : string) : string :=
  match s with
  | EmptyString => EmptyString
  | String c s' =>
      let r := trimEnd s' in
      if isWhiteSpace c && isEmpty r then EmptyString else String c r
  end.

(** [s.trim()] *)
Definition trim (s : string) : string := trimEnd (trimStart s).

(** [parts.join(sep)] on an array of strings *)
Definition join (sep : string) (parts : list string) : string :=
  String.concat sep parts.

(** [a.slice(start)] on an array, for any integer [start]: a negative
    [start] counts from the end, and both ends are clamped. *)
Definition arraySlice {A} (start : Z) (a : list A) : list A :=
  let len := Z.of_nat (length a) in
  let k := if start <? 0 then Z.max (len + start) 0 else Z.min start len in
  drop (Z.to_nat k) a.

(** [Math.ceil(n / d)] for an integer [n] and a positive integer [d]: the
    quotient is taken in the rationals before rounding up. *)
Definition ceilDiv (n : Z) (d : positive) : Z := Qceiling (n # d).

End JS.

(** ** HTTP requests as Node hands them to a handler *)

Module Http.

(** A header that Node does not know to be single-valued has type
    [string | string[] | undefined]. *)
Inductive HeaderValue :=
| HString (s : string)
| HArray (ss : list string).

(** [IncomingMessage]: [authorization] and [host] are typed
    [string | undefined]; every other header lives in [others]. *)
Record IncomingMessage := {
  method : string;
  url : option string;
  authorization : option string;
  host : option string;
  others : gmap string HeaderValue
}.

(** [typeof h === 'string'] followed by a use of [h] *)
Definition asString (h : option HeaderValue) : option string :=
  match h with
  | Some (HString s) => Some s
  | _ => None
  end.

End Http.

(** ** auth.ts *)

Module Auth.
Import JS Http.

(** The module-level [cachedToken] and [cachedAuthHeader]. *)
Record Cache := {
  cachedToken : string;
  cachedAuthHeader : string
}.

Definition emptyCache : Cache := {| cachedToken := ""; cachedAuthHeader := "" |}.

Definition headerMatches (h : option HeaderValue) (token : string) : bool :=
  match asString h with
  | Some v => bool_decide (trim v = token)
  | None => false
  end.

(** [isAuthorized(req, token)]: the boolean it returns and the cache it
    leaves behind. *)
Definition isAuthorized (cache : Cache) (req : IncomingMessage) (token : string)
  : bool * Cache :=
  if isEmpty token then (false, emptyCache)
  else
    let cache' :=
      if bool_decide (token = cachedToken cache) then cache
      else {| cachedToken := token; cachedAuthHeader := "Bearer " +:+ token |} in
    let bearerOk :=
      match authorization req with
      | Some auth =>
          startsWith auth "Bearer " && bool_decide (trim (sliceFrom 7 auth) = token)
      | None => false
      end in
    if bearerOk then (true, cache')
    else if headerMatches (others req !! "x-api-key") token then (true, cache')
    else if headerMatches (others req !! "x-goog-api-key") token then (true, cache')
    else (false, cache').

End Auth.

(** ** JSON values, the platform, and the effect log *)

Module Json.

(** A value as [JSON.parse] returns it, or as it is handed to
    [JSON.stringify]. A field of an object literal whose value is
    [undefined] is not serialised and so is left out of [JObject]. *)
#[warnings="-register-all"]
Inductive json :=
| JNull
| JBool (b : bool)
| JNumber (q : Q)
| JString (s : string)
| JArray (items : list json)
| JObject (fields : list (string * json)).

Definition JInt (z : Z) : json := JNumber (inject_Z z).

(** A field with an optional value: [{k: v}] where [v] may be [undefined]. *)
Definition optField (k : string) (v : option json) : list (string * json) :=
  match v with
  | Some j => [(k, j)]
  | None => []
  end.

Fixpoint lookupField (k : string) (fields : list (string * json)) : option json :=
  match fields with
  | [] => None
  | (k', v) :: rest => if bool_decide (k' = k) then Some v else lookupField k rest
  end.

(** [j?.k] for a property name [k] that no prototype defines; [None] is
    [undefined]. *)
Definition prop (k : string) (j : option json) : option json :=
  match j with
  | Some (JObject fields) => lookupField k fields
  | _ => None
  end.

(** [j?.[0]] *)
Definition first (j : option json) : option json :=
  match j with
  | Some (JArray (x :: _)) => Some x
  | Some (JObject fields) => lookupField "0" fields
  | Some (JString (String c _)) => Some (JString (String c EmptyString))
  | _ => None
  end.

(** Truthiness of a parsed value, with [None] for [undefined]. *)
Definition truthy (j : option json) : bool :=
  match j with
  | None | Some JNull => false
  | Some (JBool b) => b
  | Some (JNumber q) => negb (Qeq_bool q 0)
  | Some (JString s) => match s with EmptyString => false | _ => true end
  | Some (JArray _) | Some (JObject _) => true
  end.

(** [j || d] *)
Definition orElse (j : option json) (d : json) : json :=
  match j with
  | Some v => if truthy j then v else d
  | None => d
  end.

(** [j ?? d] *)
Definition nullish (j : option json) (d : json) : json :=
  match j with
  | None | Some JNull => d
  | Some v => v
  end.

End Json.

(** ** The message class of the editor's language-model API *)

Module Vscode.

Inductive LanguageModelChatMessageRole := User | Assistant.

(** An element of an array-valued [content]: the adapters only ask whether
    it is a plain string. *)
Inductive Part :=
| PartString (s : string)
| PartObject.

(** [content] as the adapters inspect it: a string, an array, or neither. *)
Inductive Content :=
| ContentString (s : string)
| ContentArray (parts : list Part)
| ContentOther.

Record LanguageModelChatMessage := {
  role : LanguageModelChatMessageRole;
  content : Content
}.

(** The class [vscode.LanguageModelChatMessage] is not part of the
    repository. What a message built by [User(text)] or [Assistant(text)]
    holds as its [content] (the text as a string, an array of part objects,
    ...) is left to the editor: a parameter. *)
Record MessageClass := {
  userContent : string -> Content;
  assistantContent : string -> Content
}.

(** Modelled from the spec: [vscode.LanguageModelChatMessage.User] is not
    part of the repository; following the spec's CanonicalMessage
    [{role, text}], the message it builds has the user role. *)
Definition mkUser (C : MessageClass) (text : string) : LanguageModelChatMessage :=
  {| role := User; content := userContent C text |}.
(** Modelled from the spec: as [mkUser], for
    [vscode.LanguageModelChatMessage.Assistant]. *)
Definition mkAssistant (C : MessageClass) (text : string) : LanguageModelChatMessage :=
  {| role := Assistant; content := assistantContent C text |}.

End Vscode.

(** ** responses.ts: the AI-SDK wire types *)

Module AiSdk.

Record AiSdkContentPart := {
  type : string;
  text : string
}.

(** [content: string | AiSdkContentPart[]] *)
Inductive AiSdkContent :=
| Text (s : string)
| Parts (parts : list AiSdkContentPart).

(** The declared roles are [user], [assistant] and [system]; the converter
    has a [default] branch, so any string is kept here. *)
Record AiSdkMessage := {
  role : string;
  content : AiSdkContent
}.

Record AiSdkRequest := {
  model : string;
  input : list AiSdkMessage;
  temperature : option Q;
  max_output_tokens : option Z;
  stream : option bool
}.

Record AiSdkOutputContentPart := {
  out_type : string;
  out_text : string;
  annotations : list Json.json
}.

Record AiSdkOutputMessage := {
  msg_id : string;
  msg_type : string;
  msg_role : string;
  msg_content : list AiSdkOutputContentPart
}.

Record AiSdkUsage := {
  input_tokens : Z;
  output_tokens : Z;
  total_tokens : Z
}.

Record AiSdkResponse := {
  id : string;
  resp_model : string;
  object : string;
  created : Z;
  created_at : option Z;
  output : list AiSdkOutputMessage;
  usage : AiSdkUsage
}.

End AiSdk.

Module Runtime.
Import Json.

(** An exception value: what [err?.message] and [err?.stack] read. *)
Record JsError := {
  message : string;
  stack : string
}.

(** Built-ins of the JavaScript platform whose results the model does not
    compute. *)
Record Platform := {
  (** [JSON.parse(text)]: the value, or the [SyntaxError] it throws *)
  JSON_parse : string -> JsError + json;
  (** [JSON.stringify(value)] *)
  JSON_stringify : json -> string;
  (** [String(value)] for a value that is not a string *)
  toString : json -> string;
  (** the stack the engine attaches to [new Error(message)] *)
  captureStack : string -> string;
  (** [s.toUpperCase()] *)
  toUpperCase : string -> string;
  (** what [res.setHeader] throws once the headers have been sent *)
  headersSentError : JsError;
  (** the [TypeError] thrown when the method [name] is called on a value
      that has no such method *)
  typeError : string -> JsError;
  (** the [TypeError] thrown when the property [name] is read off [null] *)
  nullError : string -> JsError
}.

(** [new Error(message)] *)
Definition newError (P : Platform) (msg : string) : JsError :=
  {| message := msg; stack := captureStack P msg |}.

(** [v.k] on a parsed value, for a property name [k] that no prototype
    defines: reading it off [null] throws, off any other value without it
    gives [undefined]. *)
Definition get (P : Platform) (k : string) (v : json) : JsError + option json :=
  match v with
  | JNull => inl (nullError P k)
  | _ => inr (prop k (Some v))
  end.

(** An element as [Array.prototype.join] writes it: [undefined] and [null]
    as the empty string, a string as it is, anything else through
    [String(value)]. *)
Definition joined (P : Platform) (v : option json) : string :=
  match v with
  | None | Some JNull => ""
  | Some (JString s) => s
  | Some other => toString P other
  end.

(** [a.map(f)] for a callback that may throw: the first throw ends the
    traversal. *)
Fixpoint mapE {A B} (f : A -> JsError + B) (l : list A) : JsError + list B :=
  match l with
  | [] => inr []
  | x :: rest =>
      match f x with
      | inl e => inl e
      | inr y =>
          match mapE f rest with
          | inl e => inl e
          | inr ys => inr (y :: ys)
          end
      end
  end.

(** One chunk passed to [res.write]: [writeSSE] writes the two templates
    [event: ${event}\n] and [data: ${JSON.stringify(data)}\n\n], kept here
    with their holes unfilled. *)
Inductive Chunk :=
| EventLine (event : string)
| DataLine (data : json).

(** The observable effects of a handler, in the order they happen. *)
Inductive Effect :=
| SetStatus (code : Z)                      (* res.statusCode = code *)
| SetHeader (name value : string)           (* res.setHeader(name, value) *)
| Write (c : Chunk)                         (* res.write(chunk) *)
| End (body : option json)                  (* res.end(JSON.stringify(body)) / res.end() *)
| WriteJson (status : Z) (body : AiSdk.AiSdkResponse)
                                            (* utils: writeJson(res, status, body) *)
| WriteErrorResponse (status : Z) (msg type code : string) (reason : option string)
                                            (* utils: writeErrorResponse(res, ...) *)
| WriteTokenRequired                        (* utils: writeTokenRequired(res) *)
| WriteUnauthorized                         (* utils: writeUnauthorized(res) *)
| WriteRateLimit                            (* utils: writeRateLimit(res) *)
| ActiveRequestsInc                         (* state.activeRequests++ *)
| ActiveRequestsDec                         (* state.activeRequests-- *)
| DisposeResponse                           (* response.dispose() *)
| DisposeCancellation.                      (* cancellationToken.dispose() *)

(** The shared [state.activeRequests] counter together with the effect log. *)
Record World := {
  activeRequests : Z;
  log : list Effect
}.

Definition emit (e : Effect) (w : World) : World :=
  {| activeRequests := activeRequests w; log := log w ++ [e] |}.

(** [res.headersSent]: a body chunk or the end of the response flushes the
    header block. *)
Definition flushes (e : Effect) : bool :=
  match e with
  | Write _ | End _ | WriteJson _ _ | WriteErrorResponse _ _ _ _ _
  | WriteTokenRequired | WriteUnauthorized | WriteRateLimit => true
  | _ => false
  end.

Definition headersSent (w : World) : bool := existsb flushes (log w).

(** A computation that may read and extend the world and may throw. *)
Definition M (A : Type) : Type := World -> World * (JsError + A).

Definition ret {A} (a : A) : M A := fun w => (w, inr a).
Definition throw {A} (e : JsError) : M A := fun w => (w, inl e).
Definition bind {A B} (m : M A) (k : A -> M B) : M B :=
  fun w => match m w with
           | (w', inr a) => k a w'
           | (w', inl e) => (w', inl e)
           end.
Definition effect (e : Effect) : M unit := fun w => (emit e w, inr tt).

(** [try { m } catch (err) { h err }] *)
Definition tryCatch {A} (m : M A) (h : JsError -> M A) : M A :=
  fun w => match m w with
           | (w', inl e) => h e w'
           | r => r
           end.

(** [try { m } finally { f }]: [f] always runs; when it completes normally
    the completion of [m] stands. *)
Definition tryFinally {A} (m : M A) (f : M unit) : M A :=
  fun w => match m w with
           | (w', r) => match f w' with
                        | (w'', inr _) => (w'', r)
                        | (w'', inl e) => (w'', inl e)
                        end
           end.

(** A value the environment produced earlier: a rejected promise throws. *)
Definition await {A} (r : JsError + A) : M A :=
  match r with
  | inl e => throw e
  | inr a => ret a
  end.

(** What an async generator of strings produces when it is drained: the
    values it yields, then the error it throws, if any. *)
Record Generated := {
  yielded : list string;
  thrown : option JsError
}.

Definition setStatus (code : Z) : M unit := effect (SetStatus code).

Definition setHeader (P : Platform) (name value : string) : M unit :=
  fun w => if headersSent w then (w, inl (headersSentError P))
           else (emit (SetHeader name value) w, inr tt).

Definition write (c : Chunk) : M unit := effect (Write c).
Definition endWith (body : option json) : M unit := effect (End body).

(** [state.activeRequests++] and [state.activeRequests--] *)
Definition incActive : M unit :=
  fun w => ({| activeRequests := activeRequests w + 1;
               log := log w ++ [ActiveRequestsInc] |}, inr tt).
Definition decActive : M unit :=
  fun w => ({| activeRequests := activeRequests w - 1;
               log := log w ++ [ActiveRequestsDec] |}, inr tt).

Definition countEffect (p : Effect -> bool) (w : World) : nat :=
  length (List.filter p (log w)).

Definition isInc (e : Effect) : bool :=
  match e with ActiveRequestsInc => true | _ => false end.
Definition isDec (e : Effect) : bool :=
  match e with ActiveRequestsDec => true | _ => false end.

End Runtime.

Declare Scope js_scope.
Delimit Scope js_scope with js.
Notation "x <- m ;; k" := (Runtime.bind m (fun x => k))
  (at level 100, m at next level, right associativity) : js_scope.
Notation "m ;;; k" := (Runtime.bind m (fun _ => k))
  (at level 100, right associativity) : js_scope.

(** ** formatter.ts *)

Module Formatter.

(** [fixBoltArtifactFormat(text)]: the first statement of the body is
    [return text;], so the five rewriting steps written after it never
    run. *)
Definition fixBoltArtifactFormat (text : string) : string := text.

End Formatter.

(** ** responses.ts: the AI-SDK [/v1/responses] adapter *)

Module Responses.
Import JS Json Runtime Vscode AiSdk.
Local Open Scope js_scope.

(** [v && typeof v === 'object'] *)
Definition isObject (v : json) : bool :=
  match v with
  | JObject _ | JArray _ => true
  | _ => false
  end.

(** ['k' in v] for an object or array [v] and a key that is not an index *)
Definition hasKey (k : string) (v : json) : bool :=
  match v with
  | JObject fields => bool_decide (is_Some (lookupField k fields))
  | _ => false
  end.

Definition isStringOrArray (v : option json) : bool :=
  match v with
  | Some (JString _) | Some (JArray _) => true
  | _ => false
  end.

Definition isMessage (msg : json) : bool :=
  isObject msg && hasKey "role" msg && hasKey "content" msg
  && isStringOrArray (prop "content" (Some msg)).

(** The type guard [isAiSdkRequest(body): body is AiSdkRequest]. *)
Definition isAiSdkRequest (body : json) : bool :=
  isObject body
  && match prop "model" (Some body) with Some (JString _) => true | _ => false end
  && match prop "input" (Some body) with
     | Some (JArray msgs) => forallb isMessage msgs
     | _ => false
     end.

(** A request of the declared type as the JSON value [readJson] returns. *)
Definition partJson (part : AiSdkContentPart) : json :=
  JObject [("type", JString (type part)); ("text", JString (text part))].

Definition contentJson (content : AiSdkContent) : json :=
  match content with
  | Text s => JString s
  | Parts parts => JArray (map partJson parts)
  end.

Definition messageJson (msg : AiSdkMessage) : json :=
  JObject [("role", JString (AiSdk.role msg)); ("content", contentJson (AiSdk.content msg))].

Definition requestJson (request : AiSdkRequest) : json :=
  JObject ([ ("model", JString (model request));
             ("input", JArray (map messageJson (input request))) ]
           ++ optField "temperature" (JNumber <$> temperature request)
           ++ optField "max_output_tokens" (JInt <$> max_output_tokens request)
           ++ optField "stream" (JBool <$> stream request)).

(** [typeof v === 'string' ? v : ...] with the empty string for the rest *)
Definition asString (v : option json) : string :=
  match v with
  | Some (JString s) => s
  | _ => ""
  end.

(** [body.model], a string once the guard has passed. *)
Definition modelName (body : json) : string := asString (prop "model" (Some body)).

(** A body that passed the guard is used at the declared type
    [AiSdkRequest], but the guard does not look inside roles and parts.
    These functions read a value the way [convertAiSdkMessagesToLM] and
    [extractTextContent] come to read it. A part is asked for [part.type],
    which throws on [null]; a [type] or a [role] that is not a string equals
    none of the strings it is compared with and is kept as the empty string;
    [part.text] is what [join] makes of it. On [requestJson request] the
    result is [request] again. *)
Definition asPart (P : Platform) (v : json) : JsError + AiSdkContentPart :=
  match v with
  | JNull => inl (nullError P "type")
  | _ => inr {| type := asString (prop "type" (Some v));
                text := joined P (prop "text" (Some v)) |}
  end.

Definition asContent (P : Platform) (v : option json) : JsError + AiSdkContent :=
  match v with
  | Some (JArray parts) =>
      match mapE (asPart P) parts with
      | inl e => inl e
      | inr parts' => inr (Parts parts')
      end
  | other => inr (Text (asString other))
  end.

Definition asMessage (P : Platform) (v : json) : JsError + AiSdkMessage :=
  match asContent P (prop "content" (Some v)) with
  | inl e => inl e
  | inr content' =>
      inr {| AiSdk.role := asString (prop "role" (Some v)); AiSdk.content := content' |}
  end.

Definition asRequest (P : Platform) (body : json) : JsError + AiSdkRequest :=
  match match prop "input" (Some body) with
        | Some (JArray msgs) => mapE (asMessage P) msgs
        | _ => inr []
        end with
  | inl e => inl e
  | inr input' =>
      inr {| model := modelName body;
             input := input';
             temperature := match prop "temperature" (Some body) with
                            | Some (JNumber q) => Some q
                            | _ => None
                            end;
             max_output_tokens := match prop "max_output_tokens" (Some body) with
                                  | Some (JNumber (Qmake z 1)) => Some z
                                  | _ => None
                                  end;
             stream := match prop "stream" (Some body) with
                       | Some (JBool b) => Some b
                       | _ => None
                       end |}
  end.

(** [response.text] of a chat response: the fragments the async iterator
    yields, and the error it throws after them, if any. *)
Record LMResponse := {
  fragments : list string;
  failure : option JsError;
  hasDispose : bool
}.

Record LMModel := {
  family : string;
  model_id : string;
  sendRequest : list LanguageModelChatMessage -> JsError + LMResponse
}.

(** Everything the handler obtains from its collaborators, the editor and
    the platform. *)
Record Env := {
  builtins : Platform;
  messageClass : MessageClass;   (* vscode.LanguageModelChatMessage *)
  readJson : JsError + json;
  getModel : bool -> string -> JsError + option LMModel;
  hasLMApi : bool;
  historyWindow : Z;
  now : Z;               (* Date.now() *)
  random1 : string;      (* Math.random().toString(36), first call *)
  random2 : string       (* Math.random().toString(36), second call *)
}.

Definition isTextPart (part : AiSdkContentPart) : bool :=
  bool_decide (type part = "input_text") || bool_decide (type part = "output_text").

Definition extractTextContent (content : AiSdkContent) : string :=
  match content with
  | Text s => s
  | Parts parts => join "" (map text (List.filter isTextPart parts))
  end.

Definition convertMessage (C : MessageClass) (msg : AiSdkMessage)
  : LanguageModelChatMessage :=
  let textContent := extractTextContent (AiSdk.content msg) in
  if bool_decide (AiSdk.role msg = "system") then mkUser C textContent
  else if bool_decide (AiSdk.role msg = "user") then mkUser C textContent
  else if bool_decide (AiSdk.role msg = "assistant") then mkAssistant C textContent
  else mkUser C textContent.

Definition convertAiSdkMessagesToLM (C : MessageClass) (messages : list AiSdkMessage)
  : list LanguageModelChatMessage :=
  map (convertMessage C) messages.

(** The text of one message as the usage estimate reads it. *)
Definition contentText (m : LanguageModelChatMessage) : string :=
  match Vscode.content m with
  | ContentString s => s
  | ContentArray parts =>
      join "" (map (fun p => match p with PartString s => s | PartObject => "" end) parts)
  | ContentOther => ""
  end.

Definition strlen (s : string) : Z := Z.of_nat (String.length s).

(** [for await (const chunk of response.text) fullContent += chunk] *)
Definition collect (response : LMResponse) : M string :=
  match failure response with
  | Some e => throw e
  | None => ret (join "" (fragments response))
  end.

(** The response object built after the model has answered. *)
Definition buildResponse (env : Env) (body : AiSdkRequest)
    (recentMessages : list LanguageModelChatMessage) (fullContent : string)
  : AiSdkResponse :=
  let inputText := join "" (map contentText recentMessages) in
  let inputTokens := ceilDiv (strlen inputText) 4 in
  let outputTokens := ceilDiv (strlen fullContent) 4 in
  let nowMs := now env in
  let nowSec := nowMs / 1000 in
  {| id := "resp_" +:+ pretty nowMs +:+ "_" +:+ sliceFrom 7 (random1 env);
     resp_model := model body;
     object := "response";
     created := nowSec;
     created_at := Some nowSec;
     output :=
       [ {| msg_id := "msg_" +:+ pretty nowMs +:+ "_" +:+ sliceFrom 7 (random2 env);
            msg_type := "message";
            msg_role := "assistant";
            msg_content :=
              [ {| out_type := "output_text";
                   out_text := fullContent;
                   annotations := [] |} ] |} ];
     usage :=
       {| input_tokens := inputTokens;
          output_tokens := outputTokens;
          total_tokens := inputTokens + outputTokens |} |}.

Definition recentMessagesOf (env : Env) (body : AiSdkRequest)
  : list LanguageModelChatMessage :=
  arraySlice (- historyWindow env * 2)
    (convertAiSdkMessagesToLM (messageClass env) (input body)).

(** The part of the handler that runs once the model is resolved. *)
Definition respond (env : Env) (body : AiSdkRequest) (model : LMModel) : M unit :=
  let recentMessages := recentMessagesOf env body in
  tryFinally
    (response <- await (sendRequest model recentMessages) ;;
     fullContent <-
       tryFinally (collect response)
         (if hasDispose response then effect DisposeResponse else ret tt) ;;
     effect (WriteJson 200 (buildResponse env body recentMessages fullContent)))
    (effect DisposeCancellation).

(** What the handler writes when [getModel] resolved to nothing; [named] is
    [body.model]. *)
Definition modelUnavailable (env : Env) (named : string) : Effect :=
  let hasLanguageModels := hasLMApi env in
  if negb (isEmpty named) && hasLanguageModels then
    WriteErrorResponse 404 "model not found" "invalid_request_error"
      "model_not_found" (Some "not_found")
  else
    let reason :=
      if hasLanguageModels then "copilot_model_unavailable"
      else "missing_language_model_api" in
    WriteErrorResponse 503 "Copilot unavailable" "server_error"
      "copilot_unavailable" (Some reason).

(** The [try { ... } catch (error) { ... }] block of the handler. *)
Definition guarded (env : Env) : M unit :=
  tryCatch
    (body <- await (readJson env) ;;
     if negb (isAiSdkRequest body) then
       effect (WriteErrorResponse 400 "invalid request format"
                 "invalid_request_error" "invalid_payload" None)
     else
       model <- await (getModel env false (modelName body)) ;;
       match model with
       | None => effect (modelUnavailable env (modelName body))
       | Some model =>
           (* convertAiSdkMessagesToLM(body.input) reads the parts *)
           request <- await (asRequest (builtins env) body) ;;
           respond env request model
       end)
    (fun error =>
       let errorMessage := message error in
       effect (WriteErrorResponse 500
                 (if isEmpty errorMessage then "internal_error" else errorMessage)
                 "server_error" "internal_error" None)).

(** [state.activeRequests++; try { ... } catch { ... } finally
    { state.activeRequests--; }] *)
Definition handleAiSdkResponse (env : Env) : M unit :=
  incActive ;;;
  tryFinally (guarded env) decActive.

End Responses.

(** ** anthropic.ts: the Anthropic [/v1/messages] adapter *)

Module Anthropic.
Import JS Json Http Runtime Formatter.
Local Open Scope js_scope.

Record TextBlock := {
  type : string;
  text : string
}.

(** [content: string | {type: 'text', text: string}[]]; [toText] also
    answers for a value that is neither. *)
Inductive Content :=
| ContentString (s : string)
| ContentBlocks (blocks : list TextBlock)
| ContentOther.

Record AnthropicMsg := {
  role : string;
  content : Content
}.

Record AnthropicRequest := {
  model : string;
  system : option string;
  messages : option (list AnthropicMsg);
  max_tokens : option Z;
  temperature : option Q;
  stream : option bool
}.

(** The same request with its [stream] flag replaced. *)
Definition withStream (body : AnthropicRequest) (flag : option bool) : AnthropicRequest :=
  {| model := model body; system := system body; messages := messages body;
     max_tokens := max_tokens body; temperature := temperature body; stream := flag |}.

Record CoreMessage := {
  core_role : string;
  core_content : string
}.

(** A [fetch] call and the response it resolves to. *)
Record FetchRequest := {
  fetch_url : string;
  fetch_method : string;
  fetch_headers : list (string * string);
  fetch_body : json
}.

(** [body] is the readable stream of the response, as the chunks a reader
    gets from it, in order; [None] is a null body. [bodyError] is the error
    with which the read that follows the last chunk rejects; [None] when
    that read reports the end of the stream. *)
Record FetchResponse := {
  ok : bool;
  status : Z;
  body : option (list string);
  bodyError : option JsError
}.

Record Env := {
  readBody : JsError + AnthropicRequest;   (* the parsed request body *)
  fetch : FetchRequest -> JsError + FetchResponse;
  now : Z                                  (* Date.now() *)
}.

Record Options := {
  opt_system : option string;
  opt_model : string;
  opt_token : string;
  opt_maxTokens : option Z;
  opt_temperature : option Q;
  opt_req : IncomingMessage
}.

Definition getBearerOrXApiKey (req : IncomingMessage) : option string :=
  let fromAuth :=
    match authorization req with
    | Some auth =>
        if startsWith auth "Bearer " then
          let v := trim (sliceFrom 7 auth) in
          if isEmpty v then None else Some v
        else None
    | None => None
    end in
  match fromAuth with
  | Some v => Some v
  | None =>
      match asString (others req !! "x-api-key") with
      | Some xApiKey =>
          let v := trim xApiKey in
          if isEmpty v then None else Some v
      | None => None
      end
  end.

Definition toOpenAIMessages (coreMessages : list CoreMessage) (system : option string)
  : list CoreMessage :=
  let sys :=
    match system with
    | Some s =>
        if negb (isEmpty s) && (0 <? Z.of_nat (String.length (trim s)))
        then [ {| core_role := "system"; core_content := s |} ]
        else []
    | None => []
    end in
  sys ++ map (fun m => {| core_role := core_role m; core_content := core_content m |})
             coreMessages.

Definition getOrigin (req : IncomingMessage) : string :=
  let h :=
    match host req with
    | Some h => if isEmpty h then "127.0.0.1:9527" else h
    | None => "127.0.0.1:9527"
    end in
  "http://" +:+ h.

Definition messageJson (m : CoreMessage) : json :=
  JObject [("role", JString (core_role m)); ("content", JString (core_content m))].

(** The request both [runLMFull] and [runLMStream] send to the bridge's own
    [/v1/chat/completions]. *)
Definition chatRequest (coreMessages : list CoreMessage) (opts : Options)
    (streaming : bool) : FetchRequest :=
  let origin := getOrigin (opt_req opts) in
  let body :=
    JObject ([ ("model", JString (opt_model opts));
               ("messages",
                JArray (map messageJson (toOpenAIMessages coreMessages (opt_system opts))));
               ("stream", JBool streaming);
               ("temperature",
                JNumber (match opt_temperature opts with Some t => t | None => 0%Q end)) ]
             ++ optField "max_tokens" (JInt <$> opt_maxTokens opts)) in
  {| fetch_url := origin +:+ "/v1/chat/completions";
     fetch_method := "POST";
     fetch_headers := [ ("content-type", "application/json");
                        ("authorization", "Bearer " +:+ opt_token opts) ];
     fetch_body := body |}.

(** The whole body as text, which [resp.text()] and [resp.json()] read
    first: the promise rejects when a read fails. *)
Definition readAll (resp : FetchResponse) : JsError + string :=
  match body resp with
  | Some chunks =>
      match bodyError resp with
      | Some e => inl e
      | None => inr (join "" chunks)
      end
  | None => inr ""
  end.

(** [await resp.text().catch(() => '')] *)
Definition responseText (resp : FetchResponse) : string :=
  match readAll resp with
  | inr txt => txt
  | inl _ => ""
  end.

Definition upstreamError (P : Platform) (resp : FetchResponse) (what : string) : JsError :=
  let txt := responseText resp in
  if bool_decide (status resp = 401) then
    newError P ("Upstream /v1/chat/completions unauthorized: " +:+ txt)
  else
    newError P ("Upstream /v1/chat/completions " +:+ what +:+ pretty (status resp)
                +:+ " " +:+ txt).

Definition runLMFull (P : Platform) (env : Env) (coreMessages : list CoreMessage)
    (opts : Options) : JsError + string :=
  match fetch env (chatRequest coreMessages opts false) with
  | inl e => inl e
  | inr resp =>
      if negb (ok resp) then inl (upstreamError P resp "failed: ")
      else
        match readAll resp with
        | inl e => inl e
        | inr txt =>
            match JSON_parse P txt with
            | inl e => inl e
            | inr json =>
                let content :=
                  nullish (prop "content" (prop "message" (first (prop "choices" (Some json)))))
                          (JString "") in
                match content with
                | JString s => inr s
                | other => inr (toString P other)
                end
            end
        end
  end.

(** What the body of the inner [while] loop does with one line. *)
Inductive LineAction :=
| Continue
| Return
| Yield (text : string).

Definition processLine (P : Platform) (line : string) : LineAction :=
  if negb (startsWith line "data:") then Continue
  else
    let payload := trim (sliceFrom 5 line) in
    if isEmpty payload || bool_decide (payload = "[DONE]") then Return
    else
      match JSON_parse P payload with
      | inl _ => Continue
      | inr evt =>
          let delta := prop "delta" (first (prop "choices" (Some evt))) in
          let text := nullish (prop "content" delta) (JString "") in
          match text with
          | JString (String c t) => Yield (String c t)
          | _ => Continue
          end
      end.

Lemma sliceFrom_indexOf_length (c : ascii) (s : string) (idx : nat) :
  indexOf c s = Some idx ->
  (String.length (sliceFrom (S idx) s) < String.length s)%nat.
Proof.
  revert idx. induction s as [|d s IH]; intros idx H; simpl in H; [discriminate|].
  destruct (Ascii.eqb d c).
  - injection H as <-. cbn [sliceFrom String.length]. lia.
  - destruct (indexOf c s) as [i|] eqn:E; simpl in H; [|discriminate].
    injection H as <-. specialize (IH i eq_refl).
    change (sliceFrom (S (S i)) (String d s)) with (sliceFrom (S i) s).
    cbn [String.length]. lia.
Qed.

(** The inner loop [while ((idx = buffer.indexOf('\n')) >= 0) { ... }]:
    the texts it yields, and the buffer it leaves behind ([None] when the
    generator returned from inside the loop). *)
Equations? drainLines (P : Platform) (buffer : string) : list string * option string
  by wf (String.length buffer) lt :=
  drainLines P buffer with inspect (indexOf "010"%char buffer) := {
    | exist _ None _ => ([], Some buffer)
    | exist _ (Some idx) Hidx =>
        let line := trim (sliceTo idx buffer) in
        let buffer' := sliceFrom (S idx) buffer in
        match processLine P line with
        | Continue => drainLines P buffer'
        | Return => ([], None)
        | Yield text =>
            let r := drainLines P buffer' in
            (text :: fst r, snd r)
        end }.
Proof.
  all: subst buffer'; eapply (sliceFrom_indexOf_length "010"); eassumption.
Qed.

(** The outer loop [while (true) { read a chunk; buffer += ...; drain }]. *)
Fixpoint readLoop (P : Platform) (chunks : list string) (buffer : string) : list string :=
  match chunks with
  | [] => []
  | value :: rest =>
      let r := drainLines P (buffer +:+ value) in
      match snd r with
      | None => fst r
      | Some buffer' => fst r ++ readLoop P rest buffer'
      end
  end.

(** Whether the outer loop comes to read past the last of [chunks]:
    [false] when the generator returned from inside the inner loop before
    that. *)
Fixpoint readsToEnd (P : Platform) (chunks : list string) (buffer : string) : bool :=
  match chunks with
  | [] => true
  | value :: rest =>
      match snd (drainLines P (buffer +:+ value)) with
      | None => false
      | Some buffer' => readsToEnd P rest buffer'
      end
  end.

(** The generator: a call that fails before the body is read throws at
    once; otherwise the texts of the lines read are yielded, and a read
    that rejects after the last chunk throws out of the generator, unless
    it had returned before. *)
Definition runLMStream (P : Platform) (env : Env) (coreMessages : list CoreMessage)
    (opts : Options) : Generated :=
  match fetch env (chatRequest coreMessages opts true) with
  | inl e => {| yielded := []; thrown := Some e |}
  | inr resp =>
      match ok resp, body resp with
      | true, Some chunks =>
          {| yielded := readLoop P chunks "";
             thrown := if readsToEnd P chunks "" then bodyError resp else None |}
      | _, _ => {| yielded := []; thrown := Some (upstreamError P resp "stream failed: ") |}
      end
  end.

(** [toText] followed by [?? ''] *)
Definition toText (c : Content) : string :=
  match c with
  | ContentString s => s
  | ContentBlocks (b :: _) => if bool_decide (type b = "text") then text b else ""
  | ContentBlocks [] => ""
  | ContentOther => ""
  end.

Definition isCoreRole (m : AnthropicMsg) : bool :=
  bool_decide (role m = "user") || bool_decide (role m = "assistant").

Definition coreMessagesOf (body : AnthropicRequest) : list CoreMessage :=
  map (fun m => {| core_role := role m; core_content := toText (content m) |})
      (List.filter isCoreRole (default [] (messages body))).

Definition writeSSE (event : string) (data : json) : M unit :=
  write (EventLine event) ;;; write (DataLine data).

Definition errorJson (fields : list (string * json)) : json :=
  JObject [("error", JObject fields)].

Definition deltaEvent (tokenChunk : string) : json :=
  JObject [ ("type", JString "content_block_delta");
            ("index", JInt 0);
            ("delta", JObject [("type", JString "text_delta");
                               ("text", JString tokenChunk)]) ].

(** The body of [for await (const tokenChunk of ...)], over the values the
    generator yields; [fullText] is the accumulator of the loop. *)
Fixpoint streamLoop (chunks : list string) (fullText : string) : M string :=
  match chunks with
  | [] => ret fullText
  | tokenChunk :: rest =>
      if isEmpty tokenChunk then streamLoop rest fullText
      else
        writeSSE "content_block_delta" (deltaEvent tokenChunk) ;;;
        streamLoop rest (fullText +:+ tokenChunk)
  end.

Definition forAwait (g : Generated) (fullText : string) : M string :=
  fullText' <- streamLoop (yielded g) fullText ;;
  match thrown g with
  | Some e => throw e
  | None => ret fullText'
  end.

Definition messageJsonOf (nowId model formattedText : string) : json :=
  JObject [ ("id", JString nowId);
            ("type", JString "message");
            ("role", JString "assistant");
            ("model", JString model);
            ("content", JArray [JObject [("type", JString "text");
                                         ("text", JString formattedText)]]);
            ("stop_reason", JString "end_turn");
            ("usage", JObject [("input_tokens", JInt 0); ("output_tokens", JInt 0)]) ].

(** The options object both calls into the model are given. *)
Definition optionsOf (req : IncomingMessage) (body : AnthropicRequest) (token : string)
  : Options :=
  {| opt_system := Some (default "" (system body));
     opt_model := model body;
     opt_token := token;
     opt_maxTokens := max_tokens body;
     opt_temperature := temperature body;
     opt_req := req |}.

Definition messageStartEvent (id model : string) : json :=
  JObject [ ("type", JString "message_start");
            ("message", JObject [ ("id", JString id);
                                  ("type", JString "message");
                                  ("role", JString "assistant");
                                  ("model", JString model) ]) ].

Definition contentBlockStartEvent : json :=
  JObject [ ("type", JString "content_block_start");
            ("index", JInt 0);
            ("content_block", JObject [("type", JString "text"); ("text", JString "")]) ].

Definition contentBlockStopEvent : json :=
  JObject [("type", JString "content_block_stop"); ("index", JInt 0)].

Definition messageDeltaEvent : json :=
  JObject [ ("type", JString "message_delta");
            ("delta", JObject [("stop_reason", JString "end_turn")]) ].

Definition messageStopEvent : json :=
  JObject [("type", JString "message_stop")].

Definition anthropicMessages (P : Platform) (env : Env) (req : IncomingMessage) : M unit :=
  tryCatch
    (match getBearerOrXApiKey req with
     | None =>
         setStatus 401 ;;;
         setHeader P "content-type" "application/json" ;;;
         endWith (Some (errorJson [ ("message", JString "unauthorized");
                                    ("type", JString "invalid_request_error");
                                    ("code", JString "unauthorized") ]))
     | Some token =>
         body <- await (readBody env) ;;
         let coreMessages := coreMessagesOf body in
         let stream := default true (stream body) in
         let opts := optionsOf req body token in
         if negb stream then
           fullText <- await (runLMFull P env coreMessages opts) ;;
           let formattedText := fixBoltArtifactFormat fullText in
           let nowId := "msg_" +:+ pretty (now env) in
           setStatus 200 ;;;
           setHeader P "content-type" "application/json" ;;;
           endWith (Some (messageJsonOf nowId (model body) formattedText))
         else
           setStatus 200 ;;;
           setHeader P "content-type" "text/event-stream; charset=utf-8" ;;;
           setHeader P "cache-control" "no-cache, no-transform" ;;;
           setHeader P "connection" "keep-alive" ;;;
           let id := "msg_" +:+ pretty (now env) in
           writeSSE "message_start" (messageStartEvent id (model body)) ;;;
           writeSSE "content_block_start" contentBlockStartEvent ;;;
           fullText <- forAwait (runLMStream P env coreMessages opts) "" ;;
           let formattedText := fixBoltArtifactFormat fullText in
           writeSSE "content_block_stop" contentBlockStopEvent ;;;
           writeSSE "message_delta" messageDeltaEvent ;;;
           writeSSE "message_stop" messageStopEvent ;;;
           endWith None
     end)
    (fun err =>
       setStatus 500 ;;;
       setHeader P "content-type" "application/json" ;;;
       endWith (Some (errorJson [ ("message", JString (message err));
                                  ("type", JString "server_error");
                                  ("details", JString (stack err)) ]))).

End Anthropic.

(** ** gemini.ts: the Gemini [generateContent] adapter *)

Module Gemini.
Import JS Json Http Runtime.
Local Open Scope js_scope.

(** [parts: Array<{text?: string}>] *)
Record GeminiPart := {
  text : option string
}.

Record GeminiContent := {
  role : option string;
  parts : option (list GeminiPart)
}.

Record GenerationConfig := {
  temperature : option Q;
  maxOutputTokens : option Z;
  topP : option Q;
  topK : option Q
}.

Record GeminiRequest := {
  contents : option (list GeminiContent);
  generationConfig : option GenerationConfig
}.

Record OpenAIMessage := {
  msg_role : string;
  msg_content : string
}.

Record FetchRequest := {
  fetch_url : string;
  fetch_method : string;
  fetch_headers : list (string * string);
  fetch_body : json
}.

(** [body] is the whole body as text, which [resp.text()] and
    [resp.json()] read first, or the error with which reading it fails. *)
Record FetchResponse := {
  ok : bool;
  status : Z;
  body : JsError + string
}.

(** [readJson] gives the parsed body, whatever value it is: the handler
    casts it to [GeminiRequest] without a check. *)
Record Env := {
  (** [new URLSearchParams(query).get(name)] *)
  searchParamsGet : string -> string -> option string;
  readJson : JsError + json;
  fetch : FetchRequest -> JsError + FetchResponse
}.

Definition getBearerToken (env : Env) (req : IncomingMessage) : option string :=
  let fromAuth :=
    match authorization req with
    | Some auth =>
        if startsWith auth "Bearer " then
          let v := trim (sliceFrom 7 auth) in
          if isEmpty v then None else Some v
        else None
    | None => None
    end in
  match fromAuth with
  | Some v => Some v
  | None =>
      let url := default "" (url req) in
      match indexOf "?"%char url with
      | Some queryStart =>
          let queryString := sliceFrom (S queryStart) url in
          match searchParamsGet env queryString "key" with
          | Some key => if isEmpty key then None else Some key
          | None => None
          end
      | None => None
      end
  end.

Definition getOrigin (req : IncomingMessage) : string :=
  let h :=
    match host req with
    | Some h => if isEmpty h then "127.0.0.1:9527" else h
    | None => "127.0.0.1:9527"
    end in
  "http://" +:+ h.

(** *** The conversion at the declared type [GeminiRequest] *)

(** [content.role === 'model' ? 'assistant' : (content.role || 'user')] *)
Definition convertRole (role : option string) : string :=
  if bool_decide (role = Some "model") then "assistant"
  else match role with
       | Some r => if isEmpty r then "user" else r
       | None => "user"
       end.

(** [p => p.text] as a filter: a missing or empty text is falsy. *)
Definition hasText (p : GeminiPart) : bool :=
  match text p with
  | Some t => negb (isEmpty t)
  | None => false
  end.

(** [content.parts?.filter(p => p.text).map(p => p.text).join('\n') || ''] *)
Definition convertParts (parts : option (list GeminiPart)) : string :=
  match parts with
  | Some ps => join newline (map (fun p => default "" (text p)) (List.filter hasText ps))
  | None => ""
  end.

Definition convertContent (c : GeminiContent) : OpenAIMessage :=
  {| msg_role := convertRole (role c); msg_content := convertParts (parts c) |}.

(** [geminiReq.contents?.map(...) || []] *)
Definition convertContents (geminiReq : GeminiRequest) : list OpenAIMessage :=
  match contents geminiReq with
  | Some cs => map convertContent cs
  | None => []
  end.

Definition messageJson (m : OpenAIMessage) : json :=
  JObject [ ("role", JString (msg_role m)); ("content", JString (msg_content m)) ].

Definition openaiRequestOf (geminiReq : GeminiRequest) (modelName : string) : json :=
  let cfg := generationConfig geminiReq in
  JObject ([ ("model", JString modelName);
             ("messages", JArray (map messageJson (convertContents geminiReq)));
             ("temperature",
              JNumber (default (7 # 10)%Q (cfg ≫= temperature))) ]
           ++ optField "max_tokens" (JInt <$> (cfg ≫= maxOutputTokens))
           ++ optField "top_p" (JNumber <$> (cfg ≫= topP))
           ++ [ ("stream", JBool false) ]).

(** A request of the declared type as the JSON value [readJson] returns. *)
Definition partJson (p : GeminiPart) : json :=
  JObject (optField "text" (JString <$> text p)).

Definition contentJson (c : GeminiContent) : json :=
  JObject (optField "role" (JString <$> role c)
           ++ optField "parts" ((fun ps => JArray (map partJson ps)) <$> parts c)).

Definition configJson (g : GenerationConfig) : json :=
  JObject (optField "temperature" (JNumber <$> temperature g)
           ++ optField "maxOutputTokens" (JInt <$> maxOutputTokens g)
           ++ optField "topP" (JNumber <$> topP g)
           ++ optField "topK" (JNumber <$> topK g)).

Definition requestJson (r : GeminiRequest) : json :=
  JObject (optField "contents" ((fun cs => JArray (map contentJson cs)) <$> contents r)
           ++ optField "generationConfig" (configJson <$> generationConfig r)).

(** *** The conversion as it runs

    The parsed body is cast, not checked, so the same lines run on whatever
    value it is: a property read off [null] and a method called on a value
    without it throw, and a value that is not of the declared type goes
    through [===], [||], [??] and [join] as JavaScript has them. On
    [requestJson r] the result is [openaiRequestOf r]. *)

(** [content.role === 'model' ? 'assistant' : (content.role || 'user')] *)
Definition roleOf (role : option json) : json :=
  match role with
  | Some (JString r) =>
      if bool_decide (r = "model") then JString "assistant"
      else orElse role (JString "user")
  | _ => orElse role (JString "user")
  end.

(** [parts.filter(p => p.text).map(p => p.text)] *)
Fixpoint textsOf (P : Platform) (parts : list json) : JsError + list json :=
  match parts with
  | [] => inr []
  | p :: rest =>
      match get P "text" p with
      | inl e => inl e
      | inr t =>
          match textsOf P rest with
          | inl e => inl e
          | inr ts =>
              inr (match t with
                   | Some v => if truthy t then v :: ts else ts
                   | None => ts
                   end)
          end
      end
  end.

(** [content.parts?.filter(p => p.text).map(p => p.text).join('\n') || ''] *)
Definition textOf (P : Platform) (parts : option json) : JsError + string :=
  match parts with
  | None | Some JNull => inr ""
  | Some (JArray ps) =>
      match textsOf P ps with
      | inl e => inl e
      | inr ts => inr (join newline (map (fun v => joined P (Some v)) ts))
      end
  | Some _ => inl (typeError P "filter")
  end.

(** The callback of [contents.map]: [content.role] is read first. *)
Definition convertEntry (P : Platform) (content : json) : JsError + json :=
  match get P "role" content with
  | inl e => inl e
  | inr role =>
      match textOf P (prop "parts" (Some content)) with
      | inl e => inl e
      | inr textParts =>
          inr (JObject [ ("role", roleOf role); ("content", JString textParts) ])
      end
  end.

(** [geminiReq.contents?.map(...) || []] *)
Definition messagesOf (P : Platform) (geminiReq : json) : JsError + list json :=
  match get P "contents" geminiReq with
  | inl e => inl e
  | inr None | inr (Some JNull) => inr []
  | inr (Some (JArray cs)) => mapE (convertEntry P) cs
  | inr (Some _) => inl (typeError P "map")
  end.

(** The object handed to [JSON.stringify]: a field whose value is
    [undefined] is left out. *)
Definition convertRequest (P : Platform) (geminiReq : json) (modelName : string)
  : JsError + json :=
  match messagesOf P geminiReq with
  | inl e => inl e
  | inr messages =>
      let cfg := prop "generationConfig" (Some geminiReq) in
      inr (JObject ([ ("model", JString modelName);
                      ("messages", JArray messages);
                      ("temperature",
                       nullish (prop "temperature" cfg) (JNumber (7 # 10)%Q)) ]
                    ++ optField "max_tokens" (prop "maxOutputTokens" cfg)
                    ++ optField "top_p" (prop "topP" cfg)
                    ++ [ ("stream", JBool false) ]))
  end.

(** The Gemini response built from the answer of the chat endpoint:
    [openaiResponse.choices] is read without [?.], so a [null] answer
    throws, as does a [finish_reason] without [toUpperCase]. *)
Definition geminiResponseOf (P : Platform) (openaiResponse : json) : JsError + json :=
  match get P "choices" openaiResponse with
  | inl e => inl e
  | inr choices =>
      let choice := first choices in
      let usage := prop "usage" (Some openaiResponse) in
      let finish :=
        match prop "finish_reason" choice with
        | None | Some JNull => inr None
        | Some (JString r) => inr (Some (JString (toUpperCase P r)))
        | Some _ => inl (typeError P "toUpperCase")
        end in
      match finish with
      | inl e => inl e
      | inr finishReason =>
          inr (JObject
            [ ("candidates",
               JArray [ JObject
                 [ ("content",
                    JObject [ ("parts",
                               JArray [ JObject [ ("text",
                                 orElse (prop "content" (prop "message" choice))
                                        (JString "")) ] ]);
                              ("role", JString "model") ]);
                   ("finishReason", orElse finishReason (JString "STOP"));
                   ("index", JInt 0) ] ]);
              ("usageMetadata",
               JObject [ ("promptTokenCount", orElse (prop "prompt_tokens" usage) (JInt 0));
                         ("candidatesTokenCount",
                          orElse (prop "completion_tokens" usage) (JInt 0));
                         ("totalTokenCount",
                          orElse (prop "total_tokens" usage) (JInt 0)) ]) ])
      end
  end.

(** [await resp.text().catch(() => '')] *)
Definition responseText (resp : FetchResponse) : string :=
  match body resp with
  | inr txt => txt
  | inl _ => ""
  end.

Definition handleGeminiGenerateContent (P : Platform) (env : Env)
    (req : IncomingMessage) (modelName : string) : M unit :=
  match getBearerToken env req with
  | None =>
      setStatus 401 ;;;
      setHeader P "content-type" "application/json" ;;;
      endWith (Some (JObject [ ("error",
        JObject [ ("message", JString "unauthorized");
                  ("type", JString "invalid_request_error");
                  ("code", JString "unauthorized") ]) ]))
  | Some token =>
      match readJson env with
      | inl _ =>
          effect (WriteErrorResponse 400 "Invalid JSON" "invalid_request_error"
                    "parse_error" None)
      | inr geminiReq =>
          (* the conversion runs before the [try] *)
          openaiRequest <- await (convertRequest P geminiReq modelName) ;;
          tryCatch
            (resp <- await (fetch env
                       {| fetch_url := getOrigin req +:+ "/v1/chat/completions";
                          fetch_method := "POST";
                          fetch_headers := [ ("content-type", "application/json");
                                             ("authorization", "Bearer " +:+ token) ];
                          fetch_body := openaiRequest |}) ;;
             if negb (ok resp) then
               throw (if bool_decide (status resp = 401) then
                        newError P ("Upstream /v1/chat/completions unauthorized: "
                                    +:+ responseText resp)
                      else
                        newError P ("Upstream /v1/chat/completions failed: "
                                    +:+ pretty (status resp) +:+ " " +:+ responseText resp))
             else
               txt <- await (body resp) ;;
               openaiResponse <- await (JSON_parse P txt) ;;
               geminiResponse <- await (geminiResponseOf P openaiResponse) ;;
               setStatus 200 ;;;
               setHeader P "content-type" "application/json" ;;;
               endWith (Some geminiResponse))
            (fun err =>
               setStatus 500 ;;;
               setHeader P "content-type" "application/json" ;;;
               endWith (Some (JObject [ ("error",
                 JObject [ ("message", JString (message err));
                           ("type", JString "server_error");
                           ("code", JString "gemini_conversion_error") ]) ])))
      end
  end.

End Gemini.

(** ** server.ts: the middleware chain in front of the routes *)

Module Server.
Import JS Json Http Runtime Auth.
Local Open Scope js_scope.

Record BridgeConfig := {
  token : string;
  maxConcurrent : Z;
  verbose : bool
}.

(** [s.includes(p)] *)
Fixpoint includes (s p : string) : bool :=
  startsWith s p ||
  match s with
  | EmptyString => false
  | String _ s' => includes s' p
  end.

(** [url.match(/:(?:stream)?[gG]enerateContent/)] as a test *)
Definition matchesVerb (url : string) : bool :=
  includes url ":generateContent" || includes url ":GenerateContent" ||
  includes url ":streamgenerateContent" || includes url ":streamGenerateContent".

(** The authentication middleware, registered first: what it does with the
    request ([None]: it calls [next()]) and the cache [isAuthorized] leaves. *)
Definition authMiddleware (config : BridgeConfig) (cache : Cache) (req : IncomingMessage)
  : option Effect * Cache :=
  let path := default "/" (url req) in
  if bool_decide (path = "/health") then (None, cache)
  else if isEmpty (token config) then (Some WriteTokenRequired, cache)
  else
    let r := isAuthorized cache req (token config) in
    if negb (fst r) then (Some WriteUnauthorized, snd r)
    else (None, snd r).

(** The guard of the Gemini middleware: which requests it intercepts. *)
Definition isGeminiCall (req : IncomingMessage) : bool :=
  let url := default "" (url req) in
  bool_decide (method req = "POST") && startsWith url "/v1/models/" && matchesVerb url.

(** The two [app.use] middlewares in registration order. [gemini] stands for
    the handler call [handleGeminiGenerateContent(req, res, modelName)] and
    [next] for the rest of the chain. *)
Definition middlewares (config : BridgeConfig) (cache : Cache) (req : IncomingMessage)
    (gemini next : M unit) : M unit * Cache :=
  match authMiddleware config cache req with
  | (Some rejection, cache') => (effect rejection, cache')
  | (None, cache') =>
      if negb (isGeminiCall req) then (next, cache')
      else
        (fun w =>
           if (maxConcurrent config <=? activeRequests w) then effect WriteRateLimit w
           else
             tryCatch gemini
               (fun e w' =>
                  if headersSent w' then ret tt w'
                  else
                    effect (WriteErrorResponse 500
                              (if isEmpty (message e) then "internal_error" else message e)
                              "server_error" "internal_error" None) w') w,
         cache')
  end.

(** [url.split('?')[0]] *)
Definition beforeQuery (url : string) : string :=
  match indexOf "?"%char url with
  | Some i => sliceTo i url
  | None => url
  end.

(** [[^:]+] read greedily: the longest run of characters other than a
    colon, and what follows it. *)
Fixpoint spanModel (s : string) : string * string :=
  match s with
  | EmptyString => (EmptyString, EmptyString)
  | String c s' =>
      if Ascii.eqb c ":"%char then (EmptyString, s)
      else let r := spanModel s' in (String c (fst r), snd r)
  end.

(** [(?:stream)?[gG]enerateContent] at the start of [s] *)
Definition verbAt (s : string) : bool :=
  startsWith s "streamgenerateContent" || startsWith s "streamGenerateContent"
  || startsWith s "generateContent" || startsWith s "GenerateContent".

(** The pattern [/\/v1\/models\/([^:]+):(?:stream)?[gG]enerateContent/] tried
    at the start of [s]: its capture group. The run [[^:]+] can only be
    followed by a colon when it is read to its end, so no shorter run needs
    trying. *)
Definition matchModelAt (s : string) : option string :=
  if startsWith s "/v1/models/" then
    let r := spanModel (sliceFrom 11 s) in
    match snd r with
    | String c rest =>
        if Ascii.eqb c ":"%char && negb (isEmpty (fst r)) && verbAt rest
        then Some (fst r) else None
    | EmptyString => None
    end
  else None.

(** [s.match(pattern)?.[1]]: the leftmost position where the pattern
    matches. *)
Fixpoint searchModel (s : string) : option string :=
  match matchModelAt s with
  | Some name => Some name
  | None =>
      match s with
      | EmptyString => None
      | String _ s' => searchModel s'
      end
  end.

(** [match?.[1] || 'gpt-4o-copilot'] on the URL without its query *)
Definition modelNameOf (url : string) : string :=
  match searchModel (beforeQuery url) with
  | Some name => name
  | None => "gpt-4o-copilot"
  end.

(** The whole chain for a Gemini call: both middlewares, the model name read
    off the URL, and the adapter. *)
Definition serveGemini (P : Platform) (config : BridgeConfig) (cache : Cache)
    (env : Gemini.Env) (req : IncomingMessage) (next : M unit) : M unit * Cache :=
  middlewares config cache req
    (Gemini.handleGeminiGenerateContent P env req (modelNameOf (default "" (url req))))
    next.

(** The route [app.post('/v1/responses', ...)]: the rate limit, then the
    adapter inside its own [try]/[catch]. *)
Definition responsesRoute (config : BridgeConfig) (env : Responses.Env) : M unit :=
  fun w =>
    if (maxConcurrent config <=? activeRequests w) then effect WriteRateLimit w
    else
      tryCatch (Responses.handleAiSdkResponse env)
        (fun e =>
           effect (WriteErrorResponse 500
                     (if isEmpty (message e) then "internal_error" else message e)
                     "server_error" "internal_error" None)) w.

End Server.

(** ** The generic-chat endpoint the Anthropic adapter calls back into *)

Module ChatCompletions.
Import JS Json Runtime Anthropic.

(** Modelled from the spec: the handler of [/v1/chat/completions]
    ([routes/chat.ts]) is not among the sources. Following the spec, the
    model's answer is a finite sequence of text fragments; the streamed
    response is a sequence of newline-delimited [data: <json>] events, one
    per fragment and each carrying that fragment as its incremental text
    delta, closed by a literal [[DONE]] sentinel; the buffered response
    carries the fragments concatenated in order. The JSON shapes are the
    ones [runLMStream] and [runLMFull] read. *)
Definition deltaChunk (fragment : string) : json :=
  JObject [("choices", JArray [JObject [("delta", JObject [("content", JString fragment)])]])].

(** Modelled from the spec: the buffered answer, with the full text where
    [runLMFull] reads it. *)
Definition completion (text : string) : json :=
  JObject [("choices", JArray [JObject [("message", JObject [("content", JString text)])]])].

(** Modelled from the spec: one [data: <payload>] event, ended by a newline
    and followed by a blank line. *)
Definition sseEvent (payload : string) : string :=
  "data: " +:+ payload +:+ newline +:+ newline.

(** Modelled from the spec: the streamed body, one event per fragment and
    the [[DONE]] sentinel last. *)
Definition streamBody (P : Platform) (fragments : list string) : string :=
  join "" (map (fun f => sseEvent (JSON_stringify P (deltaChunk f))) fragments)
  +:+ sseEvent "[DONE]".

(** Modelled from the spec: the [stream] flag of the canonical request. *)
Definition wantsStream (req : FetchRequest) : bool :=
  match prop "stream" (Some (fetch_body req)) with
  | Some (JBool b) => b
  | _ => false
  end.

(** Modelled from the spec: the endpoint's answer to a call, streamed when
    the call asks for it; [transport] cuts the body into the chunks the
    reader receives, and no read fails. *)
Definition chatCompletions (P : Platform) (transport : string -> list string)
    (fragments : list string) (req : FetchRequest) : JsError + FetchResponse :=
  let text :=
    if wantsStream req then streamBody P fragments
    else JSON_stringify P (completion (join "" fragments)) in
  inr {| ok := true; status := 200; body := Some (transport text); bodyError := None |}.

(** What the proofs below use of [JSON.stringify] and [JSON.parse]: parsing
    what was serialised gives the value back, and a serialised object is one
    line that starts and ends with a brace. *)
Record JsonFaithful (P : Platform) : Prop := {
  parse_delta : forall f,
    JSON_parse P (JSON_stringify P (deltaChunk f)) = inr (deltaChunk f);
  parse_completion : forall t,
    JSON_parse P (JSON_stringify P (completion t)) = inr (completion t);
  stringify_one_line : forall f,
    indexOf "010"%char (JSON_stringify P (deltaChunk f)) = None;
  stringify_braces : forall f,
    exists inner, JSON_stringify P (deltaChunk f) = "{" +:+ inner +:+ "}"
}.

(** A transport may cut the body anywhere, but delivers all of it in order. *)
Definition Lossless (transport : string -> list string) : Prop :=
  forall s, join "" (transport s) = s.

End ChatCompletions.

(** ** Reading a response off the effect log *)

Module Observe.
Import Json Runtime.

Definition freshWorld (active : Z) : World := {| activeRequests := active; log := [] |}.

(** The two writes of one [writeSSE] call. *)
Definition sse (event : string) (data : json) : list Effect :=
  [Write (EventLine event); Write (DataLine data)].

Definition isString (j : option json) : option string :=
  match j with
  | Some (JString s) => Some s
  | _ => None
  end.

(** The text a [content_block_delta] frame carries. *)
Definition deltaText (e : Effect) : option string :=
  match e with
  | Write (DataLine data) =>
      match isString (prop "type" (Some data)) with
      | Some ty =>
          if bool_decide (ty = "content_block_delta")
          then isString (prop "text" (prop "delta" (Some data)))
          else None
      | None => None
      end
  | _ => None
  end.

Definition deltaTexts (l : list Effect) : list string := omap deltaText l.

(** The texts of the content blocks of a buffered message. *)
Definition blockText (block : json) : option string :=
  match isString (prop "type" (Some block)) with
  | Some ty =>
      if bool_decide (ty = "text") then isString (prop "text" (Some block)) else None
  | None => None
  end.

Definition contentBlocks (e : Effect) : list string :=
  match e with
  | End (Some message) =>
      match prop "content" (Some message) with
      | Some (JArray blocks) => omap blockText blocks
      | _ => []
      end
  | _ => []
  end.

Definition contentBlockTexts (l : list Effect) : list string := flat_map contentBlocks l.

(** The names of the SSE events written, in order. *)
Definition eventNames (l : list Effect) : list string :=
  omap (fun e => match e with Write (EventLine event) => Some event | _ => None end) l.

(** Whether [res.end] was called. *)
Definition ended (l : list Effect) : bool :=
  existsb (fun e => match e with End _ => true | _ => false end) l.

(** A counter update. *)
Definition counterOp (e : Effect) : bool := isInc e || isDec e.

(** A computation that leaves the counter alone: whatever it adds to the log
    holds no counter update, and the counter keeps its value. *)
Definition neutral {A} (m : M A) : Prop :=
  forall w, exists added,
    log (fst (m w)) = log w ++ added
    /\ forallb (fun e => negb (counterOp e)) added = true
    /\ activeRequests (fst (m w)) = activeRequests w.

(** The writes of the [content_block_delta] frames for [fragments]. *)
Definition deltaWrites (fragments : list string) : list Effect :=
  flat_map (fun f => sse "content_block_delta" (Anthropic.deltaEvent f)) fragments.

(** The complete effect log of a streamed answer made of [fragments]. *)
Definition streamedLog (id model : string) (fragments : list string) : list Effect :=
  [ SetStatus 200;
    SetHeader "content-type" "text/event-stream; charset=utf-8";
    SetHeader "cache-control" "no-cache, no-transform";
    SetHeader "connection" "keep-alive" ]
  ++ sse "message_start" (Anthropic.messageStartEvent id model)
  ++ sse "content_block_start" Anthropic.contentBlockStartEvent
  ++ deltaWrites fragments
  ++ sse "content_block_stop" Anthropic.contentBlockStopEvent
  ++ sse "message_delta" Anthropic.messageDeltaEvent
  ++ sse "message_stop" Anthropic.messageStopEvent
  ++ [End None].

(** A call that writes a whole response through the utilities. *)
Definition isResponse (e : Effect) : bool :=
  match e with
  | WriteJson _ _ | WriteErrorResponse _ _ _ _ _ => true
  | _ => false
  end.

Definition isDisposeCancellation (e : Effect) : bool :=
  match e with DisposeCancellation => true | _ => false end.

Definition isDisposeResponse (e : Effect) : bool :=
  match e with DisposeResponse => true | _ => false end.

(** The value of [state.activeRequests] after the effects [l], starting
    from [initial]. *)
Definition counterAfter (initial : Z) (l : list Effect) : Z :=
  initial + Z.of_nat (length (List.filter isInc l))
  - Z.of_nat (length (List.filter isDec l)).

(** The cached header is the one that belongs to the cached token. *)
Definition cacheConsistent (c : Auth.Cache) : Prop :=
  Auth.cachedAuthHeader c
  = if JS.isEmpty (Auth.cachedToken c) then "" else "Bearer " +:+ Auth.cachedToken c.

(** A header value that, trimmed, is the token. *)
Definition carries (h : option Http.HeaderValue) (token : string) : Prop :=
  exists v, h = Some (Http.HString v) /\ JS.trim v = token.

(** An [Authorization: Bearer] header whose value, trimmed, is the token. *)
Definition bearerCarries (h : option string) (token : string) : Prop :=
  exists auth, h = Some auth /\ JS.startsWith auth "Bearer " = true
               /\ JS.trim (JS.sliceFrom 7 auth) = token.

(** The number of characters a message content holds as strings: the
    length of a string content, the lengths of the string entries of an
    array content. *)
Definition heldChars (c : Vscode.Content) : nat :=
  match c with
  | Vscode.ContentString s => String.length s
  | Vscode.ContentArray parts =>
      list_sum (map (fun p => match p with
                              | Vscode.PartString s => String.length s
                              | Vscode.PartObject => 0%nat
                              end) parts)
  | Vscode.ContentOther => 0%nat
  end.

(** The text of a message content in the words of the specification: a
    single string payload as it is; of a list of typed parts, the texts of
    the parts tagged as textual input or output, in list order. *)
Fixpoint taggedText (parts : list AiSdk.AiSdkContentPart) : string :=
  match parts with
  | [] => ""
  | part :: rest =>
      if String.eqb (AiSdk.type part) "input_text"
      then AiSdk.text part +:+ taggedText rest
      else if String.eqb (AiSdk.type part) "output_text"
      then AiSdk.text part +:+ taggedText rest
      else taggedText rest
  end.

Definition wireText (c : AiSdk.AiSdkContent) : string :=
  match c with
  | AiSdk.Text s => s
  | AiSdk.Parts parts => taggedText parts
  end.

(** The usage objects of the responses written with [writeJson]. *)
Definition usages (l : list Effect) : list AiSdk.AiSdkUsage :=
  omap (fun e => match e with
                 | WriteJson _ r => Some (AiSdk.usage r)
                 | _ => None
                 end) l.

(** What the [try]/[catch] block of the AI-SDK handler adds to the log,
    path by path. *)
Definition internalError (e : JsError) : Effect :=
  WriteErrorResponse 500 (if JS.isEmpty (message e) then "internal_error" else message e)
    "server_error" "internal_error" None.

Definition responsesTrace (env : Responses.Env) : list Effect :=
  match Responses.readJson env with
  | inl e => [internalError e]
  | inr raw =>
      if Responses.isAiSdkRequest raw then
        match Responses.getModel env false (Responses.modelName raw) with
        | inl e => [internalError e]
        | inr None => [Responses.modelUnavailable env (Responses.modelName raw)]
        | inr (Some model) =>
            match Responses.asRequest (Responses.builtins env) raw with
            | inl e => [internalError e]
            | inr body =>
                let recent := Responses.recentMessagesOf env body in
                match Responses.sendRequest model recent with
                | inl e => [DisposeCancellation; internalError e]
                | inr response =>
                    (if Responses.hasDispose response then [DisposeResponse] else [])
                    ++ match Responses.failure response with
                       | Some e => [DisposeCancellation; internalError e]
                       | None =>
                           [ WriteJson 200
                               (Responses.buildResponse env body recent
                                  (JS.join "" (Responses.fragments response)));
                             DisposeCancellation ]
                       end
                end
            end
        end
      else
        [ WriteErrorResponse 400 "invalid request format" "invalid_request_error"
            "invalid_payload" None ]
  end.

End Observe.

(** ** A small platform to run the handlers on *)

Module Sample.
Import JS Json Runtime ChatCompletions.

Definition quote : ascii := "034"%char.
Definition backslash : ascii := "092"%char.

(** The body of a JSON string literal: quotes, backslashes and line feeds
    are escaped. *)
Fixpoint escape (s : string) : string :=
  match s with
  | EmptyString => EmptyString
  | String c s' =>
      if Ascii.eqb c quote then String backslash (String quote (escape s'))
      else if Ascii.eqb c backslash then String backslash (String backslash (escape s'))
      else if Ascii.eqb c "010"%char then String backslash (String "n"%char (escape s'))
      else String c (escape s')
  end.

Definition quoted (s : string) : string :=
  String quote (escape s +:+ String quote EmptyString).

(** Reads the body of a string literal up to its closing quote: the
    decoded text and what follows the quote. *)
Fixpoint unescape (s : string) : option (string * string) :=
  match s with
  | EmptyString => None
  | String c s' =>
      if Ascii.eqb c quote then Some (EmptyString, s')
      else if Ascii.eqb c backslash then
        match s' with
        | EmptyString => None
        | String d s'' =>
            let decoded := if Ascii.eqb d "n"%char then "010"%char else d in
            match unescape s'' with
            | Some (t, rest) => Some (String decoded t, rest)
            | None => None
            end
        end
      else
        match unescape s' with
        | Some (t, rest) => Some (String c t, rest)
        | None => None
        end
  end.

Fixpoint stringify (j : json) : string :=
  match j with
  | JNull => "null"
  | JBool true => "true"
  | JBool false => "false"
  | JNumber q => pretty (Qnum q / Zpos (Qden q))
  | JString s => quoted s
  | JArray items => "[" +:+ join "," (List.map stringify items) +:+ "]"
  | JObject fields =>
      "{" +:+ join "," (List.map (fun kv => quoted (fst kv) +:+ ":" +:+ stringify (snd kv))
                                 fields) +:+ "}"
  end.

Fixpoint stripPrefix (p s : string) : option string :=
  match p, s with
  | EmptyString, _ => Some s
  | String a p', String b s' => if Ascii.eqb a b then stripPrefix p' s' else None
  | String _ _, EmptyString => None
  end.

Definition choicePrefix (field : string) : string :=
  "{" +:+ quoted "choices" +:+ ":[{" +:+ quoted field +:+ ":{" +:+ quoted "content"
  +:+ ":" +:+ String quote EmptyString.

Definition syntaxError : JsError :=
  {| message := "Unexpected token in JSON"; stack := "SyntaxError" |}.

(** A reader for the two shapes the chat endpoint sends; anything else is a
    syntax error. *)
Definition parseChoice (field : string) (wrap : string -> json) (text : string)
  : option json :=
  match stripPrefix (choicePrefix field) text with
  | Some rest =>
      match unescape rest with
      | Some (content, tail) =>
          if bool_decide (tail = "}}]}") then Some (wrap content) else None
      | None => None
      end
  | None => None
  end.

Definition parse (text : string) : JsError + json :=
  match parseChoice "delta" deltaChunk text with
  | Some j => inr j
  | None =>
      match parseChoice "message" completion text with
      | Some j => inr j
      | None => inl syntaxError
      end
  end.

Definition upper (c : ascii) : ascii :=
  let n := nat_of_ascii c in
  if (97 <=? n)%nat && (n <=? 122)%nat then ascii_of_nat (n - 32) else c.

Fixpoint upperCase (s : string) : string :=
  match s with
  | EmptyString => EmptyString
  | String c s' => String (upper c) (upperCase s')
  end.

(** [String(value)]: an array as its elements joined by commas ([null]
    elements as nothing), an object as [[object Object]]; a number is shown
    by its integer part. *)
Fixpoint display (j : json) : string :=
  match j with
  | JNull => "null"
  | JBool true => "true"
  | JBool false => "false"
  | JNumber q => pretty (Qnum q / Zpos (Qden q))
  | JString s => s
  | JArray items =>
      join "," (List.map (fun v => match v with JNull => "" | _ => display v end) items)
  | JObject _ => "[object Object]"
  end.

Definition platform : Platform :=
  {| JSON_parse := parse;
     JSON_stringify := stringify;
     toString := display;
     captureStack := fun msg => "Error: " +:+ msg;
     toUpperCase := upperCase;
     headersSentError :=
       {| message := "Cannot set headers after they are sent to the client";
          stack := "ERR_HTTP_HEADERS_SENT" |};
     typeError := fun name =>
       {| message := name +:+ " is not a function"; stack := "TypeError" |};
     nullError := fun name =>
       {| message := "Cannot read properties of null (reading '" +:+ name +:+ "')";
          stack := "TypeError" |} |}.

(** Cuts a body into chunks of at most [S n] characters. *)
Fixpoint chop (n : nat) (room : nat) (s : string) : list string :=
  match s with
  | EmptyString => []
  | String c s' =>
      match room with
      | S room' =>
          match chop n room' s' with
          | chunk :: chunks => String c chunk :: chunks
          | [] => [String c EmptyString]
          end
      | O => String c EmptyString :: chop n n s'
      end
  end.

Definition transport (s : string) : list string := chop 6 6 s.

(** [new URLSearchParams(query).get(name)] for a query without escapes:
    the value of the first [name=value] pair. *)
Fixpoint splitOn (sep : ascii) (s : string) : list string :=
  match s with
  | EmptyString => [EmptyString]
  | String c s' =>
      if Ascii.eqb c sep then EmptyString :: splitOn sep s'
      else match splitOn sep s' with
           | piece :: pieces => String c piece :: pieces
           | [] => [String c EmptyString]
           end
  end.

Fixpoint firstPair (name : string) (pairs : list string) : option string :=
  match pairs with
  | [] => None
  | entry :: rest =>
      match stripPrefix (name +:+ "=") entry with
      | Some value => Some value
      | None => firstPair name rest
      end
  end.

Definition searchParams (query name : string) : option string :=
  firstPair name (splitOn "&"%char query).

(** A [/v1/messages] request with a bearer token. *)
Definition messagesRequest : Http.IncomingMessage :=
  {| Http.method := "POST";
     Http.url := Some "/v1/messages";
     Http.authorization := Some "Bearer secret";
     Http.host := Some "127.0.0.1:9527";
     Http.others := ∅ |}.

Definition messagesBody (flag : option bool) : Anthropic.AnthropicRequest :=
  {| Anthropic.model := "m";
     Anthropic.system := Some "be terse";
     Anthropic.messages :=
       Some [ {| Anthropic.role := "user"; Anthropic.content := Anthropic.ContentString "hi" |} ];
     Anthropic.max_tokens := None;
     Anthropic.temperature := None;
     Anthropic.stream := flag |}.

(** The same request without any credential. *)
Definition anonymousRequest : Http.IncomingMessage :=
  {| Http.method := "POST";
     Http.url := Some "/v1/messages";
     Http.authorization := None;
     Http.host := Some "127.0.0.1:9527";
     Http.others := ∅ |}.

(** Four fragments: one empty, one with a line feed, one with a quote. *)
Definition answer : list string :=
  [ "Hel"; ""; "lo" +:+ newline +:+ "wor"; "ld" +:+ String quote "!" ].

Definition messagesEnv (flag : option bool) : Anthropic.Env :=
  {| Anthropic.readBody := inr (messagesBody flag);
     Anthropic.fetch := chatCompletions platform transport answer;
     Anthropic.now := 1700000000000 |}.

(** The chat endpoint answers 503: the model is unavailable. *)
Definition unavailableEnv : Anthropic.Env :=
  {| Anthropic.readBody := inr (messagesBody None);
     Anthropic.fetch := fun _ =>
       inr {| Anthropic.ok := false; Anthropic.status := 503;
              Anthropic.body := Some ["Copilot unavailable"];
              Anthropic.bodyError := None |};
     Anthropic.now := 1700000000000 |}.

(** The chat endpoint starts to stream, then the connection breaks: one
    event arrives and the next read fails. *)
Definition brokenStreamEnv : Anthropic.Env :=
  {| Anthropic.readBody := inr (messagesBody None);
     Anthropic.fetch := fun _ =>
       inr {| Anthropic.ok := true; Anthropic.status := 200;
              Anthropic.body := Some [ sseEvent (stringify (deltaChunk "Hel")) ];
              Anthropic.bodyError :=
                Some {| message := "terminated"; stack := "TypeError" |} |};
     Anthropic.now := 1700000000000 |}.

(** A Gemini call that carries its token in the [key] query parameter only. *)
Definition geminiKeyRequest : Http.IncomingMessage :=
  {| Http.method := "POST";
     Http.url := Some "/v1/models/gemini-2.5-pro:generateContent?key=secret";
     Http.authorization := None;
     Http.host := Some "127.0.0.1:9527";
     Http.others := ∅ |}.

(** A Gemini call that carries its token in the [Authorization] header. *)
Definition geminiBearerRequest : Http.IncomingMessage :=
  {| Http.method := "POST";
     Http.url := Some "/v1/models/gemini-2.5-pro:generateContent";
     Http.authorization := Some "Bearer secret";
     Http.host := Some "127.0.0.1:9527";
     Http.others := ∅ |}.

Definition geminiBody : Gemini.GeminiRequest :=
  {| Gemini.contents :=
       Some [ {| Gemini.role := Some "user";
                 Gemini.parts := Some [ {| Gemini.text := Some "hello" |} ] |} ];
     Gemini.generationConfig := None |}.

Definition geminiEnv : Gemini.Env :=
  {| Gemini.searchParamsGet := searchParams;
     Gemini.readJson := inr (Gemini.requestJson geminiBody);
     Gemini.fetch := fun _ =>
       inr {| Gemini.ok := true; Gemini.status := 200;
              Gemini.body := inr (stringify (completion "Hello!")) |} |}.

(** The same endpoint called with a body whose [contents] is a string. *)
Definition geminiOffTypeEnv : Gemini.Env :=
  {| Gemini.searchParamsGet := searchParams;
     Gemini.readJson := inr (JObject [("contents", JString "hello")]);
     Gemini.fetch := fun _ =>
       inr {| Gemini.ok := true; Gemini.status := 200;
              Gemini.body := inr (stringify (completion "Hello!")) |} |}.

Definition bridgeConfig : Server.BridgeConfig :=
  {| Server.token := "secret"; Server.maxConcurrent := 4; Server.verbose := false |}.

(** An AI-SDK call: one user message as a string, one assistant message as
    typed parts, answered in two fragments. *)
Definition responsesBody : AiSdk.AiSdkRequest :=
  {| AiSdk.model := "gpt-4o";
     AiSdk.input :=
       [ {| AiSdk.role := "user"; AiSdk.content := AiSdk.Text "hello" |};
         {| AiSdk.role := "assistant";
            AiSdk.content :=
              AiSdk.Parts [ {| AiSdk.type := "output_text"; AiSdk.text := "Hi" |};
                            {| AiSdk.type := "input_image"; AiSdk.text := "png" |};
                            {| AiSdk.type := "input_text"; AiSdk.text := "!" |} ] |} ];
     AiSdk.temperature := None;
     AiSdk.max_output_tokens := None;
     AiSdk.stream := None |}.

Definition copilot : Responses.LMModel :=
  {| Responses.family := "gpt-4o";
     Responses.model_id := "copilot-gpt-4o";
     Responses.sendRequest := fun _ =>
       inr {| Responses.fragments := ["Hello! How can "; "I help you?"];
              Responses.failure := None;
              Responses.hasDispose := true |} |}.

(** An editor whose messages hold the text they were given as a string. *)
Definition textClass : Vscode.MessageClass :=
  {| Vscode.userContent := Vscode.ContentString;
     Vscode.assistantContent := Vscode.ContentString |}.

(** An editor whose messages hold the text they were given inside one part
    object. *)
Definition partClass : Vscode.MessageClass :=
  {| Vscode.userContent := fun _ => Vscode.ContentArray [Vscode.PartObject];
     Vscode.assistantContent := fun _ => Vscode.ContentArray [Vscode.PartObject] |}.

Definition responsesEnv (model : option Responses.LMModel) (lmApi : bool) : Responses.Env :=
  {| Responses.builtins := platform;
     Responses.messageClass := textClass;
     Responses.readJson := inr (Responses.requestJson responsesBody);
     Responses.getModel := fun _ _ => inr model;
     Responses.hasLMApi := lmApi;
     Responses.historyWindow := 3;
     Responses.now := 1700000000123;
     Responses.random1 := "0.4fzyo82mvyr";
     Responses.random2 := "0.8k2j5n1q9xa" |}.

(** The same call served by an editor that holds message texts in part
    objects. *)
Definition partsEnv : Responses.Env :=
  {| Responses.builtins := platform;
     Responses.messageClass := partClass;
     Responses.readJson := inr (Responses.requestJson responsesBody);
     Responses.getModel := fun _ _ => inr (Some copilot);
     Responses.hasLMApi := true;
     Responses.historyWindow := 3;
     Responses.now := 1700000000123;
     Responses.random1 := "0.4fzyo82mvyr";
     Responses.random2 := "0.8k2j5n1q9xa" |}.

(** Three messages of four characters each, met with a history window of
    one message pair. *)
Definition threeMessages : AiSdk.AiSdkRequest :=
  {| AiSdk.model := "gpt-4o";
     AiSdk.input :=
       [ {| AiSdk.role := "user"; AiSdk.content := AiSdk.Text "aaaa" |};
         {| AiSdk.role := "assistant"; AiSdk.content := AiSdk.Text "bbbb" |};
         {| AiSdk.role := "user"; AiSdk.content := AiSdk.Text "cccc" |} ];
     AiSdk.temperature := None;
     AiSdk.max_output_tokens := None;
     AiSdk.stream := None |}.

Definition narrowEnv : Responses.Env :=
  {| Responses.builtins := platform;
     Responses.messageClass := textClass;
     Responses.readJson := inr (Responses.requestJson threeMessages);
     Responses.getModel := fun _ _ => inr (Some copilot);
     Responses.hasLMApi := true;
     Responses.historyWindow := 1;
     Responses.now := 1700000000123;
     Responses.random1 := "0.4fzyo82mvyr";
     Responses.random2 := "0.8k2j5n1q9xa" |}.

(** A body that passes the guard although one content part is [null]. *)
Definition nullPartBody : json :=
  JObject [ ("model", JString "gpt-4o");
            ("input", JArray [ JObject [ ("role", JString "user");
                                         ("content", JArray [JNull]) ] ]) ].

Definition nullPartEnv : Responses.Env :=
  {| Responses.builtins := platform;
     Responses.messageClass := textClass;
     Responses.readJson := inr nullPartBody;
     Responses.getModel := fun _ _ => inr (Some copilot);
     Responses.hasLMApi := true;
     Responses.historyWindow := 3;
     Responses.now := 1700000000123;
     Responses.random1 := "0.4fzyo82mvyr";
     Responses.random2 := "0.8k2j5n1q9xa" |}.

End Sample.

(** * Properties *)

(** ** Strings *)

Section StringFacts.
Import JS.

Lemma app_nil_l (s : string) : "" +:+ s = s.
Proof. reflexivity. Qed.

Lemma app_cons (x : ascii) (a b : string) : String x a +:+ b = String x (a +:+ b).
Proof. reflexivity. Qed.

Lemma app_empty_r (s : string) : s +:+ "" = s.
Proof. induction s as [|c s IH]; [reflexivity|]. by rewrite app_cons, IH. Qed.

Lemma app_assoc' (a b c : string) : (a +:+ b) +:+ c = a +:+ (b +:+ c).
Proof. induction a as [|x a IH]; [reflexivity|]. by rewrite !app_cons, IH. Qed.

Lemma string_length_app (a b : string) :
  String.length (a +:+ b) = (String.length a + String.length b)%nat.
Proof. induction a as [|x a IH]; [reflexivity|]. rewrite app_cons. cbn. by rewrite IH. Qed.

Lemma join_empty_cons (x : string) (xs : list string) :
  join "" (x :: xs) = x +:+ join "" xs.
Proof.
  unfold join. destruct xs as [|y ys]; cbn.
  - by rewrite app_empty_r.
  - reflexivity.
Qed.

Lemma join_empty_app (xs ys : list string) :
  join "" (xs ++ ys) = join "" xs +:+ join "" ys.
Proof.
  induction xs as [|x xs IH].
  - reflexivity.
  - change ((x :: xs) ++ ys) with (x :: (xs ++ ys)).
    by rewrite !join_empty_cons, IH, app_assoc'.
Qed.

Lemma indexOf_app_None (c : ascii) (a b : string) :
  indexOf c a = None ->
  indexOf c (a +:+ b) = option_map (Nat.add (String.length a)) (indexOf c b).
Proof.
  induction a as [|x a IH]; intros H.
  - rewrite app_nil_l. by destruct (indexOf c b).
  - cbn in H. rewrite app_cons. cbn [indexOf].
    destruct (Ascii.eqb x c); [discriminate|].
    destruct (indexOf c a) eqn:E; [discriminate|].
    rewrite IH by reflexivity. by destruct (indexOf c b).
Qed.

Lemma indexOf_app_Some (c : ascii) (a b : string) (i : nat) :
  indexOf c a = Some i -> indexOf c (a +:+ b) = Some i.
Proof.
  revert i. induction a as [|x a IH]; intros i H; [discriminate|].
  cbn in H. rewrite app_cons. cbn [indexOf].
  destruct (Ascii.eqb x c); [assumption|].
  destruct (indexOf c a) as [j|] eqn:E; [|discriminate].
  by rewrite (IH j eq_refl).
Qed.

Lemma sliceTo_app_Some (c : ascii) (a b : string) (i : nat) :
  indexOf c a = Some i -> sliceTo i (a +:+ b) = sliceTo i a.
Proof.
  revert i. induction a as [|x a IH]; intros i H; [discriminate|].
  cbn in H. destruct (Ascii.eqb x c).
  - by injection H as <-.
  - destruct (indexOf c a) as [j|] eqn:E; [|discriminate].
    injection H as <-. rewrite app_cons. cbn [sliceTo].
    by rewrite (IH j eq_refl).
Qed.

Lemma sliceFrom_app_Some (c : ascii) (a b : string) (i : nat) :
  indexOf c a = Some i -> sliceFrom (S i) (a +:+ b) = sliceFrom (S i) a +:+ b.
Proof.
  revert i. induction a as [|x a IH]; intros i H; [discriminate|].
  cbn in H. destruct (Ascii.eqb x c).
  - by injection H as <-.
  - destruct (indexOf c a) as [j|] eqn:E; [|discriminate].
    injection H as <-. rewrite app_cons.
    change (sliceFrom (S (S j)) (String x (a +:+ b))) with (sliceFrom (S j) (a +:+ b)).
    change (sliceFrom (S (S j)) (String x a)) with (sliceFrom (S j) a).
    by apply IH.
Qed.

Lemma sliceTo_length_app (a b : string) : sliceTo (String.length a) (a +:+ b) = a.
Proof.
  induction a as [|x a IH]; [by destruct b|].
  rewrite app_cons. cbn. by rewrite IH.
Qed.

Lemma sliceFrom_length_app (a b : string) : sliceFrom (String.length a) (a +:+ b) = b.
Proof. induction a as [|x a IH]; [reflexivity|]. rewrite app_cons. cbn. exact IH. Qed.

Lemma sliceFrom_S_indexOf_None (c : ascii) (s : string) :
  indexOf c s = None -> forall i, indexOf c (sliceFrom i s) = None.
Proof.
  induction s as [|x s IH]; intros H i.
  - by destruct i.
  - destruct i; [exact H|]. cbn in H. cbn [sliceFrom].
    destruct (Ascii.eqb x c); [discriminate|].
    destruct (indexOf c s) eqn:E; [discriminate|]. by apply IH.
Qed.

(** A string that ends in a character [trim] does not strip is left alone
    by [trimEnd]. *)
Lemma trimEnd_keeps (a : string) (c : ascii) :
  isWhiteSpace c = false ->
  trimEnd (a +:+ String c "") = a +:+ String c "".
Proof.
  intros Hc. induction a as [|x a IH].
  - rewrite app_nil_l. cbn. by rewrite Hc.
  - rewrite app_cons. cbn [trimEnd]. rewrite IH.
    destruct a; rewrite ?app_nil_l, ?app_cons; cbn [isEmpty];
      by rewrite andb_false_r.
Qed.

Example trim_example : trim ("  data: x " +:+ newline) = "data: x".
Proof. reflexivity. Qed.

Example indexOf_example :
  indexOf "010" ("ab" +:+ newline +:+ "c") = Some 2%nat /\ indexOf "010" "abc" = None.
Proof. split; reflexivity. Qed.

(** [slice(-4)] keeps the last four entries, and [slice(-0)] keeps all. *)
Example arraySlice_example :
  arraySlice (-4) [1; 2; 3; 4; 5; 6] = [3; 4; 5; 6]
  /\ arraySlice (- 0 * 2) [1; 2; 3] = [1; 2; 3]
  /\ arraySlice (-4) [1; 2] = [1; 2].
Proof. repeat split. Qed.

Example ceilDiv_example :
  ceilDiv 0 4 = 0 /\ ceilDiv 1 4 = 1 /\ ceilDiv 4 4 = 1 /\ ceilDiv 5 4 = 2.
Proof. repeat split. Qed.

End StringFacts.

(** ** The line reader of [runLMStream] *)

Section LineReader.
Import JS Json Runtime Anthropic.
Variable P : Platform.

Local Abbreviation LF := ("010"%char) (only parsing).

(** One iteration of the inner loop, as an equation. *)
Lemma drainLines_step (buffer : string) :
  drainLines P buffer =
  match indexOf LF buffer with
  | None => ([], Some buffer)
  | Some idx =>
      let line := trim (sliceTo idx buffer) in
      let buffer' := sliceFrom (S idx) buffer in
      match processLine P line with
      | Continue => drainLines P buffer'
      | Return => ([], None)
      | Yield text => let r := drainLines P buffer' in (text :: fst r, snd r)
      end
  end.
Proof.
  funelim (drainLines P buffer).
  - rewrite Hidx. reflexivity.
  - rewrite e. reflexivity.
Qed.

(** Induction along the loop: the buffer after a line is shorter. *)
Lemma buffer_ind (Q : string -> Prop) :
  (forall s, (forall i, indexOf LF s = Some i -> Q (sliceFrom (S i) s)) -> Q s) ->
  forall s, Q s.
Proof.
  intros step s.
  remember (String.length s) as n eqn:Hn.
  revert s Hn. induction n as [n IH] using lt_wf_ind. intros s ->.
  apply step. intros i Hi.
  apply (IH (String.length (sliceFrom (S i) s))); [|reflexivity].
  by apply (sliceFrom_indexOf_length LF).
Qed.

Lemma drainLines_no_newline (buffer : string) :
  indexOf LF buffer = None -> drainLines P buffer = ([], Some buffer).
Proof. intros H. by rewrite drainLines_step, H. Qed.

(** The buffer the loop leaves behind holds no complete line. *)
Lemma drainLines_rest (buffer rest : string) :
  snd (drainLines P buffer) = Some rest -> indexOf LF rest = None.
Proof.
  revert rest. induction buffer as [s IH] using buffer_ind. intros rest.
  rewrite drainLines_step.
  destruct (indexOf LF s) as [i|] eqn:E.
  - cbv zeta. destruct (processLine P _); cbn [snd]; try discriminate; by apply IH.
  - cbn. by intros [= <-].
Qed.

(** No empty string is ever yielded. *)
Lemma drainLines_nonempty (buffer : string) :
  Forall (fun t => isEmpty t = false) (fst (drainLines P buffer)).
Proof.
  induction buffer as [s IH] using buffer_ind.
  rewrite drainLines_step.
  destruct (indexOf LF s) as [i|] eqn:E; [|constructor].
  cbv zeta. destruct (processLine P _) as [| |t] eqn:Ep; cbn [fst].
  - by apply IH.
  - constructor.
  - constructor; [|by apply IH].
    unfold processLine in Ep.
    repeat match type of Ep with
           | (if ?b then _ else _) = _ => destruct b; try discriminate
           | match ?x with _ => _ end = _ => destruct x; try discriminate
           end.
    by injection Ep as <-.
Qed.

(** Reading [s] and then [t] is reading [s +:+ t]: the loop does not see
    where one network chunk ends and the next begins. *)
Lemma drainLines_app (s t : string) :
  drainLines P (s +:+ t) =
  match snd (drainLines P s) with
  | None => (fst (drainLines P s), None)
  | Some rest =>
      (fst (drainLines P s) ++ fst (drainLines P (rest +:+ t)),
       snd (drainLines P (rest +:+ t)))
  end.
Proof.
  induction s as [s IH] using buffer_ind.
  rewrite (drainLines_step s).
  destruct (indexOf LF s) as [i|] eqn:E.
  - rewrite (drainLines_step (s +:+ t)).
    rewrite (indexOf_app_Some _ _ _ _ E). cbv zeta.
    rewrite (sliceTo_app_Some _ _ _ _ E), (sliceFrom_app_Some _ _ _ _ E).
    specialize (IH i eq_refl).
    destruct (processLine P _); cbn [fst snd].
    + exact IH.
    + reflexivity.
    + rewrite IH. by destruct (snd (drainLines P (sliceFrom (S i) s))).
  - cbn [fst snd]. by destruct (drainLines P (s +:+ t)).
Qed.

Lemma readLoop_join (chunks : list string) (buffer : string) :
  indexOf LF buffer = None ->
  readLoop P chunks buffer = fst (drainLines P (buffer +:+ join "" chunks)).
Proof.
  revert buffer. induction chunks as [|value rest IH]; intros buffer Hb.
  - cbn [readLoop]. change (join "" []) with "". rewrite app_empty_r.
    by rewrite drainLines_no_newline.
  - cbn [readLoop]. rewrite join_empty_cons, <- app_assoc'.
    rewrite (drainLines_app (buffer +:+ value)).
    destruct (snd (drainLines P (buffer +:+ value))) as [b'|] eqn:E; [|reflexivity].
    cbn [fst]. f_equal. apply IH. by apply (drainLines_rest _ _ E).
Qed.

(** Every fragment the generator yields is non-empty. *)
Lemma readLoop_nonempty (chunks : list string) (buffer : string) :
  Forall (fun t => isEmpty t = false) (readLoop P chunks buffer).
Proof.
  revert buffer. induction chunks as [|value rest IH]; intros buffer; [constructor|].
  cbn [readLoop]. pose proof (drainLines_nonempty (buffer +:+ value)) as H.
  destruct (snd (drainLines P (buffer +:+ value))); [|exact H].
  apply Forall_app. split; [exact H | apply IH].
Qed.

End LineReader.

(** ** Reading the stream the chat endpoint sends *)

Section StreamDecoding.
Import JS Json Runtime Anthropic ChatCompletions.
Variable P : Platform.
Hypothesis HP : JsonFaithful P.

Local Abbreviation LF := ("010"%char) (only parsing).

Lemma sliceFrom_S_length_app (a b : string) (c : ascii) :
  sliceFrom (S (String.length a)) (a +:+ String c b) = b.
Proof.
  induction a as [|x a IH]; [reflexivity|]. rewrite app_cons. exact IH.
Qed.

Lemma nonEmpty_filter_join (fs : list string) :
  join "" (List.filter (fun f => negb (isEmpty f)) fs) = join "" fs.
Proof.
  induction fs as [|f fs IH]; [reflexivity|].
  cbn [List.filter]. destruct f as [|c f]; cbn [isEmpty negb].
  - by rewrite join_empty_cons, app_nil_l.
  - by rewrite !join_empty_cons, IH.
Qed.

(** A blank line is skipped. *)
Lemma drainLines_blank (rest : string) :
  drainLines P (newline +:+ rest) = drainLines P rest.
Proof. by rewrite drainLines_step. Qed.

(** One event of the stream: the line before the first newline is handed to
    [processLine], and the blank line after it is skipped. *)
Lemma drainLines_event (payload rest : string) :
  indexOf LF payload = None ->
  drainLines P (sseEvent payload +:+ rest) =
  match processLine P (trim ("data: " +:+ payload)) with
  | Continue => drainLines P rest
  | Return => ([], None)
  | Yield text => (text :: fst (drainLines P rest), snd (drainLines P rest))
  end.
Proof.
  intros Hp. unfold sseEvent.
  assert (Hline : indexOf LF ("data: " +:+ payload) = None).
  { rewrite indexOf_app_None by reflexivity. by rewrite Hp. }
  replace (("data: " +:+ payload +:+ newline +:+ newline) +:+ rest)
    with (("data: " +:+ payload) +:+ String LF (newline +:+ rest))
    by (by rewrite !app_assoc').
  rewrite drainLines_step.
  rewrite (indexOf_app_None _ _ _ Hline).
  cbn [indexOf Ascii.eqb Bool.eqb option_map]. rewrite Nat.add_0_r. cbv zeta.
  rewrite sliceTo_length_app, sliceFrom_S_length_app, drainLines_blank.
  reflexivity.
Qed.

Lemma trim_braces (inner : string) :
  trim ("{" +:+ inner +:+ "}") = "{" +:+ inner +:+ "}".
Proof.
  unfold trim. rewrite app_cons, app_nil_l. cbn [trimStart isWhiteSpace].
  change (String "{" (inner +:+ "}")) with (String "{" inner +:+ String "}" "").
  by apply trimEnd_keeps.
Qed.

Lemma processLine_delta (f : string) :
  processLine P (trim ("data: " +:+ JSON_stringify P (deltaChunk f))) =
  if isEmpty f then Continue else Yield f.
Proof.
  destruct (stringify_braces P HP f) as [inner Hj].
  pose proof (parse_delta P HP f) as Hparse. rewrite Hj in *.
  assert (Hl : trim ("data: " +:+ "{" +:+ inner +:+ "}")
               = "data: " +:+ "{" +:+ inner +:+ "}").
  { unfold trim. rewrite !app_cons, !app_nil_l. cbn [trimStart isWhiteSpace].
    change (String "d" (String "a" (String "t" (String "a" (String ":" (String " "
              (String "{" (inner +:+ "}")))))))) with
      (("data: {" +:+ inner) +:+ String "}" "").
    by apply trimEnd_keeps. }
  rewrite Hl. unfold processLine.
  rewrite !app_cons, !app_nil_l. cbn [startsWith String.prefix negb sliceFrom].
  change (String " " (String "{" (inner +:+ "}"))) with (String " " ("{" +:+ inner +:+ "}")).
  replace (trim (String " " ("{" +:+ inner +:+ "}"))) with ("{" +:+ inner +:+ "}")
    by (symmetry; apply trim_braces).
  rewrite (app_cons "{"), app_nil_l. cbn [isEmpty orb].
  rewrite bool_decide_eq_false_2 by discriminate.
  change (String "{" (inner +:+ "}")) with ("{" +:+ inner +:+ "}").
  rewrite Hparse. by destruct f.
Qed.

Lemma processLine_done : processLine P (trim ("data: " +:+ "[DONE]")) = Return.
Proof. reflexivity. Qed.

(** The fragments read off the stream are the non-empty fragments sent. *)
Lemma drainLines_streamBody (fragments : list string) :
  drainLines P (streamBody P fragments)
  = (List.filter (fun f => negb (isEmpty f)) fragments, None).
Proof.
  unfold streamBody. induction fragments as [|f fs IH].
  - change (join "" (map _ [])) with "". rewrite app_nil_l.
    rewrite <- (app_empty_r (sseEvent "[DONE]")).
    rewrite drainLines_event by reflexivity. by rewrite processLine_done.
  - cbn [map]. rewrite join_empty_cons, app_assoc'.
    rewrite drainLines_event by apply (stringify_one_line P HP).
    rewrite processLine_delta, IH. cbn [List.filter fst snd].
    by destruct f.
Qed.

Lemma readLoop_streamBody (transport : string -> list string) (fragments : list string) :
  Lossless transport ->
  readLoop P (transport (streamBody P fragments)) ""
  = List.filter (fun f => negb (isEmpty f)) fragments.
Proof.
  intros Ht. rewrite readLoop_join by reflexivity.
  by rewrite app_nil_l, Ht, drainLines_streamBody.
Qed.

End StreamDecoding.

(** ** The Anthropic adapter on its success paths *)

Section AnthropicRuns.
Import JS Json Http Runtime Formatter Anthropic ChatCompletions Observe.
Variable P : Platform.

Lemma streamLoop_run (fragments : list string) (fullText : string) (w : World) :
  Forall (fun t => isEmpty t = false) fragments ->
  streamLoop fragments fullText w =
  ({| activeRequests := activeRequests w; log := log w ++ deltaWrites fragments |},
   inr (fullText +:+ join "" fragments)).
Proof.
  revert fullText w. induction fragments as [|f fs IH]; intros fullText w Hne.
  - cbn. rewrite app_nil_r. change (join "" []) with "". rewrite app_empty_r.
    by destruct w.
  - inversion Hne as [|? ? Hf Hfs]; subst. cbn [streamLoop]. rewrite Hf.
    unfold bind, writeSSE, write, effect, bind, emit. cbn [fst snd].
    rewrite IH by assumption. cbn [activeRequests log].
    rewrite join_empty_cons, app_assoc'. unfold deltaWrites. cbn [flat_map sse].
    by rewrite <- !app_assoc.
Qed.

(** A successful streamed run, from a fresh response object. *)
Lemma anthropicMessages_streamed (env : Env) (req : IncomingMessage)
    (body : AnthropicRequest) (token : string) (fragments : list string) (n : Z) :
  getBearerOrXApiKey req = Some token ->
  readBody env = inr body ->
  stream body <> Some false ->
  runLMStream P env (coreMessagesOf body) (optionsOf req body token)
    = {| yielded := fragments; thrown := None |} ->
  Forall (fun t => isEmpty t = false) fragments ->
  anthropicMessages P env req (freshWorld n) =
  ({| activeRequests := n;
      log := streamedLog ("msg_" +:+ pretty (now env)) (model body) fragments |},
   inr tt).
Proof.
  intros Htok Hbody Hsel Hrun Hne.
  unfold anthropicMessages. rewrite Htok.
  unfold tryCatch, bind at 1. rewrite Hbody. cbn [await ret].
  assert (Hs : default true (stream body) = true).
  { destruct (stream body) as [[]|]; [reflexivity|congruence|reflexivity]. }
  rewrite Hs. cbn [negb]. rewrite Hrun.
  unfold forAwait, bind, setStatus, setHeader, writeSSE, write, endWith, effect, bind,
    emit, headersSent, freshWorld.
  cbn [log activeRequests app existsb flushes orb yielded thrown].
  rewrite streamLoop_run by assumption.
  cbn [log activeRequests ret]. unfold streamedLog.
  cbn [app sse]. rewrite <- !app_assoc. reflexivity.
Qed.

(** A successful buffered run, from a fresh response object. *)
Lemma anthropicMessages_buffered (env : Env) (req : IncomingMessage)
    (body : AnthropicRequest) (token fullText : string) (n : Z) :
  getBearerOrXApiKey req = Some token ->
  readBody env = inr body ->
  stream body = Some false ->
  runLMFull P env (coreMessagesOf body) (optionsOf req body token) = inr fullText ->
  anthropicMessages P env req (freshWorld n) =
  ({| activeRequests := n;
      log := [ SetStatus 200;
               SetHeader "content-type" "application/json";
               End (Some (messageJsonOf ("msg_" +:+ pretty (now env)) (model body)
                            (fixBoltArtifactFormat fullText))) ] |},
   inr tt).
Proof.
  intros Htok Hbody Hsel Hrun.
  unfold anthropicMessages. rewrite Htok.
  unfold tryCatch, bind at 1. rewrite Hbody. cbn [await ret].
  rewrite Hsel. cbn [default negb]. unfold bind at 1. rewrite Hrun. cbn [await ret].
  reflexivity.
Qed.

Lemma deltaTexts_deltaWrites (fragments : list string) :
  deltaTexts (deltaWrites fragments) = fragments.
Proof.
  induction fragments as [|f fs IH]; [reflexivity|].
  change (deltaWrites (f :: fs))
    with (sse "content_block_delta" (deltaEvent f) ++ deltaWrites fs).
  unfold deltaTexts in *. rewrite omap_app, IH. reflexivity.
Qed.

Lemma deltaTexts_streamedLog (id model : string) (fragments : list string) :
  deltaTexts (streamedLog id model fragments) = fragments.
Proof.
  unfold streamedLog, deltaTexts. rewrite !omap_app.
  fold (deltaTexts (deltaWrites fragments)). rewrite deltaTexts_deltaWrites.
  cbn. by rewrite app_nil_r.
Qed.

End AnthropicRuns.

(** ** The sample platform is faithful *)

Section SampleFacts.
Import JS Json Runtime ChatCompletions Sample.

Lemma stripPrefix_app (p s : string) : stripPrefix p (p +:+ s) = Some s.
Proof.
  induction p as [|c p IH]; [by destruct s|].
  rewrite app_cons. cbn [stripPrefix]. by rewrite Ascii.eqb_refl.
Qed.

Lemma unescape_escape (s tail : string) :
  unescape (escape s +:+ String quote tail) = Some (s, tail).
Proof.
  induction s as [|c s IH].
  - reflexivity.
  - cbn [escape].
    destruct (Ascii.eqb c quote) eqn:Eq.
    { apply Ascii.eqb_eq in Eq as ->. rewrite !app_cons. cbn [unescape].
      change (Ascii.eqb backslash quote) with false.
      change (Ascii.eqb backslash backslash) with true.
      change (Ascii.eqb quote "n") with false. cbv iota. by rewrite IH. }
    destruct (Ascii.eqb c backslash) eqn:Eb.
    { apply Ascii.eqb_eq in Eb as ->. rewrite !app_cons. cbn [unescape].
      change (Ascii.eqb backslash quote) with false.
      change (Ascii.eqb backslash backslash) with true.
      change (Ascii.eqb backslash "n") with false. cbv iota. by rewrite IH. }
    destruct (Ascii.eqb c "010") eqn:El.
    { apply Ascii.eqb_eq in El as ->. rewrite !app_cons. cbn [unescape].
      change (Ascii.eqb backslash quote) with false.
      change (Ascii.eqb backslash backslash) with true.
      change (Ascii.eqb "n" "n") with true. cbv iota. by rewrite IH. }
    rewrite app_cons. cbn [unescape]. by rewrite Eq, Eb, IH.
Qed.

Lemma escape_one_line (s : string) : indexOf "010" (escape s) = None.
Proof.
  induction s as [|c s IH]; [reflexivity|].
  cbn [escape].
  destruct (Ascii.eqb c quote) eqn:Eq; [cbn; by rewrite IH|].
  destruct (Ascii.eqb c backslash) eqn:Eb; [cbn; by rewrite IH|].
  destruct (Ascii.eqb c "010") eqn:El; [cbn; by rewrite IH|].
  cbn [indexOf]. by rewrite El, IH.
Qed.

(** The serialised form of an object with one string under
    [choices[0].<field>.content]. *)
Lemma stringify_choice (field content : string) :
  stringify
    (JObject [("choices", JArray [JObject [(field, JObject [("content", JString content)])]])])
  = choicePrefix field +:+ escape content +:+ String quote "}}]}".
Proof.
  cbn [stringify List.map fst snd]. unfold join, choicePrefix, quoted.
  cbn [String.concat]. rewrite ?app_cons, ?app_nil_l, ?app_assoc'.
  repeat (rewrite ?app_cons, ?app_nil_l, ?app_assoc'; f_equal).
Qed.

Lemma parseChoice_stringify (field : string) (wrap : string -> json) (content : string) :
  parseChoice field wrap (choicePrefix field +:+ escape content +:+ String quote "}}]}")
  = Some (wrap content).
Proof.
  unfold parseChoice. by rewrite stripPrefix_app, unescape_escape.
Qed.

Lemma chop_lossless (n room : nat) (s : string) : join "" (chop n room s) = s.
Proof.
  revert room. induction s as [|c s IH]; intros room; [reflexivity|].
  cbn [chop]. destruct room as [|room'].
  - by rewrite join_empty_cons, IH.
  - specialize (IH room'). destruct (chop n room' s) as [|chunk chunks].
    + change (join "" []) with "" in IH. by rewrite <- IH.
    + rewrite join_empty_cons in *. by rewrite app_cons, IH.
Qed.

Lemma transport_lossless : Lossless transport.
Proof. intros s. apply chop_lossless. Qed.

Lemma platform_faithful : JsonFaithful platform.
Proof.
  split; cbn [JSON_parse JSON_stringify platform].
  - intros f. unfold deltaChunk. rewrite stringify_choice. unfold parse.
    by rewrite parseChoice_stringify.
  - intros t. unfold completion. rewrite stringify_choice. unfold parse.
    rewrite parseChoice_stringify.
    assert (H : parseChoice "delta" deltaChunk
                  (choicePrefix "message" +:+ escape t +:+ String quote "}}]}") = None)
      by reflexivity.
    by rewrite H.
  - intros f. unfold deltaChunk. rewrite stringify_choice.
    rewrite indexOf_app_None by reflexivity.
    rewrite indexOf_app_None by apply escape_one_line.
    reflexivity.
  - intros f. unfold deltaChunk. rewrite stringify_choice.
    exists (String quote "choices" +:+ String quote ":[{" +:+ quoted "delta" +:+ ":{"
            +:+ quoted "content" +:+ ":" +:+ String quote "" +:+ escape f
            +:+ String quote "}}]").
    unfold choicePrefix, quoted.
    repeat (rewrite ?app_cons, ?app_nil_l, ?app_assoc'; f_equal).
Qed.

End SampleFacts.

(** ** Streaming and buffering through the Anthropic adapter *)

Section AnthropicClaims.
Import JS Json Http Runtime Formatter Anthropic ChatCompletions Observe.

Lemma wantsStream_chatRequest (coreMessages : list CoreMessage) (opts : Options)
    (streaming : bool) :
  wantsStream (chatRequest coreMessages opts streaming) = streaming.
Proof. reflexivity. Qed.

Lemma filter_nonEmpty (fs : list string) :
  Forall (fun t => isEmpty t = false) (List.filter (fun f => negb (isEmpty f)) fs).
Proof.
  induction fs as [|f fs IH]; [constructor|].
  cbn [List.filter]. destruct (isEmpty f) eqn:E; cbn [negb]; [exact IH|].
  by constructor.
Qed.

Lemma runLMStream_chat (P : Platform) (transport : string -> list string)
    (fragments : list string) (env : Env) (coreMessages : list CoreMessage)
    (opts : Options) :
  JsonFaithful P -> Lossless transport ->
  fetch env = chatCompletions P transport fragments ->
  runLMStream P env coreMessages opts =
  {| yielded := List.filter (fun f => negb (isEmpty f)) fragments; thrown := None |}.
Proof.
  intros HP Ht Hf. unfold runLMStream. rewrite Hf. unfold chatCompletions.
  rewrite wantsStream_chatRequest. cbn [ok body bodyError].
  rewrite readLoop_streamBody by assumption.
  by destruct (readsToEnd P _ "").
Qed.

Lemma runLMFull_chat (P : Platform) (transport : string -> list string)
    (fragments : list string) (env : Env) (coreMessages : list CoreMessage)
    (opts : Options) :
  JsonFaithful P -> Lossless transport ->
  fetch env = chatCompletions P transport fragments ->
  runLMFull P env coreMessages opts = inr (join "" fragments).
Proof.
  intros HP Ht Hf. unfold runLMFull. rewrite Hf. unfold chatCompletions.
  rewrite wantsStream_chatRequest. cbn [ok negb]. unfold readAll. cbn [body bodyError].
  rewrite Ht, (parse_completion P HP). reflexivity.
Qed.

(** C1: for an Anthropic Messages request that carries a token, and any
    finite sequence of text fragments the chat endpoint delivers over any
    lossless transport, the texts of the streamed [content_block_delta]
    frames, concatenated in order, are the text of the single content block
    of the buffered ([stream: false]) answer to the same request; both are
    the concatenation of the fragments. *)
Theorem streamed_text_equals_buffered_text
    (P : Platform) (transport : string -> list string) (fragments : list string)
    (req : IncomingMessage) (body : AnthropicRequest) (selected : option bool)
    (t n : Z) :
  JsonFaithful P ->
  Lossless transport ->
  getBearerOrXApiKey req <> None ->
  selected <> Some false ->
  let env flag :=
    {| readBody := inr (withStream body flag);
       fetch := chatCompletions P transport fragments;
       now := t |} in
  let streamed := log (fst (anthropicMessages P (env selected) req (freshWorld n))) in
  let buffered := log (fst (anthropicMessages P (env (Some false)) req (freshWorld n))) in
  contentBlockTexts buffered = [join "" (deltaTexts streamed)]
  /\ join "" (deltaTexts streamed) = join "" fragments.
Proof.
  intros HP Ht Htok Hsel env streamed buffered.
  destruct (getBearerOrXApiKey req) as [token|] eqn:Etok; [clear Htok|congruence].
  assert (Hs : streamed =
               streamedLog ("msg_" +:+ pretty t) (model body)
                 (List.filter (fun f => negb (isEmpty f)) fragments)).
  { subst streamed.
    erewrite (anthropicMessages_streamed P (env selected) req (withStream body selected)
                token _ n Etok eq_refl Hsel).
    - reflexivity.
    - by apply (runLMStream_chat P transport fragments).
    - apply filter_nonEmpty. }
  assert (Hb : buffered =
               [ SetStatus 200;
                 SetHeader "content-type" "application/json";
                 End (Some (messageJsonOf ("msg_" +:+ pretty t) (model body)
                              (fixBoltArtifactFormat (join "" fragments)))) ]).
  { subst buffered.
    erewrite (anthropicMessages_buffered P (env (Some false)) req
                (withStream body (Some false)) token _ n Etok eq_refl eq_refl).
    - reflexivity.
    - by apply (runLMFull_chat P transport fragments). }
  rewrite Hs, Hb, deltaTexts_streamedLog, nonEmpty_filter_join.
  split; reflexivity.
Qed.

(** C2, as the code has it: for a request that carries a token and selects
    streaming (the flag absent or true), and whose call to the chat endpoint
    returns a successful response with a body of which no read fails before
    the reader is done (at the end of the body, or at the [data:] line that
    ends the stream), the adapter's whole effect on the response is: status
    200 and the event-stream headers, one
    [message_start], one [content_block_start] with empty text, one
    [content_block_delta] per fragment the stream reader yields, each
    carrying exactly that fragment, none of them empty, then one
    [content_block_stop], one [message_delta] with the stop reason, one
    [message_stop], and the end of the response. *)
Theorem stream_event_sequence
    (P : Platform) (env : Env) (req : IncomingMessage) (body : AnthropicRequest)
    (token : string) (resp : FetchResponse) (chunks : list string) (n : Z) :
  getBearerOrXApiKey req = Some token ->
  readBody env = inr body ->
  stream body <> Some false ->
  fetch env (chatRequest (coreMessagesOf body) (optionsOf req body token) true)
    = inr resp ->
  ok resp = true ->
  Anthropic.body resp = Some chunks ->
  bodyError resp = None \/ readsToEnd P chunks "" = false ->
  let fragments := readLoop P chunks "" in
  Forall (fun f => f <> "") fragments
  /\ anthropicMessages P env req (freshWorld n) =
     ({| activeRequests := n;
         log :=
           [ SetStatus 200;
             SetHeader "content-type" "text/event-stream; charset=utf-8";
             SetHeader "cache-control" "no-cache, no-transform";
             SetHeader "connection" "keep-alive" ]
           ++ sse "message_start"
                (messageStartEvent ("msg_" +:+ pretty (now env)) (model body))
           ++ sse "content_block_start" contentBlockStartEvent
           ++ flat_map (fun f => sse "content_block_delta" (deltaEvent f)) fragments
           ++ sse "content_block_stop" contentBlockStopEvent
           ++ sse "message_delta" messageDeltaEvent
           ++ sse "message_stop" messageStopEvent
           ++ [End None] |},
      inr tt).
Proof.
  intros Htok Hbody Hsel Hfetch Hok Hchunks Hread fragments.
  pose proof (readLoop_nonempty P chunks "") as Hne. fold fragments in Hne.
  split.
  - eapply Forall_impl; [exact Hne|]. intros f Hf ->. discriminate.
  - apply (anthropicMessages_streamed P env req body token fragments n); try assumption.
    unfold runLMStream. rewrite Hfetch, Hok, Hchunks.
    by destruct Hread as [-> | ->]; [destruct (readsToEnd P chunks "")|].
Qed.

End AnthropicClaims.

(** ** The active-request counter *)

Section Counter.
Import JS Json Http Runtime Observe.

Lemma neutral_ret {A} (a : A) : neutral (ret a).
Proof. intros w. exists []. by rewrite app_nil_r. Qed.

Lemma neutral_throw {A} (e : JsError) : neutral (@throw A e).
Proof. intros w. exists []. by rewrite app_nil_r. Qed.

Lemma neutral_await {A} (r : JsError + A) : neutral (await r).
Proof. destruct r; [apply neutral_throw | apply neutral_ret]. Qed.

Lemma neutral_effect (e : Effect) : counterOp e = false -> neutral (effect e).
Proof. intros He w. exists [e]. cbn. by rewrite He. Qed.

Lemma neutral_setHeader (P : Platform) (name value : string) :
  neutral (setHeader P name value).
Proof.
  intros w. unfold setHeader. destruct (headersSent w).
  - exists []. by rewrite app_nil_r.
  - by exists [SetHeader name value].
Qed.

Lemma neutral_bind {A B} (m : M A) (k : A -> M B) :
  neutral m -> (forall a, neutral (k a)) -> neutral (bind m k).
Proof.
  intros Hm Hk w. unfold bind. destruct (Hm w) as (a1 & L1 & F1 & C1).
  destruct (m w) as [w1 [e|a]]; cbn [fst] in *.
  - by exists a1.
  - destruct (Hk a w1) as (a2 & L2 & F2 & C2).
    exists (a1 ++ a2). rewrite L2, L1, C2, C1, forallb_app, F1, F2.
    by rewrite app_assoc.
Qed.

Lemma neutral_tryCatch {A} (m : M A) (h : JsError -> M A) :
  neutral m -> (forall e, neutral (h e)) -> neutral (tryCatch m h).
Proof.
  intros Hm Hh w. unfold tryCatch. destruct (Hm w) as (a1 & L1 & F1 & C1).
  destruct (m w) as [w1 [e|a]]; cbn [fst] in *.
  - destruct (Hh e w1) as (a2 & L2 & F2 & C2).
    exists (a1 ++ a2). rewrite L2, L1, C2, C1, forallb_app, F1, F2.
    by rewrite app_assoc.
  - by exists a1.
Qed.

Lemma neutral_tryFinally {A} (m : M A) (f : M unit) :
  neutral m -> neutral f -> neutral (tryFinally m f).
Proof.
  intros Hm Hf w. unfold tryFinally. destruct (Hm w) as (a1 & L1 & F1 & C1).
  destruct (m w) as [w1 r]; cbn [fst] in *.
  destruct (Hf w1) as (a2 & L2 & F2 & C2).
  exists (a1 ++ a2).
  destruct (f w1) as [w2 [e|u]]; cbn [fst] in *;
    rewrite L2, L1, C2, C1, forallb_app, F1, F2; by rewrite app_assoc.
Qed.

Lemma neutral_streamLoop (chunks : list string) (fullText : string) :
  neutral (Anthropic.streamLoop chunks fullText).
Proof.
  revert fullText. induction chunks as [|c cs IH]; intros fullText.
  - apply neutral_ret.
  - cbn [Anthropic.streamLoop]. destruct (isEmpty c); [apply IH|].
    apply neutral_bind; [|intros; apply IH].
    apply neutral_bind; [|intros]; by apply neutral_effect.
Qed.

(** Solves [neutral m] for a computation built from the combinators. *)
Ltac neutrality :=
  repeat first
    [ apply neutral_ret
    | apply neutral_throw
    | apply neutral_await
    | apply neutral_setHeader
    | apply neutral_streamLoop
    | apply neutral_effect; reflexivity
    | apply neutral_bind; [|intros ?]
    | apply neutral_tryCatch; [|intros ?]
    | apply neutral_tryFinally
    | match goal with
      | |- neutral (match ?x with _ => _ end) => destruct x
      | |- neutral (if ?b then _ else _) => destruct b
      end ].

Lemma neutral_anthropicMessages (P : Platform) (env : Anthropic.Env)
    (req : IncomingMessage) :
  neutral (Anthropic.anthropicMessages P env req).
Proof.
  unfold Anthropic.anthropicMessages, Anthropic.forAwait, Anthropic.writeSSE,
    setStatus, write, endWith.
  neutrality.
Qed.

Lemma neutral_handleGeminiGenerateContent (P : Platform) (env : Gemini.Env)
    (req : IncomingMessage) (modelName : string) :
  neutral (Gemini.handleGeminiGenerateContent P env req modelName).
Proof.
  unfold Gemini.handleGeminiGenerateContent, setStatus, endWith.
  neutrality.
Qed.

Lemma neutral_respond (env : Responses.Env) (body : AiSdk.AiSdkRequest)
    (model : Responses.LMModel) :
  neutral (Responses.respond env body model).
Proof. unfold Responses.respond, Responses.collect. neutrality. Qed.

Lemma countEffect_app (p : Effect -> bool) (w : World) (l : list Effect) :
  countEffect p {| activeRequests := activeRequests w; log := log w ++ l |}
  = (countEffect p w + length (List.filter p l))%nat.
Proof. unfold countEffect. cbn [log]. by rewrite List.filter_app, length_app. Qed.

Lemma no_counterOp_filter (p : Effect -> bool) (l : list Effect) :
  (forall e, p e = true -> counterOp e = true) ->
  forallb (fun e => negb (counterOp e)) l = true ->
  List.filter p l = [].
Proof.
  intros Hp. induction l as [|e l IH]; [reflexivity|]. cbn.
  intros [He Hl]%andb_prop. destruct (p e) eqn:E.
  - apply Hp in E. by rewrite E in He.
  - by apply IH.
Qed.

End Counter.

(** ** The AI-SDK adapter *)

Section ResponsesClaims.
Import JS Json Http Runtime Vscode AiSdk Responses Observe.

Lemma counterOp_modelUnavailable (env : Env) (named : string) :
  counterOp (modelUnavailable env named) = false.
Proof.
  unfold modelUnavailable.
  destruct (negb (isEmpty named) && hasLMApi env); [reflexivity|].
  by destruct (hasLMApi env).
Qed.

Lemma bind_await_inr {A B} (a : A) (k : A -> M B) : bind (await (inr a)) k = k a.
Proof. reflexivity. Qed.

Lemma mapE_map {A B} (f : A -> JsError + B) (g : B -> A) (l : list B) :
  (forall y, f (g y) = inr y) -> mapE f (map g l) = inr l.
Proof.
  intros Hfg. induction l as [|y l IH]; [reflexivity|].
  cbn [map mapE]. by rewrite Hfg, IH.
Qed.

(** A request of the declared type passes the guard and is read back as it
    was. *)
Lemma asPart_partJson (P : Platform) (part : AiSdkContentPart) :
  asPart P (partJson part) = inr part.
Proof. by destruct part. Qed.

Lemma asMessage_messageJson (P : Platform) (msg : AiSdkMessage) :
  asMessage P (messageJson msg) = inr msg.
Proof.
  destruct msg as [r [s|parts]]; [reflexivity|].
  transitivity
    (match mapE (asPart P) (map partJson parts) with
     | inl e => inl e
     | inr parts' => inr {| AiSdk.role := r; AiSdk.content := Parts parts' |}
     end).
  - unfold asMessage, messageJson, contentJson.
    change (prop "content" _) with (Some (JArray (map partJson parts))).
    cbn [asContent AiSdk.role AiSdk.content].
    by destruct (mapE (asPart P) (map partJson parts)).
  - by rewrite (mapE_map _ _ _ (asPart_partJson P)).
Qed.

Lemma isMessage_messageJson (msg : AiSdkMessage) : isMessage (messageJson msg) = true.
Proof. by destruct msg as [r [s|parts]]. Qed.

Lemma isAiSdkRequest_requestJson (request : AiSdkRequest) :
  isAiSdkRequest (requestJson request) = true.
Proof.
  transitivity (forallb isMessage (map messageJson (input request))); [reflexivity|].
  induction (input request) as [|m ms IH]; [reflexivity|].
  cbn [map forallb]. by rewrite isMessage_messageJson.
Qed.

Lemma modelName_requestJson (request : AiSdkRequest) :
  modelName (requestJson request) = model request.
Proof. reflexivity. Qed.

Lemma asRequest_requestJson (P : Platform) (request : AiSdkRequest) :
  asRequest P (requestJson request) = inr request.
Proof.
  destruct request as [mdl inp temp maxTokens strm].
  unfold asRequest.
  change (prop "input" _) with (Some (JArray (map messageJson inp))).
  cbv beta iota. rewrite (mapE_map _ _ _ (asMessage_messageJson P)).
  by destruct temp, maxTokens, strm.
Qed.

Lemma asRequest_model (P : Platform) (raw : json) (body : AiSdkRequest) :
  asRequest P raw = inr body -> model body = modelName raw.
Proof.
  unfold asRequest.
  destruct (match prop "input" (Some raw) with
            | Some (JArray msgs) => mapE (asMessage P) msgs
            | _ => inr []
            end); [discriminate|].
  by intros [= <-].
Qed.

Lemma handleAiSdkResponse_guarded (env : Env) :
  handleAiSdkResponse env = bind incActive (fun _ => tryFinally (guarded env) decActive).
Proof. reflexivity. Qed.

Lemma neutral_guarded (env : Env) : neutral (guarded env).
Proof.
  unfold guarded.
  apply neutral_tryCatch; [|intros e; by apply neutral_effect].
  apply neutral_bind; [apply neutral_await|]. intros body.
  destruct (negb (isAiSdkRequest body)).
  - by apply neutral_effect.
  - apply neutral_bind; [apply neutral_await|]. intros [model|].
    + apply neutral_bind; [apply neutral_await|]. intros request.
      apply neutral_respond.
    + apply neutral_effect, counterOp_modelUnavailable.
Qed.

(** The handler brackets whatever [guarded] does between one increment and
    one decrement. *)
Lemma handleAiSdkResponse_run (env : Env) (w : World) :
  let inner :=
    guarded env {| activeRequests := activeRequests w + 1;
                   log := log w ++ [ActiveRequestsInc] |} in
  handleAiSdkResponse env w =
  ({| activeRequests := activeRequests (fst inner) - 1;
      log := log (fst inner) ++ [ActiveRequestsDec] |},
   snd inner).
Proof.
  intros inner. rewrite handleAiSdkResponse_guarded.
  unfold bind, incActive, tryFinally, decActive. fold inner.
  by destruct inner.
Qed.

Lemma handleAiSdkResponse_bracket (env : Env) (w : World) :
  exists between,
    log (fst (handleAiSdkResponse env w))
      = log w ++ [ActiveRequestsInc] ++ between ++ [ActiveRequestsDec]
    /\ forallb (fun e => negb (counterOp e)) between = true
    /\ activeRequests (fst (handleAiSdkResponse env w)) = activeRequests w.
Proof.
  rewrite handleAiSdkResponse_run. cbv zeta. cbn [fst log activeRequests].
  destruct (neutral_guarded env
              {| activeRequests := activeRequests w + 1;
                 log := log w ++ [ActiveRequestsInc] |}) as (between & L & F & C).
  exists between. rewrite L, C. cbn [log activeRequests].
  split; [by rewrite <- !app_assoc|]. split; [exact F|lia].
Qed.

Ltac run_handler :=
  cbv [guarded respond collect tryCatch tryFinally bind await ret throw effect emit
       fst snd log activeRequests negb internalError].

(** The [try]/[catch] block never throws, and its effects are those of
    [responsesTrace]. *)
Lemma guarded_trace (env : Env) (w : World) :
  guarded env w =
  ({| activeRequests := activeRequests w; log := log w ++ responsesTrace env |}, inr tt).
Proof.
  unfold responsesTrace, guarded.
  destruct (readJson env) as [e|raw]; [reflexivity|].
  rewrite bind_await_inr.
  destruct (isAiSdkRequest raw); cbn [negb]; [|reflexivity].
  destruct (getModel env false (modelName raw)) as [e|[model|]];
    [reflexivity| |reflexivity].
  rewrite bind_await_inr.
  destruct (asRequest (builtins env) raw) as [e|body]; [reflexivity|].
  rewrite bind_await_inr. unfold respond. cbv zeta.
  destruct (sendRequest model (recentMessagesOf env body)) as [e|response].
  { run_handler. by rewrite <- !app_assoc. }
  rewrite bind_await_inr. unfold collect.
  destruct (failure response), (hasDispose response);
    run_handler; by rewrite <- ?app_assoc.
Qed.

Lemma handleAiSdkResponse_trace (env : Env) (w : World) :
  handleAiSdkResponse env w =
  ({| activeRequests := activeRequests w + 1 - 1;
      log := log w ++ [ActiveRequestsInc] ++ responsesTrace env ++ [ActiveRequestsDec] |},
   inr tt).
Proof.
  rewrite handleAiSdkResponse_run. cbv zeta. rewrite guarded_trace.
  cbn [fst snd log activeRequests]. by rewrite <- !app_assoc.
Qed.

Lemma arraySlice_map {A B} (f : A -> B) (start : Z) (l : list A) :
  arraySlice start (map f l) = map f (arraySlice start l).
Proof. unfold arraySlice. by rewrite length_map, fmap_drop. Qed.

(** [Math.ceil(n / 4)] is the least integer whose fourfold reaches [n]. *)
Lemma ceilDiv_4_spec (n : Z) : 4 * (ceilDiv n 4 - 1) < n <= 4 * ceilDiv n 4.
Proof.
  unfold ceilDiv, Qceiling, Qfloor, Qopp. cbn [Qnum Qden].
  pose proof (Z.div_mod (- n) 4 ltac:(lia)) as Hd.
  pose proof (Z.mod_pos_bound (- n) 4 ltac:(lia)) as Hm.
  lia.
Qed.

Lemma ceilDiv_4_nonneg (n : Z) : 0 <= n -> 0 <= ceilDiv n 4.
Proof. intros Hn. pose proof (ceilDiv_4_spec n). lia. Qed.

Lemma ceilDiv_4_zero : ceilDiv 0 4 = 0.
Proof. reflexivity. Qed.

Lemma strlen_nonneg (s : string) : 0 <= strlen s.
Proof. unfold strlen. lia. Qed.

(** The length of a concatenation is the sum of the lengths. *)
Lemma length_join_empty (l : list string) :
  String.length (join "" l) = list_sum (map String.length l).
Proof.
  induction l as [|x l IH]; [reflexivity|].
  rewrite join_empty_cons, string_length_app, IH. reflexivity.
Qed.

Lemma length_contentText (m : LanguageModelChatMessage) :
  String.length (contentText m) = heldChars (Vscode.content m).
Proof.
  unfold contentText, heldChars. destruct (Vscode.content m) as [s|parts|]; try reflexivity.
  rewrite length_join_empty, map_map. f_equal.
  apply map_ext. by intros [s|].
Qed.

Lemma strlen_inputText (recent : list LanguageModelChatMessage) :
  strlen (join "" (map contentText recent))
  = Z.of_nat (list_sum (map (fun m => heldChars (Vscode.content m)) recent)).
Proof.
  unfold strlen. rewrite length_join_empty, map_map. do 2 f_equal.
  apply map_ext, length_contentText.
Qed.

Lemma extractTextContent_wireText (content : AiSdkContent) :
  extractTextContent content = wireText content.
Proof.
  destruct content as [s|parts]; [reflexivity|].
  cbn [extractTextContent wireText].
  induction parts as [|p ps IH]; [reflexivity|].
  cbn [List.filter taggedText]. unfold isTextPart at 1.
  destruct (String.eqb_spec (type p) "input_text") as [Hi|Hi].
  - rewrite (bool_decide_eq_true_2 _ Hi). cbn [orb map].
    by rewrite join_empty_cons, IH.
  - rewrite (bool_decide_eq_false_2 _ Hi). cbn [orb].
    destruct (String.eqb_spec (type p) "output_text") as [Ho|Ho].
    + rewrite (bool_decide_eq_true_2 _ Ho). cbn [map].
      by rewrite join_empty_cons, IH.
    + by rewrite (bool_decide_eq_false_2 _ Ho).
Qed.

Lemma content_convertMessage (C : MessageClass) (msg : AiSdkMessage) :
  Vscode.content (convertMessage C msg)
  = (if bool_decide (AiSdk.role msg = "assistant") then assistantContent C
     else userContent C) (extractTextContent (AiSdk.content msg)).
Proof.
  unfold convertMessage.
  repeat case_bool_decide; try reflexivity; congruence.
Qed.

Lemma list_sum_zero {A} (f : A -> nat) (l : list A) :
  (forall x, f x = 0%nat) -> list_sum (map f l) = 0%nat.
Proof.
  intros Hf. induction l as [|x l IH]; [reflexivity|].
  change (f x + list_sum (map f l) = 0)%nat. by rewrite Hf, IH.
Qed.

(** C9, as the code has it: on a successful AI-SDK responses call, for a
    body that passed the guard and whose messages convert,
    [usage.output_tokens] is [Math.ceil(n / 4)] for [n] the length of the
    generated text (the fragments concatenated, which is the text of the
    response); [usage.input_tokens] is [Math.ceil(n / 4)] for [n] the
    number of characters that the messages sent to the model (the
    conversion of the input messages left by the history window) hold as
    strings; [usage.total_tokens] is their sum, and all three are
    non-negative integers. With a message class that holds the text it is
    given as a string, the characters counted are those of the texts of
    those input messages; with one that holds it in part objects, none is
    counted. *)
Theorem usage_is_ceil_of_quarter_length (env : Env) (raw : json) (body : AiSdkRequest)
    (model : LMModel) (response : LMResponse) (w : World) :
  readJson env = inr raw ->
  isAiSdkRequest raw = true ->
  asRequest (builtins env) raw = inr body ->
  getModel env false (AiSdk.model body) = inr (Some model) ->
  sendRequest model (recentMessagesOf env body) = inr response ->
  failure response = None ->
  let sent := recentMessagesOf env body in
  let inputChars :=
    Z.of_nat (list_sum (map (fun m => heldChars (Vscode.content m)) sent)) in
  let outputText := join "" (fragments response) in
  exists r : AiSdkResponse,
    log (fst (handleAiSdkResponse env w))
    = log w ++ [ActiveRequestsInc]
      ++ (if hasDispose response then [DisposeResponse] else [])
      ++ [WriteJson 200 r; DisposeCancellation; ActiveRequestsDec]
    /\ map out_text (flat_map msg_content (output r)) = [outputText]
    /\ input_tokens (usage r) = ceilDiv inputChars 4
    /\ output_tokens (usage r) = ceilDiv (strlen outputText) 4
    /\ total_tokens (usage r) = input_tokens (usage r) + output_tokens (usage r)
    /\ 4 * (input_tokens (usage r) - 1) < inputChars <= 4 * input_tokens (usage r)
    /\ 4 * (output_tokens (usage r) - 1) < strlen outputText <= 4 * output_tokens (usage r)
    /\ 0 <= input_tokens (usage r)
    /\ 0 <= output_tokens (usage r)
    /\ 0 <= total_tokens (usage r)
    /\ ((forall t, userContent (messageClass env) t = ContentString t) ->
        (forall t, assistantContent (messageClass env) t = ContentString t) ->
        inputChars
        = Z.of_nat (list_sum (map (fun m => String.length (wireText (AiSdk.content m)))
                                  (arraySlice (- historyWindow env * 2) (input body)))))
    /\ ((forall t, heldChars (userContent (messageClass env) t) = 0%nat) ->
        (forall t, heldChars (assistantContent (messageClass env) t) = 0%nat) ->
        input_tokens (usage r) = 0).
Proof.
  intros Hread Hguard Hbody Hmodel Hsend Hok sent inputChars outputText.
  exists (buildResponse env body sent outputText).
  rewrite handleAiSdkResponse_trace. unfold responsesTrace.
  rewrite Hread, Hguard, <- (asRequest_model _ _ _ Hbody), Hmodel, Hbody. cbv zeta.
  rewrite Hsend, Hok. fold sent outputText.
  cbn [fst log buildResponse usage input_tokens output_tokens total_tokens output
       flat_map msg_content map out_text app].
  rewrite strlen_inputText. fold inputChars.
  pose proof (ceilDiv_4_spec inputChars) as Hi.
  pose proof (ceilDiv_4_spec (strlen outputText)) as Ho.
  assert (Hn : 0 <= inputChars) by (subst inputChars; lia).
  pose proof (ceilDiv_4_nonneg _ Hn) as Pi.
  pose proof (ceilDiv_4_nonneg _ (strlen_nonneg outputText)) as Po.
  split; [by rewrite <- !app_assoc|].
  split; [reflexivity|]. split; [reflexivity|]. split; [reflexivity|].
  split; [reflexivity|]. split; [exact Hi|]. split; [exact Ho|].
  split; [exact Pi|]. split; [exact Po|]. split; [lia|].
  split.
  - intros Hu Ha. subst inputChars sent. unfold recentMessagesOf, convertAiSdkMessagesToLM.
    rewrite arraySlice_map, map_map. do 2 f_equal. apply map_ext. intros m.
    rewrite content_convertMessage, <- extractTextContent_wireText.
    case_bool_decide; [by rewrite Ha | by rewrite Hu].
  - intros Hu Ha.
    assert (Hz : inputChars = 0).
    { subst inputChars sent. unfold recentMessagesOf, convertAiSdkMessagesToLM.
      rewrite arraySlice_map, map_map, list_sum_zero; [reflexivity|].
      intros m. rewrite content_convertMessage.
      case_bool_decide; [apply Ha | apply Hu]. }
    by rewrite Hz.
Qed.

(** C4: when model resolution fails on an AI-SDK responses request, the
    adapter answers 404 [model_not_found] if the caller named a model and the
    language-model capability exists, and 503 [copilot_unavailable] with
    reason [missing_language_model_api] if the capability is absent; the
    reason is [copilot_model_unavailable] in the remaining case, no model
    named while the capability exists. Nothing else is written. *)
Theorem model_resolution_failure_is_404_or_503 (env : Env) (body : AiSdkRequest)
    (w : World) :
  readJson env = inr (requestJson body) ->
  getModel env false (AiSdk.model body) = inr None ->
  let written := log (fst (handleAiSdkResponse env w)) in
  (AiSdk.model body <> "" -> hasLMApi env = true ->
   written = log w ++ [ ActiveRequestsInc;
                        WriteErrorResponse 404 "model not found" "invalid_request_error"
                          "model_not_found" (Some "not_found");
                        ActiveRequestsDec ])
  /\ (hasLMApi env = false ->
      written = log w ++ [ ActiveRequestsInc;
                           WriteErrorResponse 503 "Copilot unavailable" "server_error"
                             "copilot_unavailable" (Some "missing_language_model_api");
                           ActiveRequestsDec ])
  /\ (AiSdk.model body = "" -> hasLMApi env = true ->
      written = log w ++ [ ActiveRequestsInc;
                           WriteErrorResponse 503 "Copilot unavailable" "server_error"
                             "copilot_unavailable" (Some "copilot_model_unavailable");
                           ActiveRequestsDec ]).
Proof.
  intros Hread Hmodel written.
  assert (Hw : written = log w ++ [ActiveRequestsInc;
                                   modelUnavailable env (AiSdk.model body);
                                   ActiveRequestsDec]).
  { subst written. rewrite handleAiSdkResponse_trace. unfold responsesTrace.
    by rewrite Hread, isAiSdkRequest_requestJson, modelName_requestJson, Hmodel. }
  rewrite Hw. unfold modelUnavailable.
  repeat split.
  - intros Hnamed ->. destruct (AiSdk.model body); [congruence|reflexivity].
  - intros ->. by rewrite andb_false_r.
  - intros -> ->. reflexivity.
Qed.

End ResponsesClaims.

(** ** Claims about the counter, roles, content parts and the sanitizer *)

Section AdapterClaims.
Import JS Json Http Runtime Observe.

Lemma neutral_counts {A} (m : M A) (w : World) :
  neutral m ->
  countEffect isInc (fst (m w)) = countEffect isInc w
  /\ countEffect isDec (fst (m w)) = countEffect isDec w
  /\ activeRequests (fst (m w)) = activeRequests w.
Proof.
  intros Hm. destruct (Hm w) as (added & L & F & C).
  unfold countEffect. rewrite L, !List.filter_app.
  rewrite (no_counterOp_filter isInc added), (no_counterOp_filter isDec added);
    try assumption.
  - by rewrite !app_nil_r.
  - intros e He. unfold counterOp. by rewrite He, ?orb_true_r.
  - intros e He. unfold counterOp. by rewrite He, ?orb_true_r.
Qed.

(** C3, as the code has it: the AI-SDK adapter increments the
    active-request counter exactly once, first thing, and decrements it
    exactly once, last thing, whatever happens in between (success,
    validation failure, unknown model, thrown exception); the Anthropic and
    Gemini adapters never touch the counter. In all three the counter is
    back at its pre-request value when the handler is done. *)
Theorem active_request_counter_pairing :
  (forall (env : Responses.Env) (w : World),
     let w' := fst (Responses.handleAiSdkResponse env w) in
     (exists between,
        log w' = log w ++ [ActiveRequestsInc] ++ between ++ [ActiveRequestsDec]
        /\ forallb (fun e => negb (counterOp e)) between = true)
     /\ countEffect isInc w' = S (countEffect isInc w)
     /\ countEffect isDec w' = S (countEffect isDec w)
     /\ activeRequests w' = activeRequests w)
  /\ (forall (P : Platform) (env : Anthropic.Env) (req : IncomingMessage) (w : World),
        let w' := fst (Anthropic.anthropicMessages P env req w) in
        countEffect isInc w' = countEffect isInc w
        /\ countEffect isDec w' = countEffect isDec w
        /\ activeRequests w' = activeRequests w)
  /\ (forall (P : Platform) (env : Gemini.Env) (req : IncomingMessage)
             (modelName : string) (w : World),
        let w' := fst (Gemini.handleGeminiGenerateContent P env req modelName w) in
        countEffect isInc w' = countEffect isInc w
        /\ countEffect isDec w' = countEffect isDec w
        /\ activeRequests w' = activeRequests w).
Proof.
  split; [|split].
  - intros env w w'.
    destruct (handleAiSdkResponse_bracket env w) as (between & L & F & C).
    fold w' in L, C. split; [by exists between|].
    unfold countEffect. rewrite L, !List.filter_app.
    rewrite (no_counterOp_filter isInc between), (no_counterOp_filter isDec between);
      try assumption.
    + cbn. rewrite !length_app. cbn. repeat split; [lia|lia|exact C].
    + intros e He. unfold counterOp. by rewrite He, ?orb_true_r.
    + intros e He. unfold counterOp. by rewrite He, ?orb_true_r.
  - intros P env req w w'. apply neutral_counts, neutral_anthropicMessages.
  - intros P env req modelName w w'.
    apply neutral_counts, neutral_handleGeminiGenerateContent.
Qed.

(** C5, as the code has it: the Gemini adapter maps the role [model] to
    [assistant], a missing or empty role to [user], and passes every other
    role through unchanged; the AI-SDK adapter turns [assistant] into an
    assistant message and every other role into a user message; the
    Anthropic adapter keeps [user] and [assistant] messages with their role
    and drops all others. *)
Theorem role_normalization :
  Gemini.convertRole (Some "model") = "assistant"
  /\ Gemini.convertRole None = "user"
  /\ Gemini.convertRole (Some "") = "user"
  /\ (forall r : string, r <> "model" -> r <> "" -> Gemini.convertRole (Some r) = r)
  /\ (forall (C : Vscode.MessageClass) (msg : AiSdk.AiSdkMessage),
        AiSdk.role msg = "assistant" ->
        Vscode.role (Responses.convertMessage C msg) = Vscode.Assistant)
  /\ (forall (C : Vscode.MessageClass) (msg : AiSdk.AiSdkMessage),
        AiSdk.role msg <> "assistant" ->
        Vscode.role (Responses.convertMessage C msg) = Vscode.User)
  /\ (forall (body : Anthropic.AnthropicRequest),
        map Anthropic.core_role (Anthropic.coreMessagesOf body)
        = List.filter (fun r => bool_decide (r = "user") || bool_decide (r = "assistant"))
            (map Anthropic.role (default [] (Anthropic.messages body)))).
Proof.
  repeat split.
  - intros r Hm He. unfold Gemini.convertRole.
    rewrite bool_decide_eq_false_2 by congruence. by destruct r.
  - intros C msg Hr. unfold Responses.convertMessage. rewrite Hr. reflexivity.
  - intros C msg Hr. unfold Responses.convertMessage.
    rewrite (bool_decide_eq_false_2 (AiSdk.role msg = "assistant")) by assumption.
    by repeat case_bool_decide.
  - intros body. unfold Anthropic.coreMessagesOf.
    induction (default [] (Anthropic.messages body)) as [|m ms IH]; [reflexivity|].
    cbn [List.filter map]. unfold Anthropic.isCoreRole at 1.
    destruct (bool_decide (Anthropic.role m = "user")
              || bool_decide (Anthropic.role m = "assistant")); cbn [map];
      by rewrite IH.
Qed.

(** C7, as the code has it: a string payload is taken as it is by the AI-SDK
    and Anthropic adapters; for a list of typed parts the AI-SDK adapter
    concatenates, in list order and with nothing in between, the text of
    the parts tagged [input_text] or [output_text] and drops the others; the
    Gemini adapter joins the non-empty texts of its parts, in list order,
    with a line feed between them. *)
Theorem content_text_extraction :
  (forall s : string, Responses.extractTextContent (AiSdk.Text s) = s)
  /\ (forall s : string, Anthropic.toText (Anthropic.ContentString s) = s)
  /\ Responses.extractTextContent (AiSdk.Parts []) = ""
  /\ (forall (p : AiSdk.AiSdkContentPart) (ps : list AiSdk.AiSdkContentPart),
        AiSdk.type p = "input_text" \/ AiSdk.type p = "output_text" ->
        Responses.extractTextContent (AiSdk.Parts (p :: ps))
        = AiSdk.text p +:+ Responses.extractTextContent (AiSdk.Parts ps))
  /\ (forall (p : AiSdk.AiSdkContentPart) (ps : list AiSdk.AiSdkContentPart),
        AiSdk.type p <> "input_text" -> AiSdk.type p <> "output_text" ->
        Responses.extractTextContent (AiSdk.Parts (p :: ps))
        = Responses.extractTextContent (AiSdk.Parts ps))
  /\ (forall ps : list Gemini.GeminiPart,
        Gemini.convertParts (Some ps)
        = join newline
            (omap (fun p => match Gemini.text p with
                            | Some t => if isEmpty t then None else Some t
                            | None => None
                            end) ps)).
Proof.
  repeat split.
  - intros p ps Hp. cbn [Responses.extractTextContent List.filter].
    assert (Ht : Responses.isTextPart p = true).
    { unfold Responses.isTextPart. destruct Hp as [-> | ->]; reflexivity. }
    rewrite Ht. cbn [map]. by rewrite join_empty_cons.
  - intros p ps H1 H2. cbn [Responses.extractTextContent List.filter].
    assert (Ht : Responses.isTextPart p = false).
    { unfold Responses.isTextPart. by rewrite !bool_decide_eq_false_2. }
    by rewrite Ht.
  - intros ps. unfold Gemini.convertParts. f_equal.
    induction ps as [|[t] ps IH]; [reflexivity|].
    cbn [List.filter omap]. unfold Gemini.hasText at 1. cbn [Gemini.text].
    destruct t as [[|c t]|]; cbn [isEmpty negb map default Gemini.text];
      rewrite IH; reflexivity.
Qed.

(** C8: the output sanitizer is idempotent, and it leaves every text
    unchanged, in particular every text without malformed [boltArtifact] or
    [boltAction] tags. *)
Theorem fixBoltArtifactFormat_idempotent_identity :
  (forall x : string,
     Formatter.fixBoltArtifactFormat (Formatter.fixBoltArtifactFormat x)
     = Formatter.fixBoltArtifactFormat x)
  /\ (forall x : string, Formatter.fixBoltArtifactFormat x = x).
Proof. split; intros x; reflexivity. Qed.

End AdapterClaims.

(** ** Authentication *)

Section AuthClaims.
Import JS Json Http Runtime Auth Observe Sample.

(** C10: the boolean [isAuthorized] returns is a function of the token and of
    the request's [authorization], [x-api-key] and [x-goog-api-key] headers
    alone; in particular the cached token and header do not influence it. *)
Theorem isAuthorized_ignores_cache :
  forall (c1 c2 : Cache) (r1 r2 : IncomingMessage) (token : string),
    authorization r1 = authorization r2 ->
    others r1 !! "x-api-key" = others r2 !! "x-api-key" ->
    others r1 !! "x-goog-api-key" = others r2 !! "x-goog-api-key" ->
    fst (isAuthorized c1 r1 token) = fst (isAuthorized c2 r2 token).
Proof.
  intros c1 c2 r1 r2 token Ha Hk Hg.
  unfold isAuthorized.
  destruct (isEmpty token); [reflexivity|].
  rewrite Ha, Hk, Hg.
  repeat match goal with
         | |- context [if ?b then _ else _] => destruct b; simpl; try reflexivity
         end.
Qed.

(** The same headers on another request, met with another cache. *)
Lemma isAuthorized_ignores_cache_witness :
  fst (isAuthorized emptyCache messagesRequest "secret")
  = fst (isAuthorized {| cachedToken := "other"; cachedAuthHeader := "Bearer other" |}
           {| method := "GET"; url := Some "/v1/models";
              authorization := Some "Bearer secret"; host := None;
              others := {[ "accept" := HString "*/*" ]} |}
           "secret").
Proof. apply isAuthorized_ignores_cache; reflexivity. Defined.

(** C6: a Gemini call whose token comes only in the [key] query parameter
    would be accepted by the adapter's own [getBearerToken], and a bearer
    header wins over the query parameter there; but the authentication
    middleware, which runs first and reads headers only, answers it with
    [writeUnauthorized], so the adapter is never reached. *)
Theorem gemini_key_query_stopped_by_middleware :
  Gemini.getBearerToken geminiEnv geminiKeyRequest = Some "secret"
  /\ Gemini.getBearerToken geminiEnv
       {| method := "POST";
          url := Some "/v1/models/gemini-2.5-pro:generateContent?key=fromquery";
          authorization := Some "Bearer fromheader";
          host := None; others := empty |} = Some "fromheader"
  /\ Server.isGeminiCall geminiKeyRequest = true
  /\ (forall cache : Cache,
        fst (Server.authMiddleware bridgeConfig cache geminiKeyRequest)
        = Some WriteUnauthorized)
  /\ (forall (cache : Cache) (gemini next : M unit) (w : World),
        fst (Server.middlewares bridgeConfig cache geminiKeyRequest gemini next) w
        = effect WriteUnauthorized w).
Proof.
  split; [reflexivity|]. split; [reflexivity|]. split; [reflexivity|].
  split; intros; reflexivity.
Qed.

End AuthClaims.

(** ** The claims at concrete inputs *)

Section Instances.
Import JS Json Http Runtime Anthropic ChatCompletions Observe Sample.

(** The sample answer, streamed and buffered. *)
Lemma streamed_text_equals_buffered_text_witness :
  contentBlockTexts
    (log (fst (anthropicMessages platform (messagesEnv (Some false)) messagesRequest
                 (freshWorld 0))))
  = [join "" (deltaTexts
                (log (fst (anthropicMessages platform (messagesEnv None) messagesRequest
                             (freshWorld 0)))))]
  /\ join "" (deltaTexts
                (log (fst (anthropicMessages platform (messagesEnv None) messagesRequest
                             (freshWorld 0)))))
     = join "" answer.
Proof.
  apply (streamed_text_equals_buffered_text platform transport answer messagesRequest
           (messagesBody None) None 1700000000000 0
           platform_faithful transport_lossless).
  - vm_compute. discriminate.
  - discriminate.
Defined.

(** The sample answer arrives as three non-empty fragments. *)
Lemma stream_event_sequence_witness :
  eventNames
    (log (fst (anthropicMessages platform (messagesEnv None) messagesRequest
                 (freshWorld 0))))
  = [ "message_start"; "content_block_start";
      "content_block_delta"; "content_block_delta"; "content_block_delta";
      "content_block_stop"; "message_delta"; "message_stop" ]
  /\ deltaTexts
       (log (fst (anthropicMessages platform (messagesEnv None) messagesRequest
                    (freshWorld 0))))
     = [ "Hel"; "lo" +:+ newline +:+ "wor"; "ld" +:+ String quote "!" ]
  /\ ended
       (log (fst (anthropicMessages platform (messagesEnv None) messagesRequest
                    (freshWorld 0))))
     = true.
Proof.
  destruct (stream_event_sequence platform (messagesEnv None) messagesRequest
              (messagesBody None) "secret"
              {| ok := true; status := 200;
                 body := Some (transport (streamBody platform answer));
                 bodyError := None |}
              (transport (streamBody platform answer)) 0
              eq_refl eq_refl ltac:(discriminate) eq_refl eq_refl eq_refl
              (or_introl eq_refl))
    as [_ ->].
  vm_compute. repeat split.
Defined.

(** C2 fails as stated: with streaming selected, a request without a token
    is answered 401 and gets no event at all; a request with a token whose
    chat call comes back 503 gets the two opening events and nothing more,
    the handler failing on [setHeader] without ending the response; and so
    does, after the deltas already sent, a request whose stream breaks
    while it is read. *)
Lemma stream_truncated_when_upstream_fails :
  ( eventNames
      (log (fst (anthropicMessages platform (messagesEnv None) anonymousRequest
                   (freshWorld 0)))) = []
    /\ In (SetStatus 401)
         (log (fst (anthropicMessages platform (messagesEnv None) anonymousRequest
                      (freshWorld 0)))) )
  /\ eventNames
       (log (fst (anthropicMessages platform unavailableEnv messagesRequest
                    (freshWorld 0))))
     = [ "message_start"; "content_block_start" ]
  /\ ended
       (log (fst (anthropicMessages platform unavailableEnv messagesRequest
                    (freshWorld 0))))
     = false
  /\ eventNames
       (log (fst (anthropicMessages platform brokenStreamEnv messagesRequest
                    (freshWorld 0))))
     = [ "message_start"; "content_block_start"; "content_block_delta" ]
  /\ ended
       (log (fst (anthropicMessages platform brokenStreamEnv messagesRequest
                    (freshWorld 0))))
     = false.
Proof. vm_compute. repeat split. by left. Qed.

(** C3 fails as stated: an accepted Anthropic request is answered without
    the counter ever being incremented or decremented. *)
Lemma anthropic_request_never_counted :
  countEffect isInc
    (fst (anthropicMessages platform (messagesEnv (Some false)) messagesRequest
            (freshWorld 0))) = 0%nat
  /\ countEffect isDec
       (fst (anthropicMessages platform (messagesEnv (Some false)) messagesRequest
               (freshWorld 0))) = 0%nat
  /\ ended
       (log (fst (anthropicMessages platform (messagesEnv (Some false)) messagesRequest
                    (freshWorld 0)))) = true.
Proof. vm_compute. repeat split. Qed.

(** A named model that does not resolve while the capability exists. *)
Lemma model_resolution_failure_is_404_or_503_witness :
  log (fst (Responses.handleAiSdkResponse (responsesEnv None true) (freshWorld 0)))
  = [ ActiveRequestsInc;
      WriteErrorResponse 404 "model not found" "invalid_request_error"
        "model_not_found" (Some "not_found");
      ActiveRequestsDec ].
Proof.
  apply (proj1 (model_resolution_failure_is_404_or_503 (responsesEnv None true)
                  responsesBody (freshWorld 0) eq_refl eq_refl)).
  - discriminate.
  - reflexivity.
Defined.

(** A body without [model] fails the guard: 400, between the increment and
    the decrement. *)
Example missing_model_is_invalid_payload :
  log (fst (Responses.handleAiSdkResponse
              {| Responses.builtins := platform;
                 Responses.messageClass := textClass;
                 Responses.readJson := inr (JObject [("input", JArray [])]);
                 Responses.getModel := fun _ _ => inr (Some copilot);
                 Responses.hasLMApi := true;
                 Responses.historyWindow := 3;
                 Responses.now := 0;
                 Responses.random1 := "";
                 Responses.random2 := "" |}
              (freshWorld 2)))
  = [ ActiveRequestsInc;
      WriteErrorResponse 400 "invalid request format" "invalid_request_error"
        "invalid_payload" None;
      ActiveRequestsDec ].
Proof. reflexivity. Qed.

(** A model that throws while streaming: both disposals run, the error is
    reported as 500, and the counter is released. *)
Example failing_stream_is_internal_error :
  log (fst (Responses.handleAiSdkResponse
              (responsesEnv
                 (Some {| Responses.family := "gpt-4o";
                          Responses.model_id := "copilot-gpt-4o";
                          Responses.sendRequest := fun _ =>
                            inr {| Responses.fragments := ["Hel"];
                                   Responses.failure :=
                                     Some {| message := "cancelled"; stack := "" |};
                                   Responses.hasDispose := true |} |})
                 true)
              (freshWorld 2)))
  = [ ActiveRequestsInc;
      DisposeResponse;
      DisposeCancellation;
      WriteErrorResponse 500 "cancelled" "server_error" "internal_error" None;
      ActiveRequestsDec ].
Proof. reflexivity. Qed.

(** Eight characters in, twenty-six out: two, seven and nine tokens. *)
Lemma usage_is_ceil_of_quarter_length_witness :
  exists r : AiSdk.AiSdkResponse,
    In (WriteJson 200 r)
       (log (fst (Responses.handleAiSdkResponse (responsesEnv (Some copilot) true)
                    (freshWorld 0))))
    /\ AiSdk.input_tokens (AiSdk.usage r) = 2
    /\ AiSdk.output_tokens (AiSdk.usage r) = 7
    /\ AiSdk.total_tokens (AiSdk.usage r) = 9.
Proof.
  destruct (usage_is_ceil_of_quarter_length (responsesEnv (Some copilot) true)
              (Responses.requestJson responsesBody) responsesBody copilot
              {| Responses.fragments := ["Hello! How can "; "I help you?"];
                 Responses.failure := None;
                 Responses.hasDispose := true |}
              (freshWorld 0) eq_refl eq_refl eq_refl eq_refl eq_refl eq_refl)
    as (r & Hlog & _ & Hi & Ho & Ht & _).
  exists r. split.
  - rewrite Hlog. right. right. by left.
  - rewrite Ht, Hi, Ho. repeat split.
Defined.

(** C9 fails as stated. The input count is taken over the messages sent to
    the model: with a history window of one pair, the first of three
    messages of four characters is not counted (two tokens where the whole
    input text has three). And it is read off the editor's message objects:
    served by an editor whose messages hold their text in part objects, the
    eight characters of the sample input count for no token at all (where
    the claim has two). *)
Lemma input_tokens_miss_input_text :
  ( usages (log (fst (Responses.handleAiSdkResponse narrowEnv (freshWorld 0))))
    = [ {| AiSdk.input_tokens := 2; AiSdk.output_tokens := 7; AiSdk.total_tokens := 9 |} ]
    /\ ceilDiv (Responses.strlen ("aaaa" +:+ "bbbb" +:+ "cccc")) 4 = 3 )
  /\ ( usages (log (fst (Responses.handleAiSdkResponse partsEnv (freshWorld 0))))
       = [ {| AiSdk.input_tokens := 0; AiSdk.output_tokens := 7;
              AiSdk.total_tokens := 7 |} ]
       /\ ceilDiv (Responses.strlen ("hello" +:+ "Hi!")) 4 = 2 ).
Proof. repeat split. Qed.

(** A content part that is [null] passes the guard; the conversion throws
    once the model is resolved, before the cancellation source exists. *)
Example null_part_is_internal_error :
  log (fst (Responses.handleAiSdkResponse nullPartEnv (freshWorld 0)))
  = [ ActiveRequestsInc;
      WriteErrorResponse 500 "Cannot read properties of null (reading 'type')"
        "server_error" "internal_error" None;
      ActiveRequestsDec ].
Proof. reflexivity. Qed.

(** C5 fails as stated: the Gemini adapter hands an unrecognized role on as
    it is, and the Anthropic adapter drops the message that carries one. *)
Lemma gemini_unrecognized_role_kept :
  Gemini.convertRole (Some "tool") = "tool"
  /\ Gemini.convertRole (Some "tool") <> "user"
  /\ coreMessagesOf
       {| model := "m"; system := None;
          messages := Some [ {| role := "tool"; content := ContentString "42" |} ];
          max_tokens := None; temperature := None; stream := None |} = [].
Proof. repeat split. discriminate. Qed.

Lemma role_normalization_witness :
  Gemini.convertRole (Some "function") = "function"
  /\ Vscode.role (Responses.convertMessage textClass
                    {| AiSdk.role := "developer"; AiSdk.content := AiSdk.Text "x" |})
     = Vscode.User.
Proof.
  destruct role_normalization as (_ & _ & _ & Hg & _ & Hu & _).
  split; [apply Hg | apply Hu]; discriminate.
Defined.

(** C7 fails as stated: the Gemini adapter puts a line feed between two
    text parts. *)
Lemma gemini_parts_joined_by_newline :
  Gemini.convertParts (Some [ {| Gemini.text := Some "a" |}; {| Gemini.text := Some "b" |} ])
  = "a" +:+ newline +:+ "b"
  /\ Gemini.convertParts
       (Some [ {| Gemini.text := Some "a" |}; {| Gemini.text := Some "b" |} ])
     <> "a" +:+ "b".
Proof. split; [reflexivity | discriminate]. Qed.

(** The Anthropic adapter reads the first block of a list and no other. *)
Example toText_first_block :
  toText (ContentBlocks [ {| type := "text"; text := "a" |};
                          {| type := "text"; text := "b" |} ]) = "a"
  /\ toText (ContentBlocks [ {| type := "image"; text := "a" |};
                             {| type := "text"; text := "b" |} ]) = "".
Proof. split; reflexivity. Qed.

(** A line cut in two by the transport is read once it is complete. *)
Example readLoop_split_line :
  readLoop platform
    [ "data: " +:+ stringify (deltaChunk "Hel"); newline; newline +:+ "da";
      "ta: [DONE]" +:+ newline ] ""
  = ["Hel"].
Proof. reflexivity. Qed.

Lemma content_text_extraction_witness :
  Responses.extractTextContent
    (AiSdk.Parts [ {| AiSdk.type := "output_text"; AiSdk.text := "Hi" |};
                   {| AiSdk.type := "input_image"; AiSdk.text := "png" |};
                   {| AiSdk.type := "input_text"; AiSdk.text := "!" |} ])
  = "Hi!".
Proof.
  destruct content_text_extraction as (_ & _ & Hnil & Htext & Hskip & _).
  rewrite Htext by (by right).
  rewrite Hskip by discriminate.
  rewrite Htext by (by left).
  rewrite Hnil. reflexivity.
Defined.

End Instances.

(** * Further properties of the code *)

(** ** The stream reader of [runLMStream] *)

Section StreamReader.
Import JS Json Runtime Anthropic ChatCompletions Sample.
Variable P : Platform.

Local Abbreviation LF := ("010"%char) (only parsing).

(** One complete line at the head of the buffer. *)
Lemma drainLines_line (line rest : string) :
  indexOf LF line = None ->
  drainLines P (line +:+ newline +:+ rest) =
  match processLine P (trim line) with
  | Continue => drainLines P rest
  | Return => ([], None)
  | Yield text => (text :: fst (drainLines P rest), snd (drainLines P rest))
  end.
Proof.
  intros Hl.
  change (line +:+ newline +:+ rest) with (line +:+ String LF rest).
  rewrite drainLines_step, (indexOf_app_None _ _ _ Hl).
  cbn [indexOf Ascii.eqb Bool.eqb option_map]. rewrite Nat.add_0_r. cbv zeta.
  by rewrite sliceTo_length_app, sliceFrom_S_length_app.
Qed.

Lemma readLoop_whole (chunks : list string) :
  readLoop P chunks "" = fst (drainLines P (join "" chunks)).
Proof. by rewrite readLoop_join. Qed.

(** X1: what the reader yields depends on the bytes received, not on how the
    network cut them into chunks. *)
Theorem readLoop_chunking_irrelevant (chunks1 chunks2 : list string) :
  join "" chunks1 = join "" chunks2 ->
  readLoop P chunks1 "" = readLoop P chunks2 "".
Proof. intros H. by rewrite !readLoop_whole, H. Qed.

(** X2: a last line that is not closed by a newline when the body ends is
    never processed, whatever it holds. *)
Theorem readLoop_drops_unterminated_tail (chunks : list string) (tail : string) :
  indexOf LF tail = None ->
  readLoop P (chunks ++ [tail]) "" = readLoop P chunks "".
Proof.
  intros Ht. rewrite !readLoop_whole, join_empty_app, join_empty_cons.
  change (join "" []) with "". rewrite app_empty_r, drainLines_app.
  destruct (snd (drainLines P (join "" chunks))) as [rest|] eqn:E; [|reflexivity].
  cbn [fst]. rewrite (drainLines_no_newline P (rest +:+ tail)); [cbn [fst]; apply app_nil_r|].
  rewrite (indexOf_app_None _ _ _ (drainLines_rest P _ _ E)). by rewrite Ht.
Qed.

(** X3: a [data:] line whose payload is empty or is [[DONE]] ends the
    generator: of a body that continues after such a line, only the part
    before it is read. *)
Theorem readLoop_stops_at_sentinel (chunks : list string) (head line rest : string) :
  join "" chunks = head +:+ line +:+ newline +:+ rest ->
  snd (drainLines P head) = Some "" ->
  indexOf LF line = None ->
  startsWith (trim line) "data:" = true ->
  trim (sliceFrom 5 (trim line)) = "" \/ trim (sliceFrom 5 (trim line)) = "[DONE]" ->
  readLoop P chunks "" = readLoop P [head] "".
Proof.
  intros Hj Hh Hl Hd Hp.
  rewrite !readLoop_whole, Hj, join_empty_cons.
  change (join "" []) with "". rewrite app_empty_r, drainLines_app, Hh, app_nil_l.
  rewrite drainLines_line by assumption.
  assert (Hr : processLine P (trim line) = Return).
  { unfold processLine. rewrite Hd. cbn [negb]. by destruct Hp as [-> | ->]. }
  rewrite Hr. cbn [fst]. apply app_nil_r.
Qed.

(** X4: a line that does not start with [data:], or whose payload
    [JSON.parse] rejects, is skipped: the reader yields what it would yield
    had the line not been sent. *)
Theorem readLoop_skips_foreign_lines (chunks : list string) (head line rest : string) :
  join "" chunks = head +:+ line +:+ newline +:+ rest ->
  snd (drainLines P head) = Some "" ->
  indexOf LF line = None ->
  startsWith (trim line) "data:" = false
  \/ (startsWith (trim line) "data:" = true
      /\ trim (sliceFrom 5 (trim line)) <> ""
      /\ trim (sliceFrom 5 (trim line)) <> "[DONE]"
      /\ exists e, JSON_parse P (trim (sliceFrom 5 (trim line))) = inl e) ->
  readLoop P chunks "" = readLoop P [head +:+ rest] "".
Proof.
  intros Hj Hh Hl Hskip.
  rewrite !readLoop_whole, Hj, join_empty_cons.
  change (join "" []) with "". rewrite app_empty_r, !drainLines_app, Hh, !app_nil_l.
  rewrite drainLines_line by assumption.
  assert (Hr : processLine P (trim line) = Continue).
  { unfold processLine. destruct Hskip as [-> | (-> & Hne & Hnd & e & He)]; [reflexivity|].
    cbn [negb]. destruct (trim (sliceFrom 5 (trim line))) eqn:Ep; [congruence|].
    cbn [isEmpty orb]. rewrite bool_decide_eq_false_2 by assumption.
    by rewrite He. }
  by rewrite Hr.
Qed.

End StreamReader.

Section StreamReaderInstances.
Import JS Json Runtime Anthropic ChatCompletions Sample.

(** The same two events, cut after every seven characters and not at all. *)
Lemma readLoop_chunking_irrelevant_witness :
  readLoop platform (transport (streamBody platform ["a"; "b"])) ""
  = readLoop platform [streamBody platform ["a"; "b"]] "".
Proof.
  apply readLoop_chunking_irrelevant.
  rewrite transport_lossless. reflexivity.
Defined.

(** An event without its final newline is lost. *)
Lemma readLoop_drops_unterminated_tail_witness :
  readLoop platform
    [ sseEvent (stringify (deltaChunk "a")) ] ""
  = readLoop platform
      ([ sseEvent (stringify (deltaChunk "a")) ]
       ++ [ "data: " +:+ stringify (deltaChunk "b") ]) "".
Proof.
  symmetry. apply readLoop_drops_unterminated_tail. reflexivity.
Defined.

(** A fragment sent after the sentinel is not read. *)
Lemma readLoop_stops_at_sentinel_witness :
  readLoop platform
    [ sseEvent (stringify (deltaChunk "a")) +:+ "data: [DONE]" +:+ newline
      +:+ sseEvent (stringify (deltaChunk "late")) ] ""
  = readLoop platform [ sseEvent (stringify (deltaChunk "a")) ] "".
Proof.
  apply (readLoop_stops_at_sentinel platform _ (sseEvent (stringify (deltaChunk "a")))
           "data: [DONE]" (sseEvent (stringify (deltaChunk "late")))).
  - reflexivity.
  - reflexivity.
  - reflexivity.
  - reflexivity.
  - right. reflexivity.
Defined.

(** A comment line and a line that is not JSON. *)
Lemma readLoop_skips_foreign_lines_witness :
  readLoop platform
    [ sseEvent (stringify (deltaChunk "a")) +:+ "data: {oops" +:+ newline
      +:+ sseEvent (stringify (deltaChunk "b")) ] ""
  = readLoop platform
      [ sseEvent (stringify (deltaChunk "a")) +:+ sseEvent (stringify (deltaChunk "b")) ] "".
Proof.
  apply (readLoop_skips_foreign_lines platform _ (sseEvent (stringify (deltaChunk "a")))
           "data: {oops" (sseEvent (stringify (deltaChunk "b")))).
  - reflexivity.
  - reflexivity.
  - reflexivity.
  - right. repeat split; try discriminate. by exists syntaxError.
Defined.

End StreamReaderInstances.

(** ** Who gets past authentication *)

Section AuthExtras.
Import JS Json Http Runtime Auth Observe Sample.

Lemma headerMatches_carries (h : option HeaderValue) (token : string) :
  headerMatches h token = true <-> carries h token.
Proof.
  unfold headerMatches, carries, asString. split.
  - destruct h as [[v|vs]|]; try discriminate.
    intros Hv%bool_decide_eq_true. by exists v.
  - intros (v & -> & Hv). by apply bool_decide_eq_true.
Qed.

Lemma isEmpty_true (s : string) : isEmpty s = true <-> s = "".
Proof. by destruct s. Qed.

Lemma isAuthorized_accepts (cache : Cache) (req : IncomingMessage) (token : string) :
  fst (isAuthorized cache req token) = true
  <-> token <> ""
      /\ (bearerCarries (authorization req) token
          \/ carries (others req !! "x-api-key") token
          \/ carries (others req !! "x-goog-api-key") token).
Proof.
  unfold isAuthorized.
  destruct (isEmpty token) eqn:Et.
  { apply isEmpty_true in Et as ->. cbn. split; [discriminate|]. by intros [[] _]. }
  assert (Hne : token <> "") by (intros ->; discriminate).
  set (b := match authorization req with
            | Some auth =>
                startsWith auth "Bearer " && bool_decide (trim (sliceFrom 7 auth) = token)
            | None => false
            end).
  assert (Hb : b = true <-> bearerCarries (authorization req) token).
  { subst b. unfold bearerCarries. destruct (authorization req) as [auth|].
    - rewrite andb_true_iff, bool_decide_eq_true. split.
      + intros [? ?]. by exists auth.
      + by intros (a & [= <-] & ? & ?).
    - split; [discriminate|]. by intros (a & ? & _). }
  pose proof (headerMatches_carries (others req !! "x-api-key") token) as Hk.
  pose proof (headerMatches_carries (others req !! "x-goog-api-key") token) as Hg.
  destruct b; cbn [fst].
  { split; [|done]. intros _. split; [done|]. left. by apply Hb. }
  destruct (headerMatches (others req !! "x-api-key") token); cbn [fst].
  { split; [|done]. intros _. split; [done|]. right. left. by apply Hk. }
  destruct (headerMatches (others req !! "x-goog-api-key") token); cbn [fst].
  { split; [|done]. intros _. split; [done|]. right. right. by apply Hg. }
  split; [discriminate|].
  intros (_ & [H | [H | H]]); [apply Hb in H | apply Hk in H | apply Hg in H];
    discriminate.
Qed.

(** X5: [isAuthorized] answers true exactly when the configured token is not
    empty and one of the [Authorization: Bearer], [x-api-key] and
    [x-goog-api-key] headers carries, once trimmed, that very token. *)
Theorem isAuthorized_true_iff (cache : Cache) (req : IncomingMessage) (token : string) :
  fst (isAuthorized cache req token) = true
  <-> token <> ""
      /\ (bearerCarries (authorization req) token
          \/ carries (others req !! "x-api-key") token
          \/ carries (others req !! "x-goog-api-key") token).
Proof. exact (isAuthorized_accepts cache req token). Qed.

(** X6: the cache stays consistent: after any call it holds the token just
    checked, and its header is the one that belongs to that token. *)
Theorem isAuthorized_keeps_cache_consistent (cache : Cache) (req : IncomingMessage)
    (token : string) :
  cacheConsistent cache ->
  cacheConsistent (snd (isAuthorized cache req token))
  /\ cachedToken (snd (isAuthorized cache req token)) = token.
Proof.
  intros Hc. unfold isAuthorized.
  destruct (isEmpty token) eqn:Et.
  { apply isEmpty_true in Et as ->. by split. }
  assert (H : forall b : bool,
             snd (if b then (true, if bool_decide (token = cachedToken cache) then cache
                                   else {| cachedToken := token;
                                           cachedAuthHeader := "Bearer " +:+ token |})
                  else (false, if bool_decide (token = cachedToken cache) then cache
                               else {| cachedToken := token;
                                       cachedAuthHeader := "Bearer " +:+ token |}))
             = if bool_decide (token = cachedToken cache) then cache
               else {| cachedToken := token; cachedAuthHeader := "Bearer " +:+ token |})
    by (by intros []).
  set (c' := if bool_decide (token = cachedToken cache) then cache
             else {| cachedToken := token; cachedAuthHeader := "Bearer " +:+ token |}).
  assert (Hc' : cacheConsistent c' /\ cachedToken c' = token).
  { subst c'. case_bool_decide as Heq.
    - by split.
    - split; [|reflexivity]. unfold cacheConsistent. cbn. by rewrite Et. }
  repeat match goal with
         | |- context [if ?b then (true, c') else _] => destruct b
         end; exact Hc'.
Qed.

Lemma isAuthorized_keeps_cache_consistent_witness :
  cacheConsistent (snd (isAuthorized emptyCache messagesRequest "secret"))
  /\ cachedToken (snd (isAuthorized emptyCache messagesRequest "secret")) = "secret".
Proof. apply isAuthorized_keeps_cache_consistent. reflexivity. Defined.

(** X7: the authentication middleware lets a request through exactly when
    its URL is [/health], or a token is configured and one of the three
    headers carries it; every other request is answered on the spot. *)
Theorem authMiddleware_passes_iff (config : Server.BridgeConfig) (cache : Cache)
    (req : IncomingMessage) :
  fst (Server.authMiddleware config cache req) = None
  <-> url req = Some "/health"
      \/ (Server.token config <> ""
          /\ (bearerCarries (authorization req) (Server.token config)
              \/ carries (others req !! "x-api-key") (Server.token config)
              \/ carries (others req !! "x-goog-api-key") (Server.token config))).
Proof.
  rewrite <- (isAuthorized_accepts cache req (Server.token config)).
  unfold Server.authMiddleware.
  case_bool_decide as Hpath.
  { cbn [fst]. split; [|done]. intros _.
    destruct (url req) as [u|]; cbn in Hpath; [left; by f_equal|discriminate]. }
  assert (Hnh : url req <> Some "/health") by (intros E; by rewrite E in Hpath).
  destruct (isEmpty (Server.token config)) eqn:Et.
  { cbn [fst]. apply isEmpty_true in Et. split; [discriminate|].
    intros [? | H]; [done|]. unfold isAuthorized in H. by rewrite Et in H. }
  destruct (fst (isAuthorized cache req (Server.token config))) eqn:Ea; cbn [negb fst].
  - split; [by right|done].
  - split; [discriminate|]. by intros [? | ?].
Qed.

(** X8: a request accepted through its [Authorization: Bearer] header hands
    that same token to the Anthropic and Gemini adapters, which forward it
    to the chat endpoint. *)
Theorem bearer_token_reaches_adapters (cache : Cache) (genv : Gemini.Env)
    (req : IncomingMessage) (token : string) :
  token <> "" ->
  bearerCarries (authorization req) token ->
  fst (isAuthorized cache req token) = true
  /\ Anthropic.getBearerOrXApiKey req = Some token
  /\ Gemini.getBearerToken genv req = Some token.
Proof.
  intros Hne Hb. split; [apply isAuthorized_accepts; by split; [|left]|].
  destruct Hb as (auth & Ha & Hs & Ht).
  unfold Anthropic.getBearerOrXApiKey, Gemini.getBearerToken.
  rewrite Ha, Hs, Ht. by destruct token.
Qed.

Lemma bearer_token_reaches_adapters_witness :
  fst (isAuthorized emptyCache messagesRequest "secret") = true
  /\ Anthropic.getBearerOrXApiKey messagesRequest = Some "secret"
  /\ Gemini.getBearerToken geminiEnv messagesRequest = Some "secret".
Proof.
  apply bearer_token_reaches_adapters; [discriminate|].
  exists "Bearer secret". by repeat split.
Defined.

(** X9: a request whose only credential is the [x-goog-api-key] header
    passes [isAuthorized], but the Anthropic adapter, which reads
    [Authorization] and [x-api-key] only, answers it 401. *)
Theorem goog_key_passes_auth_but_not_anthropic (P : Platform) (cache : Cache)
    (env : Anthropic.Env) (req : IncomingMessage) (token : string) (n : Z) :
  token <> "" ->
  authorization req = None ->
  others req !! "x-api-key" = None ->
  carries (others req !! "x-goog-api-key") token ->
  fst (isAuthorized cache req token) = true
  /\ Anthropic.anthropicMessages P env req (freshWorld n) =
     ({| activeRequests := n;
         log := [ SetStatus 401;
                  SetHeader "content-type" "application/json";
                  End (Some (Anthropic.errorJson
                               [ ("message", JString "unauthorized");
                                 ("type", JString "invalid_request_error");
                                 ("code", JString "unauthorized") ])) ] |},
      inr tt).
Proof.
  intros Hne Ha Hk Hg. split.
  - apply isAuthorized_accepts. split; [done|]. by right; right.
  - unfold Anthropic.anthropicMessages, Anthropic.getBearerOrXApiKey.
    rewrite Ha, Hk. reflexivity.
Qed.

Lemma goog_key_passes_auth_but_not_anthropic_witness :
  fst (isAuthorized emptyCache
         {| method := "POST"; url := Some "/v1/messages"; authorization := None;
            host := None; others := {[ "x-goog-api-key" := HString "secret" ]} |}
         "secret") = true
  /\ eventNames
       (log (fst (Anthropic.anthropicMessages platform (messagesEnv None)
                    {| method := "POST"; url := Some "/v1/messages";
                       authorization := None; host := None;
                       others := {[ "x-goog-api-key" := HString "secret" ]} |}
                    (freshWorld 0)))) = [].
Proof.
  destruct (goog_key_passes_auth_but_not_anthropic platform emptyCache (messagesEnv None)
              {| method := "POST"; url := Some "/v1/messages"; authorization := None;
                 host := None; others := {[ "x-goog-api-key" := HString "secret" ]} |}
              "secret" 0 ltac:(discriminate) eq_refl eq_refl
              ltac:(exists "secret"; by split)) as [H1 H2].
  split; [exact H1|]. rewrite H2. reflexivity.
Defined.

End AuthExtras.

(** ** The AI-SDK adapter on every path *)

Section ResponsesExtras.
Import JS Json Http Runtime Vscode AiSdk Responses Observe Sample.

Lemma responsesTrace_one_response (env : Env) :
  length (List.filter isResponse (responsesTrace env)) = 1%nat.
Proof.
  unfold responsesTrace.
  destruct (readJson env) as [e|raw]; [reflexivity|].
  destruct (isAiSdkRequest raw); [|reflexivity].
  destruct (getModel env false _) as [e|[model|]]; [reflexivity| |].
  - destruct (asRequest _ raw) as [e|body]; [reflexivity|]. cbv zeta.
    destruct (sendRequest model _) as [e|response]; [reflexivity|].
    by destruct (failure response), (hasDispose response).
  - unfold modelUnavailable.
    by destruct (negb (isEmpty _) && hasLMApi env), (hasLMApi env).
Qed.

(** X10: the AI-SDK handler never throws and answers exactly once: on
    every path (unreadable body, rejected body, unresolved model, a content
    part the conversion cannot read, a model that throws before or while
    streaming, success) exactly one response is written through [writeJson]
    or [writeErrorResponse]. *)
Theorem handleAiSdkResponse_answers_once (env : Env) (w : World) :
  snd (handleAiSdkResponse env w) = inr tt
  /\ countEffect isResponse (fst (handleAiSdkResponse env w))
     = S (countEffect isResponse w).
Proof.
  rewrite handleAiSdkResponse_trace. split; [reflexivity|].
  unfold countEffect. cbn [fst log].
  rewrite !List.filter_app, !length_app, responsesTrace_one_response. cbn. lia.
Qed.

(** X11: for a body that passed the guard and a model that is resolved,
    what is released depends on the conversion of the input messages, which
    comes first. If it throws (a content part is [null]: the guard does not
    look inside parts), the cancellation source does not exist yet: nothing
    is disposed and the error is answered 500. If it succeeds, the
    cancellation source is disposed exactly once whatever the model does,
    and a response that has a [dispose] method is disposed exactly once,
    before the cancellation source, even when reading it fails. *)
Theorem resolved_model_is_always_released (env : Env) (raw : json) (model : LMModel)
    (w : World) :
  readJson env = inr raw ->
  isAiSdkRequest raw = true ->
  getModel env false (modelName raw) = inr (Some model) ->
  let w' := fst (handleAiSdkResponse env w) in
  (forall e,
     asRequest (builtins env) raw = inl e ->
     log w' = log w ++ [ActiveRequestsInc; internalError e; ActiveRequestsDec])
  /\ (forall body,
        asRequest (builtins env) raw = inr body ->
        countEffect isDisposeCancellation w' = S (countEffect isDisposeCancellation w)
        /\ (forall response,
              sendRequest model (recentMessagesOf env body) = inr response ->
              hasDispose response = true ->
              countEffect isDisposeResponse w' = S (countEffect isDisposeResponse w)
              /\ exists before between after,
                   log w' = before ++ [DisposeResponse] ++ between
                            ++ [DisposeCancellation] ++ after)).
Proof.
  intros Hread Hguard Hmodel w'. subst w'. rewrite handleAiSdkResponse_trace. cbn [fst].
  unfold countEffect, responsesTrace. cbn [log].
  rewrite Hread, Hguard, Hmodel. split.
  { intros e ->. reflexivity. }
  intros body ->. cbv zeta. split.
  - rewrite !List.filter_app, !length_app.
    destruct (sendRequest model _) as [e|response]; [cbn; lia|].
    destruct (failure response), (hasDispose response); cbn; lia.
  - intros response Hsend Hd. rewrite Hsend, Hd. split.
    + rewrite !List.filter_app, !length_app.
      destruct (failure response); cbn; lia.
    + exists (log w ++ [ActiveRequestsInc]).
      destruct (failure response) as [e|].
      * exists [], [internalError e; ActiveRequestsDec]. by rewrite <- !app_assoc.
      * exists [WriteJson 200
                  (buildResponse env body (recentMessagesOf env body)
                     (join "" (fragments response)))], [ActiveRequestsDec].
        by rewrite <- !app_assoc.
Qed.

(** A body with a [null] part releases nothing; the sample body releases
    the cancellation source once. *)
Lemma resolved_model_is_always_released_witness :
  log (fst (handleAiSdkResponse nullPartEnv (freshWorld 0)))
  = [ ActiveRequestsInc;
      internalError (nullError platform "type");
      ActiveRequestsDec ]
  /\ countEffect isDisposeCancellation
       (fst (handleAiSdkResponse (responsesEnv (Some copilot) true) (freshWorld 0)))
     = 1%nat.
Proof.
  split.
  - apply (proj1 (resolved_model_is_always_released nullPartEnv nullPartBody copilot
                    (freshWorld 0) eq_refl eq_refl eq_refl)).
    reflexivity.
  - apply (proj2 (resolved_model_is_always_released (responsesEnv (Some copilot) true)
                    (requestJson responsesBody) copilot (freshWorld 0)
                    eq_refl eq_refl eq_refl) responsesBody).
    reflexivity.
Defined.

(** X12: a body whose [model] is not a string, or whose [input] is not an
    array, is answered 400 [invalid_payload]; no model is looked up. *)
Theorem malformed_body_is_invalid_payload (env : Env) (raw : json) (w : World) :
  readJson env = inr raw ->
  (forall s, prop "model" (Some raw) <> Some (JString s))
  \/ (forall msgs, prop "input" (Some raw) <> Some (JArray msgs)) ->
  log (fst (handleAiSdkResponse env w))
  = log w ++ [ ActiveRequestsInc;
               WriteErrorResponse 400 "invalid request format" "invalid_request_error"
                 "invalid_payload" None;
               ActiveRequestsDec ].
Proof.
  intros Hread Hbad. rewrite handleAiSdkResponse_trace. cbn [fst log].
  unfold responsesTrace. rewrite Hread.
  assert (Hg : isAiSdkRequest raw = false).
  { unfold isAiSdkRequest. destruct Hbad as [Hm | Hi].
    - destruct (prop "model" (Some raw)) as [[]|]; rewrite ?andb_false_r; try done.
      by destruct (Hm s).
    - destruct (prop "input" (Some raw)) as [[]|]; rewrite ?andb_false_r; try done.
      by destruct (Hi items). }
  by rewrite Hg.
Qed.

Lemma malformed_body_is_invalid_payload_witness :
  log (fst (handleAiSdkResponse
              {| builtins := platform; messageClass := textClass;
                 readJson := inr (JObject [("model", JInt 4); ("input", JArray [])]);
                 getModel := fun _ _ => inr (Some copilot);
                 hasLMApi := true; historyWindow := 3; now := 0;
                 random1 := ""; random2 := "" |}
              (freshWorld 0)))
  = [ ActiveRequestsInc;
      WriteErrorResponse 400 "invalid request format" "invalid_request_error"
        "invalid_payload" None;
      ActiveRequestsDec ].
Proof.
  apply (malformed_body_is_invalid_payload
           {| builtins := platform; messageClass := textClass;
                 readJson := inr (JObject [("model", JInt 4); ("input", JArray [])]);
              getModel := fun _ _ => inr (Some copilot);
              hasLMApi := true; historyWindow := 3; now := 0;
              random1 := ""; random2 := "" |}
           (JObject [("model", JInt 4); ("input", JArray [])])
           (freshWorld 0) eq_refl).
  left. intros s. discriminate.
Defined.

End ResponsesExtras.

(** ** The history window and the [/v1/responses] route *)

Section WindowAndRoute.
Import JS Json Http Runtime Vscode AiSdk Responses Server Observe Sample.

(** X13: with a positive history window [h] the model is sent the
    conversion of the last [2 * h] input messages, in order (all of them
    when there are fewer), never an older message in place of a newer
    one. *)
Theorem history_window_keeps_last_messages (env : Env) (body : AiSdkRequest) :
  0 < historyWindow env ->
  recentMessagesOf env body
  = convertAiSdkMessagesToLM (messageClass env)
      (drop (length (input body) - Z.to_nat (2 * historyWindow env)) (input body))
  /\ Z.of_nat (length (recentMessagesOf env body))
     = Z.min (2 * historyWindow env) (Z.of_nat (length (input body))).
Proof.
  intros Hpos. unfold recentMessagesOf, convertAiSdkMessagesToLM.
  rewrite arraySlice_map. unfold arraySlice. cbv zeta.
  destruct (Z.ltb_spec (- historyWindow env * 2) 0) as [_|]; [|lia].
  replace (Z.to_nat (Z.max (Z.of_nat (length (input body)) + - historyWindow env * 2) 0))
    with (length (input body) - Z.to_nat (2 * historyWindow env))%nat by lia.
  split; [reflexivity|].
  rewrite List.length_map, length_drop. lia.
Qed.

Lemma history_window_keeps_last_messages_witness :
  recentMessagesOf (responsesEnv (Some copilot) true) responsesBody
  = convertAiSdkMessagesToLM textClass
      (drop (length (input responsesBody)
             - Z.to_nat (2 * historyWindow (responsesEnv (Some copilot) true)))
         (input responsesBody))
  /\ Z.of_nat (length (recentMessagesOf (responsesEnv (Some copilot) true) responsesBody))
     = Z.min (2 * historyWindow (responsesEnv (Some copilot) true))
         (Z.of_nat (length (input responsesBody))).
Proof.
  apply (history_window_keeps_last_messages (responsesEnv (Some copilot) true) responsesBody).
  reflexivity.
Defined.

(** X14: a history window of zero does not empty the conversation:
    [slice(-0)] is [slice(0)], so every input message is sent to the
    model. *)
Theorem zero_history_window_sends_everything (env : Env) (body : AiSdkRequest) :
  historyWindow env = 0 ->
  recentMessagesOf env body = convertAiSdkMessagesToLM (messageClass env) (input body).
Proof.
  intros Hzero. unfold recentMessagesOf, arraySlice. rewrite Hzero.
  cbn [Z.opp Z.mul Z.ltb Z.compare]. cbv zeta.
  by rewrite Z.min_l by lia.
Qed.

Lemma zero_history_window_sends_everything_witness :
  recentMessagesOf
    {| builtins := platform; messageClass := textClass;
       readJson := inr (requestJson responsesBody);
       getModel := fun _ _ => inr (Some copilot);
       hasLMApi := true; historyWindow := 0; now := 0; random1 := ""; random2 := "" |}
    responsesBody
  = convertAiSdkMessagesToLM textClass (input responsesBody).
Proof.
  apply (zero_history_window_sends_everything
           {| builtins := platform; messageClass := textClass;
       readJson := inr (requestJson responsesBody);
              getModel := fun _ _ => inr (Some copilot);
              hasLMApi := true; historyWindow := 0; now := 0;
              random1 := ""; random2 := "" |}
           responsesBody eq_refl).
Defined.

Lemma responsesTrace_no_increment (env : Env) :
  List.filter isInc (responsesTrace env) = [].
Proof.
  unfold responsesTrace.
  destruct (readJson env) as [e|raw]; [reflexivity|].
  destruct (isAiSdkRequest raw); [|reflexivity].
  destruct (getModel env false _) as [e|[model|]]; [reflexivity| |].
  - destruct (asRequest _ raw) as [e|body]; [reflexivity|]. cbv zeta.
    destruct (sendRequest model _) as [e|response]; [reflexivity|].
    by destruct (failure response), (hasDispose response).
  - unfold modelUnavailable.
    by destruct (negb (isEmpty _) && hasLMApi env), (hasLMApi env).
Qed.

(** X15: the [/v1/responses] route never throws and leaves the counter as
    it found it. A request that arrives when the counter has reached
    [maxConcurrent] gets the rate-limit response and nothing else (the
    adapter is not entered, the counter not touched); any other request is
    the adapter's run alone (the route's own [catch] never fires), and at
    no point of that run does the counter exceed [maxConcurrent]. *)
Theorem responsesRoute_respects_limit (config : BridgeConfig) (env : Env) (w : World) :
  let r := responsesRoute config env w in
  snd r = inr tt
  /\ activeRequests (fst r) = activeRequests w
  /\ (maxConcurrent config <= activeRequests w ->
      log (fst r) = log w ++ [WriteRateLimit])
  /\ (activeRequests w < maxConcurrent config ->
      r = handleAiSdkResponse env w
      /\ forall done rest,
           log (fst r) = log w ++ done ++ rest ->
           counterAfter (activeRequests w) done <= maxConcurrent config).
Proof.
  unfold responsesRoute.
  destruct (Z.leb_spec (maxConcurrent config) (activeRequests w)) as [Hfull|Hfree].
  - cbn. repeat split; try reflexivity; intros; lia.
  - unfold tryCatch. rewrite handleAiSdkResponse_trace. cbn [fst snd activeRequests log].
    split; [reflexivity|]. split; [lia|]. split; [intros; lia|].
    intros _. split; [reflexivity|].
    intros done rest Hlog. apply app_inv_head in Hlog.
    assert (Hinc : (length (List.filter isInc done) <= 1)%nat).
    { transitivity (length (List.filter isInc (done ++ rest))).
      - rewrite List.filter_app, length_app. lia.
      - rewrite <- Hlog. rewrite !List.filter_app, responsesTrace_no_increment. cbn. lia. }
    unfold counterAfter. lia.
Qed.

End WindowAndRoute.

(** ** The Anthropic adapter's answers *)

Section AnthropicExtras.
Import JS Json Http Runtime Formatter Anthropic Observe.
Variable P : Platform.

Ltac run_anthropic :=
  unfold bind, setStatus, setHeader, writeSSE, write, endWith, effect, emit,
    headersSent, freshWorld, await, ret, throw;
  cbn [log activeRequests app existsb flushes orb].

(** X16: from a fresh response object, a request without a token, with an
    unreadable body, or with [stream: false] is answered by exactly one JSON
    response (status, [content-type: application/json], body) and the
    handler does not throw. The status is 401 exactly when no token is
    carried (whatever the body), 200 exactly when the body was read and the
    chat endpoint delivered a text, and 500 otherwise. *)
Theorem anthropic_json_answer (env : Env) (req : IncomingMessage) (n : Z) :
  getBearerOrXApiKey req = None
  \/ (exists e, readBody env = inl e)
  \/ (exists body, readBody env = inr body /\ stream body = Some false) ->
  exists status payload,
    anthropicMessages P env req (freshWorld n)
    = ({| activeRequests := n;
          log := [ SetStatus status;
                   SetHeader "content-type" "application/json";
                   End (Some payload) ] |}, inr tt)
    /\ (status = 401 \/ status = 200 \/ status = 500)
    /\ (status = 401 <-> getBearerOrXApiKey req = None)
    /\ (status = 200 <->
        exists token body text,
          getBearerOrXApiKey req = Some token /\ readBody env = inr body
          /\ runLMFull P env (coreMessagesOf body) (optionsOf req body token) = inr text).
Proof.
  intros Hcase. unfold anthropicMessages.
  destruct (getBearerOrXApiKey req) as [token|] eqn:Htok.
  - destruct Hcase as [Hnone | Hcase]; [discriminate|].
    destruct (readBody env) as [e|body] eqn:Hbody.
    + exists 500. eexists. split; [reflexivity|].
      split; [by right; right|]. split; [by split|].
      split; [discriminate|]. by intros (t & b & x & _ & Hb & _).
    + assert (Hs : stream body = Some false).
      { destruct Hcase as [[e He] | (b & Hb & Hs)]; [discriminate|]. congruence. }
      unfold tryCatch, bind at 1. cbn [await ret]. rewrite Hs. cbn [default negb].
      unfold bind at 1.
      destruct (runLMFull P env (coreMessagesOf body) (optionsOf req body token))
        as [e|text] eqn:Hrun; cbn [await].
      * exists 500. eexists. split; [reflexivity|].
        split; [by right; right|]. split; [by split|].
        split; [discriminate|]. intros (t & b & x & Ht & Hb & Hx).
        injection Ht as <-. injection Hb as <-. congruence.
      * exists 200. eexists. split; [reflexivity|].
        split; [by right; left|]. split; [by split|].
        split; [|reflexivity]. intros _. by exists token, body, text.
  - exists 401. eexists. split; [reflexivity|].
    split; [by left|]. split; [by split|].
    split; [discriminate|]. by intros (t & b & x & Ht & _).
Qed.

Lemma runLMStream_nonempty (env : Env) (coreMessages : list CoreMessage)
    (opts : Options) :
  Forall (fun t => isEmpty t = false) (yielded (runLMStream P env coreMessages opts)).
Proof.
  unfold runLMStream. destruct (fetch env _) as [e|resp]; [constructor|].
  destruct (ok resp), (body resp); cbn [yielded]; try constructor.
  apply readLoop_nonempty.
Qed.

(** X17: when streaming is selected and the stream fails (the call to the
    chat endpoint is rejected, or comes back with an error status or
    without a body, before anything is yielded; or a read of the body
    rejects after some fragments were yielded), the client is not told. The
    stream headers, the [message_start] and [content_block_start] events
    and the deltas of the fragments yielded so far are already written, so
    the [catch] block sets the status and then [setHeader] throws: no error
    body and no closing event is written, the response is never ended, and
    the handler itself throws. *)
Theorem anthropic_stream_failure_leaves_response_open (env : Env) (req : IncomingMessage)
    (body : AnthropicRequest) (token : string) (e : JsError) (n : Z) :
  getBearerOrXApiKey req = Some token ->
  readBody env = inr body ->
  stream body <> Some false ->
  thrown (runLMStream P env (coreMessagesOf body) (optionsOf req body token)) = Some e ->
  anthropicMessages P env req (freshWorld n)
  = ({| activeRequests := n;
        log := [ SetStatus 200;
                 SetHeader "content-type" "text/event-stream; charset=utf-8";
                 SetHeader "cache-control" "no-cache, no-transform";
                 SetHeader "connection" "keep-alive" ]
               ++ sse "message_start"
                    (messageStartEvent ("msg_" +:+ pretty (now env)) (model body))
               ++ sse "content_block_start" contentBlockStartEvent
               ++ deltaWrites
                    (yielded (runLMStream P env (coreMessagesOf body)
                                (optionsOf req body token)))
               ++ [ SetStatus 500 ] |},
     inl (headersSentError P)).
Proof.
  intros Htok Hbody Hsel Hrun.
  pose proof (runLMStream_nonempty env (coreMessagesOf body) (optionsOf req body token))
    as Hne.
  unfold anthropicMessages. rewrite Htok.
  unfold tryCatch, bind at 1. rewrite Hbody. cbn [await ret].
  assert (Hs : default true (stream body) = true).
  { destruct (stream body) as [[]|]; [reflexivity|congruence|reflexivity]. }
  rewrite Hs. cbn [negb].
  destruct (runLMStream P env (coreMessagesOf body) (optionsOf req body token))
    as [fragments failure].
  cbn [yielded thrown] in *. subst failure.
  unfold forAwait. run_anthropic. unfold bind.
  cbn [log activeRequests app existsb flushes orb yielded thrown].
  rewrite streamLoop_run by assumption.
  cbn [log activeRequests]. rewrite existsb_app. cbn [existsb flushes orb app sse].
  reflexivity.
Qed.

End AnthropicExtras.

Section AnthropicExtrasInstances.
Import JS Json Http Runtime Formatter Anthropic Observe Sample.

Lemma anthropic_json_answer_witness :
  exists status payload,
    anthropicMessages platform (messagesEnv None) anonymousRequest (freshWorld 0)
    = ({| activeRequests := 0;
          log := [ SetStatus status;
                   SetHeader "content-type" "application/json";
                   End (Some payload) ] |}, inr tt)
    /\ (status = 401 \/ status = 200 \/ status = 500).
Proof.
  destruct (anthropic_json_answer platform (messagesEnv None) anonymousRequest 0
              (or_introl eq_refl))
    as (status & payload & Hrun & Hstatus & _).
  exists status, payload. split; assumption.
Defined.

Lemma anthropic_stream_failure_leaves_response_open_witness :
  snd (anthropicMessages platform unavailableEnv messagesRequest (freshWorld 0))
  = inl (headersSentError platform).
Proof.
  rewrite (anthropic_stream_failure_leaves_response_open platform unavailableEnv
             messagesRequest (messagesBody None) "secret"
             (upstreamError platform
                {| ok := false; status := 503; body := Some ["Copilot unavailable"];
                   bodyError := None |}
                "stream failed: ") 0);
    [reflexivity | reflexivity | reflexivity | discriminate | reflexivity].
Defined.

End AnthropicExtrasInstances.

(** ** The Gemini adapter and its middleware *)

Section GeminiExtras.
Import JS Json Http Runtime Gemini Server Observe.
Variable P : Platform.

Lemma mapE_map_inr {A B C} (f : A -> JsError + C) (g : B -> A) (h : B -> C)
    (l : list B) :
  (forall x, f (g x) = inr (h x)) -> mapE f (map g l) = inr (map h l).
Proof.
  intros Hfg. induction l as [|x l IH]; [reflexivity|].
  cbn [map mapE]. by rewrite Hfg, IH.
Qed.

(** On a request of the declared type the conversion that runs is the
    conversion at that type. *)
Lemma roleOf_typed (r : option string) :
  roleOf (JString <$> r) = JString (convertRole r).
Proof.
  destruct r as [r|]; [|reflexivity]. cbn [fmap option_fmap option_map roleOf].
  unfold convertRole. destruct (decide (r = "model")) as [->|Hr]; [reflexivity|].
  rewrite !bool_decide_eq_false_2 by congruence. by destruct r.
Qed.

Lemma textsOf_typed (ps : list GeminiPart) :
  textsOf P (map partJson ps)
  = inr (map (fun p => JString (default "" (text p))) (List.filter hasText ps)).
Proof.
  induction ps as [|[t] ps IH]; [reflexivity|].
  cbn [map textsOf]. rewrite IH. by destruct t as [[|c t]|].
Qed.

Lemma textOf_typed (parts : option (list GeminiPart)) :
  textOf P ((fun ps => JArray (map partJson ps)) <$> parts) = inr (convertParts parts).
Proof.
  destruct parts as [ps|]; [|reflexivity].
  cbn [fmap option_fmap option_map textOf convertParts].
  by rewrite textsOf_typed, map_map.
Qed.

Lemma convertEntry_typed (c : GeminiContent) :
  convertEntry P (contentJson c) = inr (messageJson (convertContent c)).
Proof.
  destruct c as [r ps]. unfold convertEntry.
  assert (Hr : get P "role" (contentJson {| role := r; parts := ps |})
               = inr (JString <$> r)) by (by destruct r, ps).
  assert (Hp : prop "parts" (Some (contentJson {| role := r; parts := ps |}))
               = (fun ps => JArray (map partJson ps)) <$> ps) by (by destruct r, ps).
  by rewrite Hr, Hp, textOf_typed, roleOf_typed.
Qed.

Lemma convertRequest_typed (r : GeminiRequest) (modelName : string) :
  convertRequest P (requestJson r) modelName = inr (openaiRequestOf r modelName).
Proof.
  destruct r as [cs cfg]. unfold convertRequest, openaiRequestOf.
  assert (Hm : messagesOf P (requestJson {| contents := cs; generationConfig := cfg |})
               = inr (map messageJson
                        (convertContents {| contents := cs; generationConfig := cfg |}))).
  { unfold messagesOf, convertContents. cbn [contents].
    destruct cs as [cs|]; [|by destruct cfg].
    transitivity (mapE (convertEntry P) (map contentJson cs)); [by destruct cfg|].
    rewrite (mapE_map_inr _ _ _ _ convertEntry_typed). by rewrite map_map. }
  rewrite Hm. cbn [generationConfig].
  destruct cfg as [[temp maxTokens top_p top_k]|]; [|by destruct cs].
  by destruct cs, temp, maxTokens, top_p, top_k.
Qed.

(** The adapter either answers and returns, or throws with nothing
    written. *)
Lemma gemini_run (env : Env) (req : IncomingMessage) (modelName : string) (n : Z) :
  (exists answer,
     handleGeminiGenerateContent P env req modelName (freshWorld n)
     = ({| activeRequests := n; log := answer |}, inr tt))
  \/ (exists e,
        handleGeminiGenerateContent P env req modelName (freshWorld n)
        = (freshWorld n, inl e)).
Proof.
  unfold handleGeminiGenerateContent.
  destruct (getBearerToken env req) as [token|]; [|left; eexists; reflexivity].
  destruct (readJson env) as [e|geminiReq]; [left; eexists; reflexivity|].
  unfold bind at 1.
  destruct (convertRequest P geminiReq modelName) as [e|request]; cbn [await throw ret];
    [right; by exists e|]. left.
  unfold tryCatch, bind at 1.
  destruct (fetch env _) as [e|resp]; cbn [await ret]; [eexists; reflexivity|].
  destruct (ok resp); cbn [negb]; [|eexists; reflexivity].
  unfold bind at 1. destruct (body resp) as [e|txt]; cbn [await ret];
    [eexists; reflexivity|].
  unfold bind at 1. destruct (JSON_parse P txt) as [e|j]; cbn [await ret];
    [eexists; reflexivity|].
  unfold bind at 1. destruct (geminiResponseOf P j) as [e|g]; cbn [await ret];
    eexists; reflexivity.
Qed.

(** X18: from a fresh response object the Gemini adapter answers exactly
    once and returns, unless converting the body throws. The body is only
    cast to its type, and the conversion runs before the [try]: when it
    throws (a [null] body, [contents] or [parts] that is neither missing,
    [null] nor an array, a [null] entry or part), the adapter throws that
    error with nothing written. Otherwise the answer is a status, a JSON
    content type and a body, or the 400 [parse_error] response: the status
    is 401 exactly when no token is found, 400 exactly when a token is found
    and the body cannot be read, and 200 only when the chat endpoint
    answered successfully with a body that was read, parsed and converted;
    every other failure, an upstream 401 included, is answered 500. *)
Theorem gemini_answers_once (env : Env) (req : IncomingMessage) (modelName : string)
    (n : Z) :
  let run := handleGeminiGenerateContent P env req modelName (freshWorld n) in
  (forall token geminiReq e,
     getBearerToken env req = Some token ->
     readJson env = inr geminiReq ->
     convertRequest P geminiReq modelName = inl e ->
     run = (freshWorld n, inl e))
  /\ (getBearerToken env req = None
      \/ (exists e, readJson env = inl e)
      \/ (exists geminiReq request,
            readJson env = inr geminiReq
            /\ convertRequest P geminiReq modelName = inr request) ->
      exists status answer,
        run = ({| activeRequests := n; log := answer |}, inr tt)
        /\ ((exists payload,
               answer = [ SetStatus status;
                          SetHeader "content-type" "application/json";
                          End (Some payload) ]
               /\ (status = 401 \/ status = 200 \/ status = 500))
            \/ (answer = [ WriteErrorResponse 400 "Invalid JSON" "invalid_request_error"
                             "parse_error" None ]
                /\ status = 400))
        /\ (status = 401 <-> getBearerToken env req = None)
        /\ (status = 400 <->
            getBearerToken env req <> None /\ exists e, readJson env = inl e)
        /\ (status = 200 ->
            exists token geminiReq request resp txt openaiResponse geminiResponse,
              getBearerToken env req = Some token
              /\ readJson env = inr geminiReq
              /\ convertRequest P geminiReq modelName = inr request
              /\ fetch env
                   {| fetch_url := getOrigin req +:+ "/v1/chat/completions";
                      fetch_method := "POST";
                      fetch_headers := [ ("content-type", "application/json");
                                         ("authorization", "Bearer " +:+ token) ];
                      fetch_body := request |} = inr resp
              /\ ok resp = true
              /\ body resp = inr txt
              /\ JSON_parse P txt = inr openaiResponse
              /\ geminiResponseOf P openaiResponse = inr geminiResponse)).
Proof.
  intros run. subst run. unfold handleGeminiGenerateContent. split.
  { intros token geminiReq e -> -> Hc. unfold bind. by rewrite Hc. }
  intros Hcase.
  destruct (getBearerToken env req) as [token|].
  2:{ exists 401. eexists. split; [reflexivity|].
      split; [left; eexists; split; [reflexivity|by left]|].
      split; [by split|]. split; [|discriminate].
      split; [discriminate|]. by intros [? _]. }
  destruct Hcase as [Hnone | Hcase]; [discriminate|].
  destruct (readJson env) as [e|geminiReq].
  { exists 400. eexists. split; [reflexivity|]. split; [by right|].
    split; [by split|]. split; [|discriminate].
    split; [|reflexivity]. intros _. split; [discriminate|]. by exists e. }
  destruct Hcase as [[e He] | (raw & request & [= <-] & Hc)]; [discriminate|].
  unfold bind at 1. rewrite Hc. cbn [await ret].
  unfold tryCatch, bind at 1.
  destruct (fetch env _) as [e|resp] eqn:Hfetch; cbn [await ret].
  { exists 500. eexists. split; [reflexivity|].
    split; [left; eexists; split; [reflexivity|by right; right]|].
    split; [by split|]. split; [|discriminate].
    split; [discriminate|]. by intros (_ & ? & ?). }
  destruct (ok resp) eqn:Hok; cbn [negb].
  2:{ exists 500. eexists. split; [reflexivity|].
      split; [left; eexists; split; [reflexivity|by right; right]|].
      split; [by split|]. split; [|discriminate].
      split; [discriminate|]. by intros (_ & ? & ?). }
  unfold bind at 1. destruct (body resp) as [e|txt] eqn:Htxt; cbn [await ret].
  { exists 500. eexists. split; [reflexivity|].
    split; [left; eexists; split; [reflexivity|by right; right]|].
    split; [by split|]. split; [|discriminate].
    split; [discriminate|]. by intros (_ & ? & ?). }
  unfold bind at 1. destruct (JSON_parse P txt) as [e|j] eqn:Hparse; cbn [await ret].
  { exists 500. eexists. split; [reflexivity|].
    split; [left; eexists; split; [reflexivity|by right; right]|].
    split; [by split|]. split; [|discriminate].
    split; [discriminate|]. by intros (_ & ? & ?). }
  unfold bind at 1. destruct (geminiResponseOf P j) as [e|g] eqn:Hg; cbn [await ret].
  { exists 500. eexists. split; [reflexivity|].
    split; [left; eexists; split; [reflexivity|by right; right]|].
    split; [by split|]. split; [|discriminate].
    split; [discriminate|]. by intros (_ & ? & ?). }
  exists 200. eexists. split; [reflexivity|].
  split; [left; eexists; split; [reflexivity|by right; left]|].
  split; [by split|]. split; [split; [discriminate|by intros (_ & ? & ?)]|].
  intros _. by exists token, geminiReq, request, resp, txt, j, g.
Qed.

(** X19: a Gemini call that passed the authentication middleware is
    answered exactly once, and the chain does not throw and never calls
    [next()]. At or above [maxConcurrent] the answer is the rate-limit
    response and the adapter is not run. Below it the adapter runs with the
    model name read off the URL: when it returns, its answer is the whole
    effect; when it throws (nothing is written by then), the middleware's
    [catch] answers 500 with the error's message, or [internal_error] for an
    empty one. *)
Theorem serveGemini_reaches_adapter (config : BridgeConfig) (cache : Auth.Cache)
    (env : Env) (req : IncomingMessage) (next : M unit) (n : Z) :
  isGeminiCall req = true ->
  isEmpty (token config) = false ->
  fst (Auth.isAuthorized cache req (token config)) = true ->
  let served := fst (serveGemini P config cache env req next) (freshWorld n) in
  let adapter :=
    handleGeminiGenerateContent P env req (modelNameOf (default "" (url req)))
      (freshWorld n) in
  snd served = inr tt
  /\ (maxConcurrent config <= n ->
      served = ({| activeRequests := n; log := [WriteRateLimit] |}, inr tt))
  /\ (n < maxConcurrent config ->
      (snd adapter = inr tt -> served = adapter)
      /\ (forall e,
            snd adapter = inl e ->
            served = ({| activeRequests := n; log := [internalError e] |}, inr tt))).
Proof.
  intros Hcall Hcfg Hauth served adapter. subst served.
  unfold serveGemini, middlewares, authMiddleware.
  assert (Hpath : bool_decide (default "/" (url req) = "/health") = false).
  { apply bool_decide_eq_false_2. intros Hh. unfold isGeminiCall in Hcall.
    destruct (url req) as [u|]; simpl in Hh; [|discriminate].
    subst u. simpl in Hcall. by rewrite andb_false_r in Hcall. }
  rewrite Hpath, Hcfg. cbv zeta. rewrite Hauth. cbn [negb]. rewrite Hcall. cbn [negb fst].
  cbn [freshWorld activeRequests].
  destruct (Z.leb_spec (maxConcurrent config) n) as [Hfull|Hfree].
  { split; [reflexivity|]. split; [reflexivity|]. intros; lia. }
  unfold tryCatch. fold (freshWorld n). fold adapter.
  destruct (gemini_run env req (modelNameOf (default "" (url req))) n)
    as [[answer Hrun] | [e Hrun]]; fold adapter in Hrun; rewrite Hrun.
  - split; [reflexivity|]. split; [intros; lia|]. intros _.
    split; [reflexivity|]. intros e. discriminate.
  - split; [reflexivity|]. split; [intros; lia|]. intros _.
    split; [discriminate|]. by intros e' [= <-].
Qed.

End GeminiExtras.

(** ** The model name in a Gemini URL *)

Section ModelName.
Import JS Json Http Runtime Server Observe.

Lemma searchModel_unfold (s : string) :
  searchModel s
  = match matchModelAt s with
    | Some name => Some name
    | None => match s with
              | EmptyString => None
              | String _ s' => searchModel s'
              end
    end.
Proof. by destruct s. Qed.

Lemma includes_unfold (s p : string) :
  includes s p
  = startsWith s p || match s with
                      | EmptyString => false
                      | String _ s' => includes s' p
                      end.
Proof. by destruct s. Qed.

Lemma startsWith_app (p t : string) : startsWith (p +:+ t) p = true.
Proof.
  unfold startsWith. induction p as [|c p IH]; [by destruct t|].
  rewrite app_cons. cbn. by destruct (ascii_dec c c).
Qed.

Lemma includes_app (a p t : string) : includes (a +:+ (p +:+ t)) p = true.
Proof.
  induction a as [|c a IH]; rewrite includes_unfold.
  - by rewrite app_nil_l, startsWith_app.
  - rewrite app_cons, IH. apply orb_true_r.
Qed.

Lemma sliceTo_add_app (a b : string) (i : nat) :
  sliceTo (String.length a + i) (a +:+ b) = a +:+ sliceTo i b.
Proof. induction a as [|c a IH]; [reflexivity|]. rewrite !app_cons. cbn. by rewrite IH. Qed.

Lemma beforeQuery_app (a b : string) :
  indexOf "?"%char a = None -> beforeQuery (a +:+ b) = a +:+ beforeQuery b.
Proof.
  intros Ha. unfold beforeQuery. rewrite (indexOf_app_None _ a b Ha).
  destruct (indexOf "?"%char b) as [i|]; cbn [option_map]; [|reflexivity].
  apply sliceTo_add_app.
Qed.

Lemma beforeQuery_at_query (a b : string) :
  indexOf "?"%char a = None -> beforeQuery (a +:+ String "?"%char b) = a.
Proof. intros Ha. rewrite (beforeQuery_app a _ Ha). apply app_empty_r. Qed.

Lemma spanModel_colon (m r : string) :
  indexOf ":"%char m = None ->
  spanModel (m +:+ String ":"%char r) = (m, String ":"%char r).
Proof.
  induction m as [|c m IH]; intros Hm; [reflexivity|].
  rewrite app_cons. cbn [spanModel]. cbn [indexOf] in Hm.
  destruct (Ascii.eqb c ":"%char); [discriminate|].
  rewrite IH; [reflexivity|]. by destruct (indexOf ":"%char m).
Qed.

Lemma spanModel_fst_no_colon (s : string) : indexOf ":"%char (fst (spanModel s)) = None.
Proof.
  induction s as [|c s IH]; [reflexivity|]. cbn [spanModel].
  destruct (Ascii.eqb c ":"%char) eqn:Hc; [reflexivity|].
  cbn [fst indexOf]. by rewrite Hc, IH.
Qed.

Lemma spanModel_no_colon (s : string) :
  indexOf ":"%char s = None -> snd (spanModel s) = "".
Proof.
  induction s as [|c s IH]; intros Hs; [reflexivity|].
  cbn [spanModel]. cbn [indexOf] in Hs.
  destruct (Ascii.eqb c ":"%char); [discriminate|].
  cbn [snd]. apply IH. by destruct (indexOf ":"%char s).
Qed.

Lemma matchModelAt_prefix (rest : string) :
  matchModelAt ("/v1/models/" +:+ rest)
  = match snd (spanModel rest) with
    | String c after =>
        if Ascii.eqb c ":"%char && negb (isEmpty (fst (spanModel rest))) && verbAt after
        then Some (fst (spanModel rest)) else None
    | EmptyString => None
    end.
Proof.
  unfold matchModelAt. rewrite startsWith_app. cbv zeta.
  by change (sliceFrom 11 ("/v1/models/" +:+ rest)) with rest.
Qed.

Lemma matchModelAt_Some (s name : string) :
  matchModelAt s = Some name -> isEmpty name = false /\ indexOf ":"%char name = None.
Proof.
  unfold matchModelAt. destruct (startsWith s "/v1/models/"); [|discriminate].
  cbv zeta. destruct (snd (spanModel _)) as [|c after]; [discriminate|].
  destruct (Ascii.eqb c ":"%char); [|discriminate].
  destruct (isEmpty (fst (spanModel _))) eqn:He; [discriminate|].
  destruct (verbAt after); [|discriminate]. cbn. intros [= <-].
  split; [exact He | apply spanModel_fst_no_colon].
Qed.

Lemma matchModelAt_no_colon (s : string) :
  indexOf ":"%char s = None -> matchModelAt s = None.
Proof.
  intros Hs. unfold matchModelAt. destruct (startsWith s "/v1/models/"); [|reflexivity].
  cbv zeta. by rewrite spanModel_no_colon by by apply sliceFrom_S_indexOf_None.
Qed.

Lemma searchModel_no_colon (s : string) :
  indexOf ":"%char s = None -> searchModel s = None.
Proof.
  induction s as [|c s IH]; intros Hs.
  - reflexivity.
  - rewrite searchModel_unfold, (matchModelAt_no_colon _ Hs). apply IH.
    cbn [indexOf] in Hs. destruct (Ascii.eqb c ":"%char); [discriminate|].
    by destruct (indexOf ":"%char s).
Qed.

Lemma verbAt_verb (verb tail : string) :
  In verb [ "generateContent"; "GenerateContent";
            "streamGenerateContent"; "streamgenerateContent" ] ->
  verbAt (verb +:+ tail) = true /\ indexOf "?"%char verb = None.
Proof. intros [<-|[<-|[<-|[<-|[]]]]]; (split; [by destruct tail | reflexivity]). Qed.

Lemma matchesVerb_verb (before verb tail : string) :
  In verb [ "generateContent"; "GenerateContent";
            "streamGenerateContent"; "streamgenerateContent" ] ->
  matchesVerb (before +:+ String ":"%char (verb +:+ tail)) = true.
Proof.
  intros Hv. unfold matchesVerb.
  destruct Hv as [<-|[<-|[<-|[<-|[]]]]].
  - change (String ":"%char ("generateContent" +:+ tail))
      with (":generateContent" +:+ tail).
    by rewrite includes_app.
  - change (String ":"%char ("GenerateContent" +:+ tail))
      with (":GenerateContent" +:+ tail).
    by rewrite includes_app, orb_true_r.
  - change (String ":"%char ("streamGenerateContent" +:+ tail))
      with (":streamGenerateContent" +:+ tail).
    by rewrite includes_app, !orb_true_r.
  - change (String ":"%char ("streamgenerateContent" +:+ tail))
      with (":streamgenerateContent" +:+ tail).
    by rewrite includes_app, !orb_true_r.
Qed.

(** X20: a [POST] to [/v1/models/{model}:generateContent] (or
    [:GenerateContent], [:streamGenerateContent],
    [:streamgenerateContent]), followed by anything, is intercepted as a
    Gemini call, and the model name handed to the adapter is exactly
    [{model}], for every non-empty model name without a colon or a question
    mark. *)
Theorem gemini_url_yields_its_model (req : IncomingMessage) (m verb tail : string) :
  method req = "POST" ->
  url req = Some ("/v1/models/" +:+ m +:+ ":" +:+ verb +:+ tail) ->
  isEmpty m = false ->
  indexOf ":"%char m = None ->
  indexOf "?"%char m = None ->
  In verb [ "generateContent"; "GenerateContent";
            "streamGenerateContent"; "streamgenerateContent" ] ->
  isGeminiCall req = true
  /\ modelNameOf (default "" (url req)) = m.
Proof.
  intros Hpost Hurl Hm Hcolon Hquery Hverb. rewrite Hurl. cbn [default id].
  destruct (verbAt_verb verb tail Hverb) as [_ Hvq].
  destruct (verbAt_verb verb (beforeQuery tail) Hverb) as [Hv _].
  split.
  - unfold isGeminiCall. rewrite Hurl, Hpost. cbn [default id].
    rewrite startsWith_app.
    change ("/v1/models/" +:+ m +:+ ":" +:+ verb +:+ tail)
      with ("/v1/models/" +:+ (m +:+ String ":"%char (verb +:+ tail))).
    rewrite <- app_assoc'. by rewrite matchesVerb_verb.
  - unfold modelNameOf.
    rewrite (beforeQuery_app "/v1/models/" _ eq_refl), (beforeQuery_app m _ Hquery),
      (beforeQuery_app ":" _ eq_refl), (beforeQuery_app verb _ Hvq).
    rewrite searchModel_unfold, matchModelAt_prefix.
    change (":" +:+ verb +:+ beforeQuery tail)
      with (String ":"%char (verb +:+ beforeQuery tail)).
    rewrite (spanModel_colon m _ Hcolon). cbn [fst snd].
    by rewrite Hm, Hv.
Qed.

(** X21: the model name handed to the Gemini adapter is never empty and
    never holds a colon, whatever the URL. *)
Theorem modelNameOf_well_formed (url : string) :
  isEmpty (modelNameOf url) = false /\ indexOf ":"%char (modelNameOf url) = None.
Proof.
  unfold modelNameOf.
  destruct (searchModel (beforeQuery url)) as [name|] eqn:Hs; [|by split].
  revert Hs. generalize (beforeQuery url). intros s.
  induction s as [|c s IH]; rewrite searchModel_unfold.
  - by destruct (matchModelAt "") eqn:E.
  - destruct (matchModelAt (String c s)) as [found|] eqn:E; [|exact IH].
    intros [= <-]. by apply (matchModelAt_Some (String c s)).
Qed.

(** X22: the interception test reads the whole URL, the model name only the
    part before the query. A [POST] under [/v1/models/] whose query
    mentions [:generateContent] and whose path has no colon is therefore
    served as a Gemini call, with the default model [gpt-4o-copilot]. *)
Theorem gemini_verb_in_query_gets_default_model (req : IncomingMessage)
    (path query verb tail : string) :
  method req = "POST" ->
  url req = Some ("/v1/models/" +:+ path +:+ "?" +:+ query +:+ ":" +:+ verb +:+ tail) ->
  indexOf ":"%char path = None ->
  indexOf "?"%char path = None ->
  In verb [ "generateContent"; "GenerateContent";
            "streamGenerateContent"; "streamgenerateContent" ] ->
  isGeminiCall req = true
  /\ modelNameOf (default "" (url req)) = "gpt-4o-copilot".
Proof.
  intros Hpost Hurl Hcolon Hquery Hverb. rewrite Hurl. cbn [default id]. split.
  - unfold isGeminiCall. rewrite Hurl, Hpost. cbn [default id].
    rewrite startsWith_app.
    change ("/v1/models/" +:+ path +:+ "?" +:+ query +:+ ":" +:+ verb +:+ tail)
      with ("/v1/models/" +:+ (path +:+ ("?" +:+ (query +:+ String ":"%char (verb +:+ tail))))).
    rewrite <- !app_assoc'. by rewrite matchesVerb_verb.
  - unfold modelNameOf.
    rewrite (beforeQuery_app "/v1/models/" _ eq_refl).
    change ("?" +:+ query +:+ ":" +:+ verb +:+ tail)
      with (String "?"%char (query +:+ ":" +:+ verb +:+ tail)).
    rewrite (beforeQuery_at_query path _ Hquery).
    rewrite searchModel_no_colon; [reflexivity|].
    by rewrite (indexOf_app_None ":"%char "/v1/models/" path eq_refl), Hcolon.
Qed.

End ModelName.

Section ServerInstances.
Import JS Json Http Runtime Gemini Server Observe Sample.

(** A body with a string for [contents] makes the adapter throw with
    nothing written; the sample body is answered. *)
Lemma gemini_answers_once_witness :
  handleGeminiGenerateContent platform geminiOffTypeEnv geminiBearerRequest "m"
    (freshWorld 0)
  = (freshWorld 0, inl (typeError platform "map"))
  /\ exists status answer,
       handleGeminiGenerateContent platform geminiEnv geminiBearerRequest "m"
         (freshWorld 0)
       = ({| activeRequests := 0; log := answer |}, inr tt)
       /\ (status = 401 <-> getBearerToken geminiEnv geminiBearerRequest = None).
Proof.
  split.
  - apply (proj1 (gemini_answers_once platform geminiOffTypeEnv geminiBearerRequest "m" 0)
             "secret" (JObject [("contents", JString "hello")]) _ eq_refl eq_refl eq_refl).
  - destruct (proj2 (gemini_answers_once platform geminiEnv geminiBearerRequest "m" 0))
      as (status & answer & Hrun & _ & Hstatus & _).
    { right. right. eexists _, _. split; reflexivity. }
    exists status, answer. split; [exact Hrun | exact Hstatus].
Defined.

(** The sample call reaches the adapter; with a string for [contents] the
    adapter throws and the middleware answers 500. *)
Lemma serveGemini_reaches_adapter_witness :
  fst (serveGemini platform bridgeConfig Auth.emptyCache geminiEnv geminiBearerRequest
         (ret tt)) (freshWorld 0)
  = handleGeminiGenerateContent platform geminiEnv geminiBearerRequest "gemini-2.5-pro"
      (freshWorld 0)
  /\ fst (serveGemini platform bridgeConfig Auth.emptyCache geminiOffTypeEnv
            geminiBearerRequest (ret tt)) (freshWorld 0)
     = ({| activeRequests := 0; log := [internalError (typeError platform "map")] |},
        inr tt).
Proof.
  split.
  - destruct (serveGemini_reaches_adapter platform bridgeConfig Auth.emptyCache geminiEnv
                geminiBearerRequest (ret tt) 0 eq_refl eq_refl eq_refl)
      as (_ & _ & Hfree).
    destruct (Hfree eq_refl) as [Hreturns _]. apply Hreturns. reflexivity.
  - destruct (serveGemini_reaches_adapter platform bridgeConfig Auth.emptyCache
                geminiOffTypeEnv geminiBearerRequest (ret tt) 0 eq_refl eq_refl eq_refl)
      as (_ & _ & Hfree).
    destruct (Hfree eq_refl) as [_ Hthrows]. apply Hthrows. reflexivity.
Defined.

Lemma gemini_url_yields_its_model_witness :
  isGeminiCall geminiKeyRequest = true
  /\ modelNameOf (default "" (url geminiKeyRequest)) = "gemini-2.5-pro".
Proof.
  apply (gemini_url_yields_its_model geminiKeyRequest "gemini-2.5-pro" "generateContent"
           "?key=secret"); try reflexivity.
  by left.
Defined.

Lemma gemini_verb_in_query_gets_default_model_witness :
  isGeminiCall
    {| method := "POST"; url := Some "/v1/models/x?alt=:generateContent";
       authorization := None; host := None; others := ∅ |} = true
  /\ modelNameOf "/v1/models/x?alt=:generateContent" = "gpt-4o-copilot".
Proof.
  apply (gemini_verb_in_query_gets_default_model
           {| method := "POST"; url := Some "/v1/models/x?alt=:generateContent";
              authorization := None; host := None; others := ∅ |}
           "x" "alt=" "generateContent" ""); try reflexivity.
  by left.
Defined.

End ServerInstances.
